(** * mcp-civic-data: the HTTP gateway and the provider adapters

    A shallow embedding of [src/mcp_govt_api]: the gateway
    [utils/http.py], the configuration object [utils/config.py] and the
    tool modules [tools/weather.py], [tools/census.py], [tools/nasa.py],
    [tools/economics.py], [tools/eu_data.py] and [tools/datagov.py].

    Conventions of the embedding.
    - A Python [str] is the [string] of its UTF-8 encoding; lengths and
      slices count characters (code points).  The case mappings are
      defined on the characters below U+0100 and are built-ins beyond.
    - A value produced by [response.json()] is a [json]; a JSON object is
      an association list in insertion order (a Python dict iterates in
      that order), a JSON number is the exact rational it denotes (an
      int, or a float within the range of the floats).
    - The coroutines run in the monad [M]: they read the process-wide
      [config] and the upstream servers, append every outbound GET to a
      request log, and either return a value or raise.
    - Built-ins of Python whose full behaviour is outside this repository
      ([str()] of an arbitrary value, [int()], [float()], float
      formatting, the case of characters from U+0100 on) are the methods
      of the class [PyBuiltins]. *)

From Stdlib Require Import ZArith QArith Qabs String Ascii List Bool Lia.
From Stdlib Require Import Permutation Sorted.
From Stdlib Require Import Floats.SpecFloat.
From stdpp Require Import base option list strings gmap pretty.

Set Warnings "-register-all".
Local Open Scope Z_scope.
#[local] Arguments String.append !_ _ / : simpl nomatch.

(** ** Python values and the operations the tools use on them *)

Module Py.

(** *** Strings

    A [str] is kept as the bytes of its UTF-8 encoding.  A character
    (code point) is a lead byte followed by its continuation bytes
    [10xxxxxx]; [len], indexing, iteration and slicing count characters,
    not bytes. *)

Definition is_cont (c : ascii) : bool :=
  let n := N_of_ascii c in ((128 <=? n) && (n <=? 191))%N.

Definition starts_cont (s : string) : bool :=
  match s with
  | String c _ => is_cont c
  | EmptyString => false
  end.

(** The characters of a string, each as a one-character string: what
    iterating or indexing a [str] yields. *)
Fixpoint chars (s : string) : list string :=
  match s with
  | EmptyString => []
  | String c s' =>
      match chars s' with
      | g :: gs =>
          if starts_cont g then String c g :: gs
          else String c EmptyString :: g :: gs
      | [] => [String c EmptyString]
      end
  end.

(** [len(s)] *)
Definition str_len (s : string) : nat := length (chars s).

(** [s[:n]] *)
Definition str_take (n : nat) (s : string) : string :=
  String.concat "" (take n (chars s)).

(** [s.isascii()] *)
Fixpoint is_ascii (s : string) : bool :=
  match s with
  | EmptyString => true
  | String c s' => (N_of_ascii c <? 128)%N && is_ascii s'
  end.

(** Every character of [s] is below U+0100: its encoding is one byte
    below 128, or one of the lead bytes [C2], [C3] and a continuation
    byte. *)
Fixpoint is_latin1 (s : string) : bool :=
  match s with
  | EmptyString => true
  | String c s' =>
      let n := N_of_ascii c in
      if (n <? 128)%N then is_latin1 s'
      else if ((n =? 194) || (n =? 195))%N then
        match s' with
        | String d s'' => is_cont d && is_latin1 s''
        | EmptyString => false
        end
      else false
  end.

Definition upper_ascii (c : ascii) : ascii :=
  let n := N_of_ascii c in
  if ((97 <=? n) && (n <=? 122))%N then ascii_of_N (n - 32) else c.

Definition lower_ascii (c : ascii) : ascii :=
  let n := N_of_ascii c in
  if ((65 <=? n) && (n <=? 90))%N then ascii_of_N (n + 32) else c.

Fixpoint str_map (f : ascii -> ascii) (s : string) : string :=
  match s with
  | EmptyString => EmptyString
  | String c s' => String (f c) (str_map f s')
  end.

(** The upper case of the characters below U+0100.  U+00E0..U+00FE map
    to U+00C0..U+00DE (U+00F7, the division sign, has no case); three
    characters leave the block: U+00DF (sharp s) becomes the two letters
    [SS], U+00FF becomes U+0178 and U+00B5 (micro sign) becomes U+039C. *)
Fixpoint upper_latin1 (s : string) : string :=
  match s with
  | EmptyString => EmptyString
  | String c s' =>
      let n := N_of_ascii c in
      if (n =? 195)%N then
        match s' with
        | String d s'' =>
            let m := N_of_ascii d in
            if (m =? 159)%N then "SS" +:+ upper_latin1 s''
            else if (m =? 191)%N then
              String (ascii_of_N 197) (String (ascii_of_N 184) (upper_latin1 s''))
            else if ((160 <=? m) && (m <=? 190) && negb (m =? 183))%N then
              String c (String (ascii_of_N (m - 32)) (upper_latin1 s''))
            else String c (String d (upper_latin1 s''))
        | EmptyString => String c EmptyString
        end
      else if (n =? 194)%N then
        match s' with
        | String d s'' =>
            if (N_of_ascii d =? 181)%N then
              String (ascii_of_N 206) (String (ascii_of_N 156) (upper_latin1 s''))
            else String c (String d (upper_latin1 s''))
        | EmptyString => String c EmptyString
        end
      else String (upper_ascii c) (upper_latin1 s')
  end.

(** The lower case of the characters below U+0100: U+00C0..U+00DE map to
    U+00E0..U+00FE (U+00D7, the multiplication sign, has no case). *)
Fixpoint lower_latin1 (s : string) : string :=
  match s with
  | EmptyString => EmptyString
  | String c s' =>
      let n := N_of_ascii c in
      if (n =? 195)%N then
        match s' with
        | String d s'' =>
            let m := N_of_ascii d in
            if ((128 <=? m) && (m <=? 158) && negb (m =? 151))%N then
              String c (String (ascii_of_N (m + 32)) (lower_latin1 s''))
            else String c (String d (lower_latin1 s''))
        | EmptyString => String c EmptyString
        end
      else if (n =? 194)%N then
        match s' with
        | String d s'' => String c (String d (lower_latin1 s''))
        | EmptyString => String c EmptyString
        end
      else String (lower_ascii c) (lower_latin1 s')
  end.

(** The title case of the first character, the lower case of the rest:
    title case is upper case except for U+00DF, which becomes [Ss]. *)
Definition capitalize_latin1 (s : string) : string :=
  match chars s with
  | [] => EmptyString
  | first :: rest =>
      (if String.eqb first "ß" then "Ss" else upper_latin1 first)
        +:+ lower_latin1 (String.concat "" rest)
  end.

(** [s.startswith(p)] *)
Fixpoint startswith (p s : string) : bool :=
  match p, s with
  | EmptyString, _ => true
  | String a p', String b s' => if Ascii.eqb a b then startswith p' s' else false
  | String _ _, EmptyString => false
  end.

(** [needle in hay] *)
Fixpoint contains (needle hay : string) : bool :=
  startswith needle hay ||
  match hay with
  | EmptyString => false
  | String _ hay' => contains needle hay'
  end.

(** [bool(s)] for a string *)
Definition str_truthy (s : string) : bool :=
  match s with EmptyString => false | String _ _ => true end.

(** [sep.join(parts)] *)
Definition join (sep : string) (parts : list string) : string :=
  String.concat sep parts.

(** [str(n)] for an int *)
Definition str_int (n : Z) : string := pretty n.

(** *** Parsed JSON *)

Inductive json : Type :=
| JNull
| JBool (b : bool)
| JNum (q : Q)
| JStr (s : string)
| JArr (items : list json)
| JObj (fields : list (string * json)).

(** A dict with string keys, in insertion order. *)
Abbreviation dict := (list (string * json)).

Fixpoint dict_lookup (k : string) (d : dict) : option json :=
  match d with
  | [] => None
  | (k', v) :: d' => if String.eqb k k' then Some v else dict_lookup k d'
  end.

(** [d[k] = v]: an existing key keeps its position, a new key goes last. *)
Fixpoint dict_set (k : string) (v : json) (d : dict) : dict :=
  match d with
  | [] => [(k, v)]
  | (k', v') :: d' =>
      if String.eqb k k' then (k', v) :: d' else (k', v') :: dict_set k v d'
  end.

(** [bool(v)] *)
Definition truthy (v : json) : bool :=
  match v with
  | JNull => false
  | JBool b => b
  | JNum q => negb (Qeq_bool q 0)
  | JStr s => str_truthy s
  | JArr l => match l with [] => false | _ => true end
  | JObj d => match d with [] => false | _ => true end
  end.

(** *** Exceptions and results *)

Inductive exn : Type :=
| Exception (msg : string)
    (** [raise Exception(msg)], the only exception the gateway raises *)
| PyError.
    (** any built-in exception of the interpreter: KeyError, IndexError,
        TypeError, AttributeError, ValueError (JSONDecodeError), ... *)

Inductive result (A : Type) : Type :=
| Ok (a : A)
| Raise (e : exn).
Arguments Ok {A} a.
Arguments Raise {A} e.

Definition of_option {A} (o : option A) : result A :=
  match o with Some a => Ok a | None => Raise PyError end.

(** [v[k]] with a string key: only a dict has string keys. *)
Definition getitem (v : json) (k : string) : result json :=
  match v with
  | JObj d => of_option (dict_lookup k d)
  | _ => Raise PyError
  end.

(** [v.get(k, default)]: an attribute of dicts only. *)
Definition get (v : json) (k : string) (dflt : json) : result json :=
  match v with
  | JObj d => Ok (default dflt (dict_lookup k d))
  | _ => Raise PyError
  end.

(** [v[i]] with a non-negative int literal: lists and strings are
    indexed; a dict from JSON has no int key. *)
Definition index (v : json) (i : nat) : result json :=
  match v with
  | JArr l => of_option (l !! i)
  | JStr s => of_option (JStr <$> chars s !! i)
  | _ => Raise PyError
  end.

(** [v[:n]] *)
Definition slice_to (v : json) (n : nat) : result json :=
  match v with
  | JArr l => Ok (JArr (take n l))
  | JStr s => Ok (JStr (str_take n s))
  | _ => Raise PyError
  end.

(** [v[n:]] *)
Definition slice_from (v : json) (n : nat) : result json :=
  match v with
  | JArr l => Ok (JArr (drop n l))
  | JStr s => Ok (JStr (String.concat "" (drop n (chars s))))
  | _ => Raise PyError
  end.

(** [len(v)] *)
Definition len (v : json) : result nat :=
  match v with
  | JArr l => Ok (length l)
  | JObj d => Ok (length d)
  | JStr s => Ok (str_len s)
  | _ => Raise PyError
  end.

(** The items a [for] loop over [v] visits: the elements of a list, the
    characters of a string, the keys of a dict. *)
Definition iter (v : json) : result (list json) :=
  match v with
  | JArr l => Ok l
  | JStr s => Ok (JStr <$> chars s)
  | JObj d => Ok ((fun kv => JStr (fst kv)) <$> d)
  | _ => Raise PyError
  end.

(** [isinstance(v, dict)] *)
Definition is_dict (v : json) : bool :=
  match v with JObj _ => true | _ => false end.

End Py.
Export Py.

(** Built-ins of the interpreter that the embedding does not define:
    the tools call them, and a property below assumes of them what its
    statement says and nothing else. *)
Class PyBuiltins : Type := {
  (** [repr(v)] of a number, a list or a dict *)
  py_repr : json -> string;
  (** [int(v)], [None] when it raises *)
  py_int : json -> option Z;
  (** [float(v)], [None] when it raises *)
  py_float : json -> option spec_float;
  (** [str(x)] of a float *)
  float_str : spec_float -> string;
  (** [x / y] for a number [x] and a float [y], the operands given by
      their exact values; [None] when it raises: an int beyond the range
      of a float cannot be converted (OverflowError) *)
  float_div : Q -> Q -> option Q;
  (** [format(x, spec)] of a number for a spec of presentation type [f];
      [None] when it raises, as for [float_div] *)
  float_format : string -> Q -> option string;
  (** [s.upper()], [s.lower()] and [s.capitalize()] of a string with a
      character at or above U+0100 *)
  py_upper : string -> string;
  py_lower : string -> string;
  py_capitalize : string -> string
}.

(** [s.upper()] *)
Definition upper `{PyBuiltins} (s : string) : string :=
  if is_latin1 s then upper_latin1 s else py_upper s.

(** [s.lower()] *)
Definition lower `{PyBuiltins} (s : string) : string :=
  if is_latin1 s then lower_latin1 s else py_lower s.

(** [s.capitalize()] *)
Definition capitalize `{PyBuiltins} (s : string) : string :=
  if is_latin1 s then capitalize_latin1 s else py_capitalize s.

(** [str(v)], which is what an f-string field [{v}] renders. *)
Definition str `{PyBuiltins} (v : json) : string :=
  match v with
  | JStr s => s
  | JNull => "None"
  | JBool true => "True"
  | JBool false => "False"
  | _ => py_repr v
  end.

(** The line feed of the source's ["\n"]. *)
Definition nl : string := String "010"%char EmptyString.

#[export] Instance result_ret : MRet result := fun _ a => Ok a.
#[export] Instance result_bind : MBind result := fun _ _ k r =>
  match r with Ok a => k a | Raise e => Raise e end.
#[export] Instance result_fmap : FMap result := fun _ _ f r =>
  match r with Ok a => Ok (f a) | Raise e => Raise e end.

(** ** utils/config.py and utils/http.py *)

Module Gateway.

Record Config : Type := {
  openweather_api_key : option string;
  nasa_api_key : option string;
  timeout : Z
}.

(** [bool(key)] of an optional key: [None] and the empty string are false. *)
Definition key_truthy (k : option string) : bool :=
  match k with Some s => str_truthy s | None => false end.

Definition has_openweather (c : Config) : bool :=
  key_truthy (openweather_api_key c).

Definition has_nasa_key (c : Config) : bool :=
  key_truthy (nasa_api_key c).

(** [Config.get_availability_summary]; the check marks are the UTF-8
    bytes of the source's characters. *)
Definition availability_lines (c : Config) : list string :=
  let lines := ["API Availability:";
                "  ✓ NOAA (no key required)";
                "  ✓ Census (no key required)"] in
  let lines :=
    if has_nasa_key c
    then lines ++ ["  ✓ NASA (using API key for higher limits)"]
    else lines ++ ["  ✓ NASA (no key, limited to 30 req/hour)"] in
  let lines :=
    if has_openweather c
    then lines ++ ["  ✓ OpenWeather (API key configured)"]
    else lines ++ ["  ✗ OpenWeather (OPENWEATHER_API_KEY not set)"] in
  lines ++ ["  ✓ World Bank (no key required)";
            "  ✓ Data.gov (no key required)";
            "  ✓ EU Open Data (no key required)"].

Definition get_availability_summary (c : Config) : string :=
  join nl (availability_lines c).

(** One outbound GET: the [url] and the [params] given to
    [http_client.get]. *)
Definition request : Type := string * option dict.

(** What [http_client.get] followed by [raise_for_status] and [json()]
    can observe of the upstream server. *)
Inductive http_outcome : Type :=
| TimeoutException
    (** [httpx.TimeoutException] *)
| RequestError (msg : string)
    (** any other [httpx.RequestError] [e], with [str(e) = msg] *)
| Response (status_code : Z) (text : string) (body : option json).
    (** a response; [body] is [response.json()], [None] when the text is
        not JSON *)

(** The servers: what they answer to a request may depend on the
    requests made before it. *)
Definition upstream : Type := list request -> request -> http_outcome.

Record env : Type := {
  config : Config;
  http_client : upstream
}.

(** A coroutine: reads the environment, extends the request log, and
    returns or raises. *)
Definition M (A : Type) : Type :=
  env -> list request -> result A * list request.

#[export] Instance M_ret : MRet M := fun _ a _ log => (Ok a, log).

#[export] Instance M_bind : MBind M := fun _ _ k m e log =>
  match m e log with
  | (Ok a, log') => k a e log'
  | (Raise x, log') => (Raise x, log')
  end.

Definition raise {A} (x : exn) : M A := fun _ log => (Raise x, log).

Definition lift {A} (r : result A) : M A := fun _ log => (r, log).

Definition read_config : M Config := fun e log => (Ok (config e), log).

(** [await http_client.get(url, params=params)] *)
Definition http_get (url : string) (params : option dict) : M http_outcome :=
  fun e log => (Ok (http_client e log (url, params)), log ++ [(url, params)]).

(** [try: m  except Exception: h] *)
Definition try_except {A} (m : M A) (h : M A) : M A := fun e log =>
  match m e log with
  | (Ok a, log') => (Ok a, log')
  | (Raise _, log') => h e log'
  end.

(** [response.raise_for_status()] of httpx raises [HTTPStatusError]
    unless the status is a 2xx. *)
Definition is_success (status_code : Z) : bool :=
  (200 <=? status_code) && (status_code <=? 299).

Definition fetch_json (url : string) (params : option dict) : M json :=
  cfg ← read_config;
  r ← http_get url params;
  match r with
  | Response status_code text body =>
      if is_success status_code then lift (of_option body)
      else raise (Exception
                    ("HTTP " +:+ str_int status_code +:+ ": " +:+ str_take 200 text))
  | TimeoutException =>
      raise (Exception
               ("Request timed out after " +:+ str_int (timeout cfg) +:+ "s: " +:+ url))
  | RequestError msg =>
      raise (Exception ("Request failed: " +:+ msg))
  end.

End Gateway.
Export Gateway.

(** ** tools/weather.py *)

Module Weather.
Section Tools.
Context `{PyBuiltins}.

Definition NOAA_BASE : string := "https://api.weather.gov".

(** The string appended to [result] for one [period]. *)
Definition forecast_entry (period : json) : result string :=
  name ← getitem period "name";
  detailed ← getitem period "detailedForecast";
  mret ("**" +:+ str name +:+ "**: " +:+ str detailed).

(** The list [result] of [get_weather_forecast] before it is joined. *)
Definition forecast_result (latitude longitude : spec_float) (forecast_data : json)
  : result (list string) :=
  properties ← getitem forecast_data "properties";
  periods ← getitem properties "periods";
  shown ← slice_to periods 6 ≫= iter;
  entries ← mapM forecast_entry shown;
  mret (("Weather forecast for " +:+ float_str latitude +:+ ", "
           +:+ float_str longitude +:+ ":" +:+ nl) :: entries).

(** [http_client.get] takes a [str] for its URL. *)
Definition fetch_json_at (url : json) : M json :=
  match url with
  | JStr u => fetch_json u None
  | _ => raise PyError
  end.

Definition get_weather_forecast (latitude longitude : spec_float) : M string :=
  let points_url :=
    NOAA_BASE +:+ "/points/" +:+ float_str latitude +:+ "," +:+ float_str longitude in
  points_data ← fetch_json points_url None;
  forecast_url ← lift (getitem points_data "properties" ≫= fun p => getitem p "forecast");
  forecast_data ← fetch_json_at forecast_url;
  result ← lift (forecast_result latitude longitude forecast_data);
  mret (join (nl +:+ nl) result).

Definition alerts_error : string :=
  "Error: State must be a 2-letter code (e.g., 'CA', 'TX')".

(** The string appended to [result] for one [alert]. *)
Definition alert_entry (alert : json) : result string :=
  props ← getitem alert "properties";
  event ← getitem props "event";
  severity ← getitem props "severity";
  area ← get props "areaDesc" (JStr "N/A");
  headline ← get props "headline" (JStr "");
  mret ("**" +:+ str event +:+ "** (" +:+ str severity +:+ ")" +:+ nl
          +:+ "Areas: " +:+ str area +:+ nl
          +:+ str headline).

(** The list [result] of [get_weather_alerts] before it is joined, for a
    non-empty [alerts]. *)
Definition alerts_result (state : string) (alerts : json) : result (list string) :=
  shown ← slice_to alerts 10 ≫= iter;
  entries ← mapM alert_entry shown;
  mret (("Active weather alerts for " +:+ state +:+ ":" +:+ nl) :: entries).

Definition get_weather_alerts (state : string) : M string :=
  let state := upper state in
  if negb (str_len state =? 2)%nat then mret alerts_error
  else
    let url := NOAA_BASE +:+ "/alerts/active" in
    data ← fetch_json url (Some [("area", JStr state)]);
    alerts ← lift (get data "features" (JArr []));
    if negb (truthy alerts) then mret ("No active weather alerts for " +:+ state)
    else
      result ← lift (alerts_result state alerts);
      mret (join (nl +:+ nl +:+ "---" +:+ nl +:+ nl) result).

Definition openweather_denied : string :=
  "Error: OpenWeather tools require OPENWEATHER_API_KEY environment variable".

(** [config.openweather_api_key] as a parameter value. *)
Definition key_value (k : option string) : json :=
  match k with Some s => JStr s | None => JNull end.

(** [s.capitalize()] is a method of [str] only. *)
Definition capitalize_value (v : json) : result string :=
  match v with JStr s => Ok (capitalize s) | _ => Raise PyError end.

Definition global_weather_text (data : json) : result string :=
  weather ← getitem data "weather" ≫= fun w => index w 0;
  main ← getitem data "main";
  wind ← get data "wind" (JObj []);
  name ← getitem data "name";
  country ← getitem data "sys" ≫= fun s => getitem s "country";
  description ← getitem weather "description" ≫= capitalize_value;
  temp ← getitem main "temp";
  feels_like ← getitem main "feels_like";
  humidity ← getitem main "humidity";
  speed ← get wind "speed" (JStr "N/A");
  pressure ← getitem main "pressure";
  mret ("**Weather in " +:+ str name +:+ ", " +:+ str country +:+ "**" +:+ nl +:+ nl
          +:+ "Conditions: " +:+ description +:+ nl
          +:+ "Temperature: " +:+ str temp +:+ "°C (feels like " +:+ str feels_like
          +:+ "°C)" +:+ nl
          +:+ "Humidity: " +:+ str humidity +:+ "%" +:+ nl
          +:+ "Wind: " +:+ str speed +:+ " m/s" +:+ nl
          +:+ "Pressure: " +:+ str pressure +:+ " hPa").

Definition get_global_weather (city country_code : string) : M string :=
  cfg ← read_config;
  if negb (has_openweather cfg) then mret openweather_denied
  else
    let query :=
      if str_truthy country_code then city +:+ "," +:+ country_code else city in
    let url := "https://api.openweathermap.org/data/2.5/weather" in
    let params := [("q", JStr query);
                   ("appid", key_value (openweather_api_key cfg));
                   ("units", JStr "metric")] in
    data ← fetch_json url (Some params);
    lift (global_weather_text data).

Definition query_noaa (endpoint : string) (params : option dict) : M json :=
  let url := NOAA_BASE +:+ endpoint in
  fetch_json url params.

(** [params or {}] *)
Definition params_or_empty (params : option dict) : dict :=
  match params with
  | Some (kv :: d) => kv :: d
  | _ => []
  end.

Definition query_openweather (endpoint : string) (params : option dict) : M json :=
  cfg ← read_config;
  if negb (has_openweather cfg)
  then mret (JObj [("error",
                    JStr "OpenWeather requires OPENWEATHER_API_KEY environment variable")])
  else
    let url := "https://api.openweathermap.org" +:+ endpoint in
    let params := params_or_empty params in
    let params := dict_set "appid" (key_value (openweather_api_key cfg)) params in
    fetch_json url (Some params).

End Tools.
End Weather.

(** ** Python numbers as tools/census.py computes with them *)

Module Num.

(** A Python [float] is an IEEE 754 binary64. *)
Definition prec : Z := 53.
Definition emax : Z := 1024.

(** The value of an arithmetic expression: an [int] or a [float]. *)
Inductive num : Type :=
| Int (z : Z)
| Float (f : spec_float).

(** An overflowing conversion or division raises OverflowError. *)
Definition finite_or_raise (f : spec_float) : result spec_float :=
  match f with
  | S754_infinity _ => Raise PyError
  | _ => Ok f
  end.

(** [float(z)]: the int rounded to the nearest float. *)
Definition float_of_int (z : Z) : result spec_float :=
  finite_or_raise (binary_normalize prec emax z 0 false).

(** [a / b] on ints: the quotient rounded once to the nearest float;
    ZeroDivisionError when [b] is zero. *)
Definition int_truediv (a b : Z) : result spec_float :=
  if b =? 0 then Raise PyError
  else if a =? 0 then Ok (S754_zero (b <? 0))
  else
    let '(q, e, l) := SFdiv_core_binary prec emax (Z.abs a) 0 (Z.abs b) 0 in
    finite_or_raise (binary_round_aux prec emax (xorb (a <? 0) (b <? 0)) q e l).

(** [x * n] for a float [x] and an int [n]. *)
Definition float_mul_int (x : spec_float) (n : Z) : result spec_float :=
  y ← float_of_int n;
  Ok (SFmul prec emax x y).

(** Round the rational [n / d] ([d > 0]) to the nearest integer, ties
    to even. *)
Definition round_half_even (n d : Z) : Z :=
  let q := n / d in
  let r := n mod d in
  if (d <? 2 * r) || ((d =? 2 * r) && Z.odd q) then q + 1 else q.

(** [f"{x:.1f}"] of a float: its exact value rounded to one decimal. *)
Definition format_1f (x : spec_float) : string :=
  match x with
  | S754_nan => "nan"
  | S754_infinity s => if s then "-inf" else "inf"
  | S754_zero s => if s then "-0.0" else "0.0"
  | S754_finite s m e =>
      let tenths :=
        match e with
        | Z.neg k => round_half_even (Z.pos m * 10) (Z.pow 2 (Z.pos k))
        | _ => Z.pos m * Z.pow 2 e * 10
        end in
      (if s then "-" else "") +:+ str_int (tenths / 10) +:+ "." +:+ str_int (tenths mod 10)
  end.

(** [f"{v:.1f}"] of a number: an int is converted to float first. *)
Definition num_format_1f (v : num) : result string :=
  match v with
  | Int z => format_1f <$> float_of_int z
  | Float f => Ok (format_1f f)
  end.

Fixpoint group3 (rev_digits : list ascii) : list ascii :=
  match rev_digits with
  | a :: ((b :: (c :: ((_ :: _) as rest))))  =>
      a :: b :: c :: ","%char :: group3 rest
  | _ => rev_digits
  end.

(** [f"{z:,}"] of an int: decimal digits in groups of three. *)
Definition format_thousands (z : Z) : string :=
  let digits := list_ascii_of_string (str_int (Z.abs z)) in
  (if z <? 0 then "-" else "")
    +:+ string_of_list_ascii (rev (group3 (rev digits))).

End Num.
Export Num.

(** ** tools/census.py *)

Module Census.

Definition CENSUS_BASE : string := "https://api.census.gov/data".
Definition ACS_YEAR : string := "2022".
Definition ACS_DATASET : string := CENSUS_BASE +:+ "/" +:+ ACS_YEAR +:+ "/acs/acs5".

(** The rows of the literal, in the order of the source. *)
Definition STATE_FIPS_items : list (string * string) :=
  [ ("AL", "01"); ("AK", "02"); ("AZ", "04"); ("AR", "05"); ("CA", "06");
    ("CO", "08"); ("CT", "09"); ("DE", "10"); ("FL", "12"); ("GA", "13");
    ("HI", "15"); ("ID", "16"); ("IL", "17"); ("IN", "18"); ("IA", "19");
    ("KS", "20"); ("KY", "21"); ("LA", "22"); ("ME", "23"); ("MD", "24");
    ("MA", "25"); ("MI", "26"); ("MN", "27"); ("MS", "28"); ("MO", "29");
    ("MT", "30"); ("NE", "31"); ("NV", "32"); ("NH", "33"); ("NJ", "34");
    ("NM", "35"); ("NY", "36"); ("NC", "37"); ("ND", "38"); ("OH", "39");
    ("OK", "40"); ("OR", "41"); ("PA", "42"); ("RI", "44"); ("SC", "45");
    ("SD", "46"); ("TN", "47"); ("TX", "48"); ("UT", "49"); ("VT", "50");
    ("VA", "51"); ("WA", "53"); ("WV", "54"); ("WI", "55"); ("WY", "56");
    ("DC", "11"); ("PR", "72") ].

Definition STATE_FIPS : gmap string string := list_to_map STATE_FIPS_items.

(** The first two statements of each census tool:
    [state_code = state.upper()] and
    [fips = STATE_FIPS.get(state_code, state_code)]. *)
Definition fips_of `{PyBuiltins} (state : string) : string :=
  let state_code := upper state in
  default state_code (STATE_FIPS !! state_code).

(** [int(row[i]) if row[i] else 0] *)
Definition int_or_zero `{PyBuiltins} (row : json) (i : nat) : result Z :=
  v ← index row i;
  if truthy v then of_option (py_int v) else Ok 0.

(** *** get_population *)

Definition population_url `{PyBuiltins} (state county : string) : string :=
  let fips := fips_of state in
  let variables := "NAME,B01003_001E" in
  let geo :=
    if str_truthy county then "county:*&in=state:" +:+ fips
    else "state:" +:+ fips in
  ACS_DATASET +:+ "?get=" +:+ variables +:+ "&for=" +:+ geo.

(** The string appended to [result] for one [row]. *)
Definition population_entry `{PyBuiltins} (row : json) : result string :=
  name ← index row 0;
  pop ← int_or_zero row 1;
  mret ("- " +:+ str name +:+ ": " +:+ format_thousands pop).

(** The list [result] of [get_population] before it is joined. *)
Definition population_result `{PyBuiltins} (data : json) : result (list string) :=
  headers ← index data 0;
  rows ← slice_from data 1;
  shown ← slice_to rows 20 ≫= iter;
  entries ← mapM population_entry shown;
  mret (("Population Data (" +:+ ACS_YEAR +:+ " ACS 5-Year Estimates):" +:+ nl)
          :: entries).

Definition get_population `{PyBuiltins} (state county : string) : M string :=
  let url := population_url state county in
  data ← fetch_json url None;
  result ← lift (population_result data);
  mret (join nl result).

(** *** get_demographics *)

Definition demographics_variables : string :=
  join "," ["NAME"; "B01003_001E"; "B01002_001E"; "B19013_001E";
            "B02001_002E"; "B02001_003E"; "B02001_005E"; "B03001_003E"].

Definition demographics_url `{PyBuiltins} (state county : string) : string :=
  let fips := fips_of state in
  let geo :=
    if str_truthy county then "county:" +:+ county +:+ "&in=state:" +:+ fips
    else "state:" +:+ fips in
  ACS_DATASET +:+ "?get=" +:+ demographics_variables +:+ "&for=" +:+ geo.

(** The closure [pct] of [get_demographics], with the [total_pop] it
    captures:
    [f"{(n/total_pop*100):.1f}%" if total_pop else "N/A"]. *)
Definition pct (total_pop n : Z) : result string :=
  if negb (total_pop =? 0) then
    ratio ← int_truediv n total_pop;
    percent ← float_mul_int ratio 100;
    Ok (format_1f percent +:+ "%")
  else Ok "N/A".

(** [float(row[i]) if row[i] else 0] *)
Definition float_or_zero `{PyBuiltins} (row : json) (i : nat) : result num :=
  v ← index row i;
  if truthy v then Float <$> of_option (py_float v) else Ok (Int 0).

(** [f"{v}"] of a number *)
Definition num_str `{PyBuiltins} (v : num) : string :=
  match v with
  | Int z => str_int z
  | Float f => float_str f
  end.

Definition demographics_text `{PyBuiltins} (name : string) (total_pop : Z)
    (median_age : num) (median_income white black asian hispanic : Z)
  : result string :=
  pw ← pct total_pop white;
  pb ← pct total_pop black;
  pa ← pct total_pop asian;
  ph ← pct total_pop hispanic;
  Ok ("**Demographics for " +:+ name +:+ "** (" +:+ ACS_YEAR
        +:+ " ACS 5-Year Estimates)" +:+ nl +:+ nl
        +:+ "**Population**: " +:+ format_thousands total_pop +:+ nl
        +:+ "**Median Age**: " +:+ num_str median_age +:+ nl
        +:+ "**Median Household Income**: $" +:+ format_thousands median_income
        +:+ nl +:+ nl
        +:+ "**Race/Ethnicity**:" +:+ nl
        +:+ "- White: " +:+ format_thousands white +:+ " (" +:+ pw +:+ ")" +:+ nl
        +:+ "- Black: " +:+ format_thousands black +:+ " (" +:+ pb +:+ ")" +:+ nl
        +:+ "- Asian: " +:+ format_thousands asian +:+ " (" +:+ pa +:+ ")" +:+ nl
        +:+ "- Hispanic/Latino: " +:+ format_thousands hispanic
        +:+ " (" +:+ ph +:+ ")").

Definition get_demographics `{PyBuiltins} (state county : string) : M string :=
  let url := demographics_url state county in
  data ← fetch_json url None;
  lift (row ← index data 1;
        name ← index row 0;
        total_pop ← int_or_zero row 1;
        median_age ← float_or_zero row 2;
        median_income ← int_or_zero row 3;
        white ← int_or_zero row 4;
        black ← int_or_zero row 5;
        asian ← int_or_zero row 6;
        hispanic ← int_or_zero row 7;
        demographics_text (str name) total_pop median_age median_income
                          white black asian hispanic).

(** *** get_housing_stats *)

Definition housing_variables : string :=
  join "," ["NAME"; "B25001_001E"; "B25002_002E"; "B25002_003E";
            "B25077_001E"; "B25064_001E"].

Definition housing_url `{PyBuiltins} (state county : string) : string :=
  let fips := fips_of state in
  let geo :=
    if str_truthy county then "county:" +:+ county +:+ "&in=state:" +:+ fips
    else "state:" +:+ fips in
  ACS_DATASET +:+ "?get=" +:+ housing_variables +:+ "&for=" +:+ geo.

(** [(vacant / total_units * 100) if total_units else 0] *)
Definition vacancy_rate (vacant total_units : Z) : result num :=
  if negb (total_units =? 0) then
    ratio ← int_truediv vacant total_units;
    Float <$> float_mul_int ratio 100
  else Ok (Int 0).

(** The fragment [f"{vacancy_rate:.1f}% vacancy rate"] of the housing
    text. *)
Definition vacancy_text (vacant total_units : Z) : result string :=
  rate ← vacancy_rate vacant total_units;
  shown ← num_format_1f rate;
  Ok (shown +:+ "% vacancy rate").

Definition housing_text (name : string)
    (total_units occupied vacant median_value median_rent : Z) : result string :=
  vacancy ← vacancy_text vacant total_units;
  Ok ("**Housing Statistics for " +:+ name +:+ "** (" +:+ ACS_YEAR
        +:+ " ACS 5-Year Estimates)" +:+ nl +:+ nl
        +:+ "**Total Housing Units**: " +:+ format_thousands total_units +:+ nl
        +:+ "**Occupied**: " +:+ format_thousands occupied +:+ nl
        +:+ "**Vacant**: " +:+ format_thousands vacant
        +:+ " (" +:+ vacancy +:+ ")" +:+ nl +:+ nl
        +:+ "**Median Home Value**: $" +:+ format_thousands median_value +:+ nl
        +:+ "**Median Gross Rent**: $" +:+ format_thousands median_rent +:+ "/month").

Definition get_housing_stats `{PyBuiltins} (state county : string) : M string :=
  let url := housing_url state county in
  data ← fetch_json url None;
  lift (row ← index data 1;
        name ← index row 0;
        total_units ← int_or_zero row 1;
        occupied ← int_or_zero row 2;
        vacant ← int_or_zero row 3;
        median_value ← int_or_zero row 4;
        median_rent ← int_or_zero row 5;
        housing_text (str name) total_units occupied vacant median_value median_rent).

(** *** query_census *)

Definition query_census_url (dataset : string) (variables : list string)
    (geo year : string) : string :=
  let var_str := join "," variables in
  CENSUS_BASE +:+ "/" +:+ year +:+ "/" +:+ dataset +:+ "?get=" +:+ var_str
    +:+ "&for=" +:+ geo.

Definition query_census (dataset : string) (variables : list string)
    (geo year : string) : M json :=
  fetch_json (query_census_url dataset variables geo year) None.

End Census.

(** ** tools/nasa.py *)

Module Nasa.

Definition NASA_BASE : string := "https://api.nasa.gov".

(** [config.nasa_api_key or "DEMO_KEY"] *)
Definition get_api_key (cfg : Config) : string :=
  match nasa_api_key cfg with
  | Some k => if str_truthy k then k else "DEMO_KEY"
  | None => "DEMO_KEY"
  end.

(** [v == s] for a string literal [s] *)
Definition eq_str (v : json) (s : string) : bool :=
  match v with JStr t => String.eqb t s | _ => false end.

Section Tools.
Context `{PyBuiltins}.

Definition astronomy_params (cfg : Config) (date : string) : dict :=
  let params := [("api_key", JStr (get_api_key cfg))] in
  if str_truthy date then dict_set "date" (JStr date) params else params.

Definition astronomy_text (data : json) : result string :=
  media_type ← get data "media_type" (JStr "image");
  let url_key := if eq_str media_type "image" then "url" else "url" in
  title ← getitem data "title";
  date ← getitem data "date";
  explanation ← getitem data "explanation";
  link ← get data url_key (JStr "N/A");
  mret ("**" +:+ str title +:+ "**" +:+ nl
          +:+ "Date: " +:+ str date +:+ nl +:+ nl
          +:+ str explanation +:+ nl +:+ nl
          +:+ (if eq_str media_type "image" then "Image" else "Video")
          +:+ ": " +:+ str link).

Definition get_astronomy_photo (date : string) : M string :=
  cfg ← read_config;
  let params := astronomy_params cfg date in
  data ← fetch_json (NASA_BASE +:+ "/planetary/apod") (Some params);
  lift (astronomy_text data).

Definition rover_params (cfg : Config) (sol : option Z) (earth_date camera : string)
  : dict :=
  let params := [("api_key", JStr (get_api_key cfg))] in
  let params :=
    match sol with
    | Some n => dict_set "sol" (JNum (inject_Z n)) params
    | None =>
        if str_truthy earth_date then dict_set "earth_date" (JStr earth_date) params
        else dict_set "sol" (JNum (inject_Z 1000)) params
    end in
  if str_truthy camera then dict_set "camera" (JStr (lower camera)) params
  else params.

(** The list [result] of [get_mars_rover_photos] before it is joined,
    for a non-empty [photos]. *)
Definition rover_result (rover : string) (photos : json) : result (list string) :=
  count ← len photos;
  shown ← slice_to photos 10 ≫= iter;
  entries ← mapM (fun photo =>
                    camera ← getitem photo "camera" ≫= fun c => getitem c "full_name";
                    sol ← getitem photo "sol";
                    earth_date ← getitem photo "earth_date";
                    img_src ← getitem photo "img_src";
                    mret ("- Camera: " +:+ str camera +:+ nl
                            +:+ "  Sol: " +:+ str sol +:+ " | Earth Date: "
                            +:+ str earth_date +:+ nl
                            +:+ "  URL: " +:+ str img_src)) shown;
  mret (("**Mars Rover Photos - " +:+ capitalize rover +:+ "**" +:+ nl)
          :: ("Found " +:+ str_int (Z.of_nat count) +:+ " photos" +:+ nl)
          :: entries).

Definition get_mars_rover_photos (rover : string) (sol : option Z)
    (earth_date camera : string) : M string :=
  let rover := lower rover in
  cfg ← read_config;
  let params := rover_params cfg sol earth_date camera in
  let url := NASA_BASE +:+ "/mars-photos/api/v1/rovers/" +:+ rover +:+ "/photos" in
  data ← fetch_json url (Some params);
  photos ← lift (get data "photos" (JArr []));
  if negb (truthy photos)
  then mret ("No photos found for " +:+ rover +:+ " with the specified parameters")
  else
    result ← lift (rover_result rover photos);
    mret (join (nl +:+ nl) result).

(** The list [result] of [search_nasa_images] before it is joined, for a
    non-empty [items]. *)
Definition images_result (query : string) (items : json) : result (list string) :=
  count ← len items;
  shown ← slice_to items 10 ≫= iter;
  entries ← mapM (fun item =>
                    item_data ← get item "data" (JArr [JObj []]) ≫= fun d => index d 0;
                    links ← get item "links" (JArr [JObj []]);
                    preview ← (if truthy links
                               then index links 0 ≫= fun l => get l "href" (JStr "N/A")
                               else Ok (JStr "N/A"));
                    title ← get item_data "title" (JStr "Untitled");
                    created ← get item_data "date_created" (JStr "N/A")
                              ≫= fun d => slice_to d 10;
                    description ← get item_data "description" (JStr "N/A")
                                  ≫= fun d => slice_to d 200;
                    mret ("**" +:+ str title +:+ "**" +:+ nl
                            +:+ "Date: " +:+ str created +:+ nl
                            +:+ "Description: " +:+ str description +:+ "..." +:+ nl
                            +:+ "Preview: " +:+ str preview)) shown;
  mret (("**NASA Image Search: '" +:+ query +:+ "'**" +:+ nl)
          :: ("Found " +:+ str_int (Z.of_nat count) +:+ " results" +:+ nl)
          :: entries).

Definition search_nasa_images (query media_type : string) : M string :=
  let url := "https://images-api.nasa.gov/search" in
  let params := [("q", JStr query); ("media_type", JStr media_type)] in
  data ← fetch_json url (Some params);
  items ← lift (get data "collection" (JObj []) ≫= fun c => get c "items" (JArr []));
  if negb (truthy items) then mret ("No results found for '" +:+ query +:+ "'")
  else
    result ← lift (images_result query items);
    mret (join (nl +:+ nl +:+ "---" +:+ nl +:+ nl) result).

Definition query_nasa (endpoint : string) (params : option dict) : M json :=
  cfg ← read_config;
  let url := NASA_BASE +:+ endpoint in
  let params := Weather.params_or_empty params in
  let params := dict_set "api_key" (JStr (get_api_key cfg)) params in
  fetch_json url (Some params).

End Tools.
End Nasa.

(** ** tools/economics.py *)

Module Economics.

Definition WORLDBANK_BASE : string := "https://api.worldbank.org/v2".

Definition indicator_names : gmap string string :=
  list_to_map [ ("NY.GDP.MKTP.CD", "GDP (current US$)");
                ("SP.POP.TOTL", "Population");
                ("NY.GDP.PCAP.CD", "GDP per Capita");
                ("SL.UEM.TOTL.ZS", "Unemployment Rate (%)") ].

(** An element [(country_name, value, year)] of [data_points]. *)
Definition data_point : Type := json * json * json.

Definition point_value (p : data_point) : json := snd (fst p).

Definition indicator_url (country indicator : string) : string :=
  WORLDBANK_BASE +:+ "/country/" +:+ country +:+ "/indicator/" +:+ indicator.

Definition compare_params : dict :=
  [("format", JStr "json"); ("per_page", JNum 1); ("mrv", JNum 1)].

(** The body of the [try] after the fetch: the data point a response
    contributes, if any. *)
Definition extract_point (country : string) (data : json)
  : result (option data_point) :=
  n ← len data;
  if (1 <? n)%nat then
    second ← index data 1;
    if truthy second then
      record ← index second 0;
      value ← get record "value" JNull;
      year ← get record "date" JNull;
      country_name ← get record "country" (JObj [])
                      ≫= fun c => get c "value" (JStr country);
      match value with
      | JNull => Ok None
      | _ => Ok (Some (country_name, value, year))
      end
    else Ok None
  else Ok None.

(** One iteration of the loop over [countries]: the [try] statement,
    whose handler is [pass]. *)
Definition fetch_point (indicator country : string) : M (option data_point) :=
  try_except
    (data ← fetch_json (indicator_url country indicator) (Some compare_params);
     lift (extract_point country data))
    (mret None).

(** The value of a number as the comparisons of [sort] and the float
    formats take it; [bool] is a subclass of [int]. *)
Definition numeric (v : json) : option Q :=
  match v with
  | JNum q => Some q
  | JBool b => Some (if b then 1%Q else 0%Q)
  | _ => None
  end.

(** Insert [x] into a list sorted by descending key, after the strictly
    greater keys and before every other. *)
Fixpoint insert_desc {A} (x : Q * A) (l : list (Q * A)) : list (Q * A) :=
  match l with
  | [] => [x]
  | y :: l' => if Qlt_le_dec (fst x) (fst y) then y :: insert_desc x l'
               else x :: y :: l'
  end.

(** [l.sort(key=..., reverse=True)]: descending by key; elements of
    equal key keep their order. *)
Definition sort_desc {A} (l : list (Q * A)) : list (Q * A) :=
  foldr insert_desc [] l.

(** The data points with their numeric keys. Sorting two values that do
    not compare raises TypeError, and formatting one that is not a
    number raises TypeError or ValueError; nothing catches either, so
    the call raises as soon as one collected value is not a number. *)
Definition keyed (data_points : list data_point) : result (list (Q * data_point)) :=
  mapM (fun p => of_option (numeric (point_value p)) ≫= fun q => Ok (q, p)) data_points.

Section Tools.
Context `{PyBuiltins}.

(** [f"{value/y:spec}"]: the division raises OverflowError for an int
    beyond the range of a float. *)
Definition format_quotient (spec : string) (value y : Q) : result string :=
  x ← of_option (float_div value y);
  of_option (float_format spec x).

(** The string [formatted] of one data point. *)
Definition format_value (indicator : string) (value : Q) : result string :=
  if String.eqb indicator "NY.GDP.MKTP.CD"
  then s ← format_quotient ".2f" value (1000000000000 # 1); Ok ("$" +:+ s +:+ "T")
  else if String.eqb indicator "SP.POP.TOTL"
  then s ← format_quotient ".1f" value (1000000 # 1); Ok (s +:+ "M")
  else if String.eqb indicator "NY.GDP.PCAP.CD"
  then s ← of_option (float_format ",.0f" value); Ok ("$" +:+ s)
  else of_option (float_format ",.2f" value).

(** The string appended to [results] for one data point. *)
Definition render_point (indicator : string) (kp : Q * data_point) : result string :=
  let '(value, (country_name, _, year)) := kp in
  formatted ← format_value indicator value;
  Ok ("- " +:+ str country_name +:+ ": " +:+ formatted +:+ " (" +:+ str year +:+ ")").

(** The list [results] of [compare_countries] before it is joined: the
    sort, then the loop over the sorted data points. *)
Definition compare_results (indicator : string) (data_points : list data_point)
  : result (list string) :=
  let name := default indicator (indicator_names !! indicator) in
  sorted ← sort_desc <$> keyed data_points;
  entries ← mapM (render_point indicator) sorted;
  Ok (("**Comparing " +:+ name +:+ "**" +:+ nl) :: entries).

(** The list [data_points] when the loop over [countries] ends. *)
Definition collect_points (countries : list string) (indicator : string)
  : M (list data_point) :=
  found ← mapM (fetch_point indicator) countries;
  mret (omap id found).

Definition compare_countries (countries : list string) (indicator : string)
  : M string :=
  data_points ← collect_points countries indicator;
  results ← lift (compare_results indicator data_points);
  mret (join nl results).

(** *** get_country_indicators *)

(** [if not indicators: indicators = [...]] *)
Definition indicators_or_default (indicators : option (list string)) : list string :=
  match indicators with
  | Some (i :: l) => i :: l
  | _ => ["NY.GDP.MKTP.CD"; "SP.POP.TOTL"; "SI.POV.DDAY"; "NY.GDP.PCAP.CD"]
  end.

(** The dict [indicator_names] of [get_country_indicators]. *)
Definition country_indicator_names : gmap string string :=
  list_to_map [ ("NY.GDP.MKTP.CD", "GDP (current US$)");
                ("SP.POP.TOTL", "Population");
                ("SI.POV.DDAY", "Poverty Rate (% at $2.15/day)");
                ("NY.GDP.PCAP.CD", "GDP per Capita");
                ("SL.UEM.TOTL.ZS", "Unemployment Rate (%)");
                ("FP.CPI.TOTL.ZG", "Inflation Rate (%)") ].

Definition indicator_params : dict :=
  [("format", JStr "json"); ("per_page", JNum 5); ("mrv", JNum 1)].

Definition format_indicator (indicator : string) (value : Q) : result string :=
  if String.eqb indicator "NY.GDP.MKTP.CD"
  then s ← format_quotient ".2f" value (1000000000000 # 1); Ok ("$" +:+ s +:+ " trillion")
  else if String.eqb indicator "SP.POP.TOTL"
  then s ← format_quotient ".1f" value (1000000 # 1); Ok (s +:+ " million")
  else if String.eqb indicator "SI.POV.DDAY" || String.eqb indicator "SL.UEM.TOTL.ZS"
          || String.eqb indicator "FP.CPI.TOTL.ZG"
  then s ← of_option (float_format ".1f" value); Ok (s +:+ "%")
  else if String.eqb indicator "NY.GDP.PCAP.CD"
  then s ← of_option (float_format ",.0f" value); Ok ("$" +:+ s)
  else of_option (float_format ",.2f" value).

(** The body of the [try] after the fetch: the line it appends to
    [results], if any. Dividing or formatting a value that is not a
    number raises. *)
Definition indicator_line (indicator : string) (data : json) : result (option string) :=
  n ← len data;
  if (1 <? n)%nat then
    second ← index data 1;
    if truthy second then
      record ← index second 0;
      value ← get record "value" JNull;
      year ← get record "date" JNull;
      let name := default indicator (country_indicator_names !! indicator) in
      match value with
      | JNull => Ok (Some ("- **" +:+ name +:+ "**: No data available"))
      | _ =>
          q ← of_option (numeric value);
          formatted ← format_indicator indicator q;
          Ok (Some ("- **" +:+ name +:+ "** (" +:+ str year +:+ "): " +:+ formatted))
      end
    else Ok None
  else Ok None.

(** One iteration of the loop over [indicators]: the [try] statement
    and its handler. *)
Definition fetch_indicator (country indicator : string) : M (option string) :=
  try_except
    (data ← fetch_json (indicator_url country indicator) (Some indicator_params);
     lift (indicator_line indicator data))
    (mret (Some ("- " +:+ indicator +:+ ": Error fetching data"))).

Definition get_country_indicators (country : string)
    (indicators : option (list string)) : M string :=
  let indicators := indicators_or_default indicators in
  let header := "**Economic Indicators for " +:+ upper country +:+ "**" +:+ nl in
  lines ← mapM (fetch_indicator country) indicators;
  mret (join nl (header :: omap id lines)).

(** *** query_worldbank *)

Definition query_worldbank (country indicator : string) (params : option dict)
  : M json :=
  let url := indicator_url country indicator in
  let params := Weather.params_or_empty params in
  let params := dict_set "format" (JStr "json") params in
  fetch_json url (Some params).

End Tools.
End Economics.

(** ** tools/eu_data.py *)

Module EuData.

Definition EU_DATA_BASE : string := "https://data.europa.eu/api/hub/search".

Section Tools.
Context `{PyBuiltins}.

(** The extraction of a multilingual field, with the text [placeholder]
    of its last branch:
    [if isinstance(obj, dict):
         x = obj.get("en") or list(obj.values())[0] if obj else placeholder
     else:
         x = str(obj)]
    where the conditional expression binds weaker than [or]. *)
Definition multilingual (obj : json) (placeholder : string) : result json :=
  match obj with
  | JObj d =>
      if truthy obj then
        let en := default JNull (dict_lookup "en" d) in
        if truthy en then Ok en else of_option (snd <$> d !! 0%nat)
      else Ok (JStr placeholder)
  | _ => Ok (JStr (str obj))
  end.

(** The title of a dataset, in both tools. *)
Definition extract_title (ds : json) : result json :=
  title_obj ← get ds "title" (JObj []);
  multilingual title_obj "Untitled".

(** The description of a dataset in [get_eu_dataset_info]. *)
Definition extract_description_info (ds : json) : result json :=
  desc_obj ← get ds "description" (JObj []);
  multilingual desc_obj "No description".

(** The description of a dataset in [search_eu_datasets]: the field is
    extracted with the empty placeholder, then
    [desc = desc[:200] if desc else "No description"]. *)
Definition extract_description_search (ds : json) : result json :=
  desc_obj ← get ds "description" (JObj []);
  desc ← multilingual desc_obj "";
  if truthy desc then slice_to desc 200 else Ok (JStr "No description").

Definition search_entry (ds : json) : result string :=
  title ← extract_title ds;
  desc ← extract_description_search ds;
  publisher ← get ds "publisher" (JObj []) ≫= fun p => get p "name" (JStr "Unknown");
  dataset_id ← get ds "id" (JStr "");
  mret ("**" +:+ str title +:+ "**" +:+ nl
          +:+ "Publisher: " +:+ str publisher +:+ nl
          +:+ "ID: `" +:+ str dataset_id +:+ "`" +:+ nl
          +:+ str desc +:+ "...").

(** The list [output] of [search_eu_datasets] before it is joined, for a
    non-empty [results]. *)
Definition search_output (query : string) (total results : json)
  : result (list string) :=
  count ← len results;
  items ← iter results;
  entries ← mapM search_entry items;
  mret (("**EU Open Data Search: '" +:+ query +:+ "'**")
          :: ("Found " +:+ str total +:+ " datasets (showing "
                +:+ str_int (Z.of_nat count) +:+ ")" +:+ nl)
          :: entries).

Definition search_params (query : string) (limit : Z) : dict :=
  let limit := Z.min limit 50 in
  [("q", JStr query); ("limit", JNum (inject_Z limit))].

Definition search_eu_datasets (query : string) (limit : Z) : M string :=
  let url := EU_DATA_BASE +:+ "/datasets" in
  data ← fetch_json url (Some (search_params query limit));
  results ← lift (get data "result" (JObj []) ≫= fun r => get r "results" (JArr []));
  total ← lift (get data "result" (JObj []) ≫= fun r => get r "count" (JNum 0));
  if negb (truthy results) then mret ("No EU datasets found for '" +:+ query +:+ "'")
  else
    output ← lift (search_output query total results);
    mret (join (nl +:+ nl +:+ "---" +:+ nl +:+ nl) output).

(** *** get_eu_dataset_info *)

(** [ds.get('modified', 'Unknown')[:10] if ds.get('modified') else 'Unknown'] *)
Definition modified_text (ds : json) : result json :=
  modified ← get ds "modified" JNull;
  if truthy modified
  then get ds "modified" (JStr "Unknown") ≫= fun m => slice_to m 10
  else Ok (JStr "Unknown").

(** The name of a distribution; for a title that is no dict it is
    [str(dist_title) or "Unnamed"]. *)
Definition distribution_name (dist_title : json) : result json :=
  match dist_title with
  | JObj _ => multilingual dist_title "Unnamed"
  | _ => let s := str dist_title in
         Ok (JStr (if str_truthy s then s else "Unnamed"))
  end.

(** The string appended to [output] for one distribution. *)
Definition distribution_entry (dist : json) : result string :=
  name ← get dist "title" (JObj []) ≫= distribution_name;
  fmt ← get dist "format" (JStr "Unknown");
  access_url ← get dist "accessUrl" (JStr "N/A");
  mret ("- [" +:+ str fmt +:+ "] " +:+ str name +:+ nl +:+ "  " +:+ str access_url).

(** The lines appended to [output] for the distributions. *)
Definition distribution_lines (distributions : json) : result (list string) :=
  if truthy distributions then
    shown ← slice_to distributions 10 ≫= iter;
    entries ← mapM distribution_entry shown;
    mret ("**Available Distributions:**" :: entries)
  else Ok [].

(** The list [output] of [get_eu_dataset_info] before it is joined, for
    a non-empty [ds]. *)
Definition dataset_info_output (ds : json) : result (list string) :=
  title ← extract_title ds;
  desc ← extract_description_info ds;
  publisher ← get ds "publisher" (JObj []) ≫= fun p => get p "name" (JStr "Unknown");
  modified ← modified_text ds;
  license ← get ds "license" (JStr "Unknown");
  distributions ← get ds "distributions" (JArr []);
  lines ← distribution_lines distributions;
  mret ([ "**" +:+ str title +:+ "**" +:+ nl;
          "Publisher: " +:+ str publisher;
          "Modified: " +:+ str modified;
          "License: " +:+ str license;
          nl +:+ "**Description:**" +:+ nl +:+ str desc +:+ nl ] ++ lines).

Definition get_eu_dataset_info (dataset_id : string) : M string :=
  let url := EU_DATA_BASE +:+ "/datasets/" +:+ dataset_id in
  data ← fetch_json url None;
  ds ← lift (get data "result" (JObj []));
  if negb (truthy ds) then mret ("Dataset not found: " +:+ dataset_id)
  else
    output ← lift (dataset_info_output ds);
    mret (join nl output).

(** *** query_eu_data *)

Definition query_eu_data (endpoint : string) (params : option dict) : M json :=
  let url := EU_DATA_BASE +:+ endpoint in
  fetch_json url params.

End Tools.
End EuData.

(** ** tools/datagov.py *)

Module Datagov.

Definition DATAGOV_BASE : string := "https://catalog.data.gov/api/3".

(** [a or b] on values *)
Definition py_or (a b : json) : json := if truthy a then a else b.

Section Tools.
Context `{PyBuiltins}.

(** The string appended to [output] for one dataset of the search. *)
Definition search_entry (ds : json) : result string :=
  title ← get ds "title" (JStr "Untitled");
  org ← get ds "organization" (JObj []) ≫= fun o => get o "title" (JStr "Unknown");
  notes ← get ds "notes" (JStr "No description") ≫= fun n => slice_to n 200;
  dataset_id ← get ds "id" (JStr "");
  num_resources ← get ds "resources" (JArr []) ≫= len;
  mret ("**" +:+ str title +:+ "**" +:+ nl
          +:+ "Organization: " +:+ str org +:+ nl
          +:+ "Resources: " +:+ str_int (Z.of_nat num_resources) +:+ " files" +:+ nl
          +:+ "ID: `" +:+ str dataset_id +:+ "`" +:+ nl
          +:+ str notes +:+ "...").

(** The list [output] of [search_datasets] before it is joined, for a
    non-empty [results]. *)
Definition search_output (query : string) (total results : json)
  : result (list string) :=
  count ← len results;
  items ← iter results;
  entries ← mapM search_entry items;
  mret (("**Data.gov Search: '" +:+ query +:+ "'**")
          :: ("Found " +:+ str total +:+ " datasets (showing "
                +:+ str_int (Z.of_nat count) +:+ ")" +:+ nl)
          :: entries).

Definition search_params (query : string) (rows : Z) : dict :=
  let rows := Z.min rows 50 in
  [("q", JStr query); ("rows", JNum (inject_Z rows))].

Definition search_datasets (query : string) (rows : Z) : M string :=
  let url := DATAGOV_BASE +:+ "/action/package_search" in
  data ← fetch_json url (Some (search_params query rows));
  results ← lift (get data "result" (JObj []) ≫= fun r => get r "results" (JArr []));
  total ← lift (get data "result" (JObj []) ≫= fun r => get r "count" (JNum 0));
  if negb (truthy results) then mret ("No datasets found for '" +:+ query +:+ "'")
  else
    output ← lift (search_output query total results);
    mret (join (nl +:+ nl +:+ "---" +:+ nl +:+ nl) output).

(** The string appended to [output] for one resource. *)
Definition resource_entry (res : json) : result string :=
  first ← get res "name" JNull;
  second ← get res "description" JNull;
  let name := py_or (py_or first second) (JStr "Unnamed") in
  fmt ← get res "format" (JStr "Unknown");
  url ← get res "url" (JStr "N/A");
  size ← get res "size" JNull;
  let size_str := if truthy size then " (" +:+ str size +:+ " bytes)" else "" in
  mret ("- [" +:+ str fmt +:+ "] " +:+ str name +:+ size_str +:+ nl
          +:+ "  " +:+ str url).

(** The lines appended to [output] for the resources. *)
Definition resource_lines (resources : json) : result (list string) :=
  if truthy resources then
    shown ← slice_to resources 10 ≫= iter;
    entries ← mapM resource_entry shown;
    mret ("**Available Resources:**" :: entries)
  else Ok [].

(** The list [output] of [get_dataset_info] before it is joined, for a
    non-empty [ds]. *)
Definition dataset_info_output (ds : json) : result (list string) :=
  title ← get ds "title" (JStr "Untitled");
  org ← get ds "organization" (JObj []) ≫= fun o => get o "title" (JStr "Unknown");
  license ← get ds "license_title" (JStr "Unknown");
  updated ← get ds "metadata_modified" (JStr "Unknown") ≫= fun m => slice_to m 10;
  notes ← get ds "notes" (JStr "No description available");
  resources ← get ds "resources" (JArr []);
  lines ← resource_lines resources;
  mret ([ "**" +:+ str title +:+ "**" +:+ nl;
          "Organization: " +:+ str org;
          "License: " +:+ str license;
          "Last Updated: " +:+ str updated;
          nl +:+ "**Description:**" +:+ nl +:+ str notes +:+ nl ] ++ lines).

Definition get_dataset_info (dataset_id : string) : M string :=
  let url := DATAGOV_BASE +:+ "/action/package_show" in
  data ← fetch_json url (Some [("id", JStr dataset_id)]);
  ds ← lift (get data "result" (JObj []));
  if negb (truthy ds) then mret ("Dataset not found: " +:+ dataset_id)
  else
    output ← lift (dataset_info_output ds);
    mret (join nl output).

Definition query_datagov (action : string) (params : option dict) : M json :=
  let url := DATAGOV_BASE +:+ "/action/" +:+ action in
  fetch_json url params.

End Tools.
End Datagov.

(** ** Vocabulary of the statements *)

(** The computation [m] raises [x] from the environment [e] and the
    request log [log]. *)
Definition raises {A} (m : M A) (e : env) (log : list request) (x : exn) : Prop :=
  fst (m e log) = Raise x.

(** The requests [m] adds to the log. *)
Definition log_after {A} (m : M A) (e : env) (log : list request) : list request :=
  snd (m e log).

(** An upstream that answers every request with the same outcome. *)
Definition always (o : http_outcome) : upstream := fun _ _ => o.

(** A call of one of the nineteen tools that fetch once: every tool but
    [get_weather_forecast], which fetches twice, and
    [get_country_indicators] and [compare_countries], which fetch once
    per indicator or country and handle what the fetch raises. *)
Inductive single_step : Type :=
| GetWeatherAlerts (state : string)
| GetGlobalWeather (city country_code : string)
| QueryNoaa (endpoint : string) (params : option dict)
| QueryOpenweather (endpoint : string) (params : option dict)
| GetPopulation (state county : string)
| GetDemographics (state county : string)
| GetHousingStats (state county : string)
| QueryCensus (dataset : string) (variables : list string) (geo year : string)
| GetAstronomyPhoto (date : string)
| GetMarsRoverPhotos (rover : string) (sol : option Z) (earth_date camera : string)
| SearchNasaImages (query media_type : string)
| QueryNasa (endpoint : string) (params : option dict)
| QueryWorldbank (country indicator : string) (params : option dict)
| SearchEuDatasets (query : string) (limit : Z)
| GetEuDatasetInfo (dataset_id : string)
| QueryEuData (endpoint : string) (params : option dict)
| SearchDatasets (query : string) (rows : Z)
| GetDatasetInfo (dataset_id : string)
| QueryDatagov (action : string) (params : option dict).

(** The computation without its value. *)
Definition forget {A} (m : M A) : M unit := fun e log =>
  match m e log with
  | (Ok _, log') => (Ok tt, log')
  | (Raise x, log') => (Raise x, log')
  end.

Section Calls.
Context `{PyBuiltins}.

Definition call (c : single_step) : M unit :=
  match c with
  | GetWeatherAlerts state => forget (Weather.get_weather_alerts state)
  | GetGlobalWeather city country_code =>
      forget (Weather.get_global_weather city country_code)
  | QueryNoaa endpoint params => forget (Weather.query_noaa endpoint params)
  | QueryOpenweather endpoint params =>
      forget (Weather.query_openweather endpoint params)
  | GetPopulation state county => forget (Census.get_population state county)
  | GetDemographics state county => forget (Census.get_demographics state county)
  | GetHousingStats state county => forget (Census.get_housing_stats state county)
  | QueryCensus dataset variables geo year =>
      forget (Census.query_census dataset variables geo year)
  | GetAstronomyPhoto date => forget (Nasa.get_astronomy_photo date)
  | GetMarsRoverPhotos rover sol earth_date camera =>
      forget (Nasa.get_mars_rover_photos rover sol earth_date camera)
  | SearchNasaImages query media_type =>
      forget (Nasa.search_nasa_images query media_type)
  | QueryNasa endpoint params => forget (Nasa.query_nasa endpoint params)
  | QueryWorldbank country indicator params =>
      forget (Economics.query_worldbank country indicator params)
  | SearchEuDatasets query limit => forget (EuData.search_eu_datasets query limit)
  | GetEuDatasetInfo dataset_id => forget (EuData.get_eu_dataset_info dataset_id)
  | QueryEuData endpoint params => forget (EuData.query_eu_data endpoint params)
  | SearchDatasets query rows => forget (Datagov.search_datasets query rows)
  | GetDatasetInfo dataset_id => forget (Datagov.get_dataset_info dataset_id)
  | QueryDatagov action params => forget (Datagov.query_datagov action params)
  end.

(** The request of a call that passes its guard; [None] for a call whose
    guard returns before the fetch. *)
Definition request_of (cfg : Config) (c : single_step) : option request :=
  match c with
  | GetWeatherAlerts state =>
      if (str_len (upper state) =? 2)%nat
      then Some (Weather.NOAA_BASE +:+ "/alerts/active",
                 Some [("area", JStr (upper state))])
      else None
  | GetGlobalWeather city country_code =>
      if has_openweather cfg
      then Some ("https://api.openweathermap.org/data/2.5/weather",
                 Some [("q", JStr (if str_truthy country_code
                                   then city +:+ "," +:+ country_code else city));
                       ("appid", Weather.key_value (openweather_api_key cfg));
                       ("units", JStr "metric")])
      else None
  | QueryNoaa endpoint params => Some (Weather.NOAA_BASE +:+ endpoint, params)
  | QueryOpenweather endpoint params =>
      if has_openweather cfg
      then Some ("https://api.openweathermap.org" +:+ endpoint,
                 Some (dict_set "appid" (Weather.key_value (openweather_api_key cfg))
                                (Weather.params_or_empty params)))
      else None
  | GetPopulation state county => Some (Census.population_url state county, None)
  | GetDemographics state county => Some (Census.demographics_url state county, None)
  | GetHousingStats state county => Some (Census.housing_url state county, None)
  | QueryCensus dataset variables geo year =>
      Some (Census.query_census_url dataset variables geo year, None)
  | GetAstronomyPhoto date =>
      Some (Nasa.NASA_BASE +:+ "/planetary/apod", Some (Nasa.astronomy_params cfg date))
  | GetMarsRoverPhotos rover sol earth_date camera =>
      Some (Nasa.NASA_BASE +:+ "/mars-photos/api/v1/rovers/" +:+ lower rover
              +:+ "/photos",
            Some (Nasa.rover_params cfg sol earth_date camera))
  | SearchNasaImages query media_type =>
      Some ("https://images-api.nasa.gov/search",
            Some [("q", JStr query); ("media_type", JStr media_type)])
  | QueryNasa endpoint params =>
      Some (Nasa.NASA_BASE +:+ endpoint,
            Some (dict_set "api_key" (JStr (Nasa.get_api_key cfg))
                           (Weather.params_or_empty params)))
  | QueryWorldbank country indicator params =>
      Some (Economics.indicator_url country indicator,
            Some (dict_set "format" (JStr "json") (Weather.params_or_empty params)))
  | SearchEuDatasets query limit =>
      Some (EuData.EU_DATA_BASE +:+ "/datasets", Some (EuData.search_params query limit))
  | GetEuDatasetInfo dataset_id =>
      Some (EuData.EU_DATA_BASE +:+ "/datasets/" +:+ dataset_id, None)
  | QueryEuData endpoint params => Some (EuData.EU_DATA_BASE +:+ endpoint, params)
  | SearchDatasets query rows =>
      Some (Datagov.DATAGOV_BASE +:+ "/action/package_search",
            Some (Datagov.search_params query rows))
  | GetDatasetInfo dataset_id =>
      Some (Datagov.DATAGOV_BASE +:+ "/action/package_show",
            Some [("id", JStr dataset_id)])
  | QueryDatagov action params =>
      Some (Datagov.DATAGOV_BASE +:+ "/action/" +:+ action, params)
  end.

End Calls.

(** A multilingual field whose values are strings, as the parsed JSON
    object: the language codes with their texts, in the order of the
    object. *)
Definition multilingual_obj (m : list (string * string)) : json :=
  JObj ((fun kv => (fst kv, JStr (snd kv))) <$> m).

(** The text of the language [lang] in [m]. *)
Definition text_of (lang : string) (m : list (string * string)) : option string :=
  snd <$> find (fun kv => String.eqb lang (fst kv)) m.

(** The request [compare_countries] makes for one country. *)
Definition compare_request (indicator country : string) : request :=
  (Economics.indicator_url country indicator, Some Economics.compare_params).

(** The outcomes on which [fetch_json] raises: a timeout, a transport
    error, a status outside 2xx, a body that is not JSON. *)
Definition fetch_fails (o : http_outcome) : bool :=
  match o with
  | Response status_code _ (Some _) => negb (is_success status_code)
  | _ => true
  end.




(** Keys in descending order: every element is at least each later one. *)
Definition descending {A} (l : list (Q * A)) : Prop :=
  StronglySorted (fun a b => (fst b <= fst a)%Q) l.

(** [after] is [before] with the key [k] set to [v]: [k] reads [v],
    every other key reads what it read, a key that was there keeps its
    place and a new one comes last. *)
Definition injected (k : string) (v : json) (before after : dict) : Prop :=
  dict_lookup k after = Some v
  /\ (forall k', k' <> k -> dict_lookup k' after = dict_lookup k' before)
  /\ (dict_lookup k before = None -> after = before ++ [(k, v)])
  /\ (dict_lookup k before <> None -> fst <$> after = fst <$> before).

(** The upstream answers the request [req], made after [log], with a
    2xx response whose JSON body is [data]. *)
Definition answers (e : env) (log : list request) (req : request) (data : json)
  : Prop :=
  exists status_code text,
    http_client e log req = Response status_code text (Some data)
    /\ is_success status_code = true.

(** The string without its commas. *)
Fixpoint strip_commas (s : string) : string :=
  match s with
  | EmptyString => EmptyString
  | String c s' =>
      if Ascii.eqb c ","%char then strip_commas s' else String c (strip_commas s')
  end.

Definition not_comma (c : ascii) : bool := negb (Ascii.eqb c ","%char).

(** The string consists of continuation bytes. *)
Fixpoint all_cont (s : string) : bool :=
  match s with
  | EmptyString => true
  | String c t => is_cont c && all_cont t
  end.

(** One character; or, at the head of a string that is not well formed,
    a run of continuation bytes. *)
Definition is_group (g : string) : bool :=
  match g with
  | String _ t => all_cont t
  | EmptyString => false
  end.

(** A character at its lead byte. *)
Definition is_head (g : string) : bool := is_group g && negb (starts_cont g).

(** A list of characters as [chars] cuts them. *)
Definition chars_wf (gs : list string) : Prop :=
  match gs with
  | [] => True
  | g :: gs' => is_group g = true /\ Forall (fun h => is_head h = true) gs'
  end.

(** The string consists of decimal digits. *)
Fixpoint all_digits (s : string) : bool :=
  match s with
  | EmptyString => true
  | String c s' =>
      let n := N_of_ascii c in
      ((48 <=? n) && (n <=? 57))%N && all_digits s'
  end.

(** ** A stand-in for the built-ins, for running the tools on examples

    Integers are converted and printed in decimal. Every other rendering
    is the marker [?], exact division stands for float division, an int
    beyond the range of a float raises where it has to be converted,
    [float()] always raises and the case mappings change no character
    from U+0100 on: the examples below depend on none of these. *)

Module Example.

Fixpoint digits_value (acc : Z) (s : string) : option Z :=
  match s with
  | EmptyString => Some acc
  | String c s' =>
      let n := Z.of_N (N_of_ascii c) in
      if (48 <=? n) && (n <=? 57) then digits_value (10 * acc + (n - 48)) s'
      else None
  end.

(** [int(s)] for an optional minus sign followed by decimal digits *)
Definition parse_int (s : string) : option Z :=
  match s with
  | EmptyString => None
  | String "-" (String c s') => Z.opp <$> digits_value 0 (String c s')
  | _ => digits_value 0 s
  end.

(** A number that converts to a float: a float, or an int below
    [2^1024 - 2^970] in absolute value. *)
Definition fits_float (q : Q) : bool :=
  negb (Qle_bool (inject_Z (2 ^ 1024 - 2 ^ 970)) (Qabs q)).

Definition builtins : PyBuiltins := {|
  py_repr := fun v =>
    match v with
    | JNum q => if (Qden q =? 1)%positive then str_int (Qnum q) else "?"
    | _ => "?"
    end;
  py_int := fun v =>
    match v with
    | JNum q => Some (Z.quot (Qnum q) (Z.pos (Qden q)))
    | JBool b => Some (if b then 1 else 0)
    | JStr s => parse_int s
    | _ => None
    end;
  py_float := fun _ => None;
  float_str := fun _ => "?";
  float_div := fun x y => if fits_float x then Some (Qdiv x y) else None;
  float_format := fun _ x => if fits_float x then Some "?" else None;
  py_upper := fun s => s;
  py_lower := fun s => s;
  py_capitalize := fun s => s
|}.

Definition no_keys : Config :=
  {| openweather_api_key := None; nasa_api_key := None; timeout := 30 |}.

Definition with_keys : Config :=
  {| openweather_api_key := Some "ow-key"; nasa_api_key := Some "nasa-key";
     timeout := 30 |}.

(** The environment in which every request meets the outcome [o]. *)
Definition answering (cfg : Config) (o : http_outcome) : env :=
  {| config := cfg; http_client := always o |}.

(** A text of 201 characters. *)
Definition long_text : string := String.concat "" (replicate 201 "x").

(** A forecast of 100 periods. *)
Definition forecast_100 : json :=
  JObj [("properties",
         JObj [("periods",
                JArr (replicate 100
                        (JObj [("name", JStr "Tonight");
                               ("detailedForecast", JStr "Clear.")])))])].

(** The answer of the alerts endpoint with 100 active alerts. *)
Definition alerts_100 : json :=
  JObj [("features",
         JArr (replicate 100
                 (JObj [("properties",
                         JObj [("event", JStr "Flood Watch");
                               ("severity", JStr "Moderate")])])))].

(** The answer of the EU search with 60 datasets. *)
Definition datasets_60 : json :=
  JArr (replicate 60 (JObj [("id", JStr "abc")])).






(** The answer of the points endpoint for a grid cell of the Washington
    office, and the upstream that serves it and then times out. *)
Definition grid_forecast_url : string :=
  "https://api.weather.gov/gridpoints/LWX/97,71/forecast".

Definition points_answer : json :=
  JObj [("properties", JObj [("forecast", JStr grid_forecast_url)])].

Definition points_then_timeout : upstream := fun log _ =>
  match log with
  | [] => Response 200 "" (Some points_answer)
  | _ => TimeoutException
  end.

(** 25 photos of the mast camera. *)
Definition photos_25 : list json :=
  replicate 25
    (JObj [("camera", JObj [("full_name", JStr "Mast Camera")]);
           ("sol", JNum 1000);
           ("earth_date", JStr "2015-05-30");
           ("img_src", JStr "https://mars.nasa.gov/msl-raw-images/1000.jpg")]).

(** A Data.gov search answer whose second dataset has null notes. *)
Definition search_with_null_notes : json :=
  JObj [("result",
         JObj [("count", JNum 2);
               ("results",
                JArr [JObj [("title", JStr "Air quality"); ("notes", JStr "Hourly.")];
                      JObj [("title", JStr "Water quality"); ("notes", JNull)]])])].

(** 12 distributions of a dataset. *)
Definition distributions_12 : list json :=
  replicate 12
    (JObj [("title", JObj [("en", JStr "CSV export")]);
           ("format", JStr "CSV");
           ("accessUrl", JStr "https://data.europa.eu/x.csv")]).

(** A census answer for one geography without housing units. *)
Definition empty_housing : json :=
  JArr [ JArr [JStr "NAME"; JStr "B25001_001E"; JStr "B25002_002E";
               JStr "B25002_003E"; JStr "B25077_001E"; JStr "B25064_001E";
               JStr "state"];
         JArr [JStr "Nowhere"; JStr "0"; JStr "0"; JStr "0"; JStr "0"; JStr "0";
               JStr "06"] ].

End Example.

(* ================================================================= *)
(** * Properties *)

(** ** Strings *)

Lemma concat_cons (x : string) (xs : list string) :
  String.concat "" (x :: xs) = x +:+ String.concat "" xs.
Proof.
  destruct xs as [|y xs]; [|reflexivity].
  simpl. induction x as [|c x IH]; [reflexivity | simpl; now rewrite <- IH].
Qed.

Lemma string_app_assoc (a b c : string) : (a +:+ b) +:+ c = a +:+ b +:+ c.
Proof. induction a as [|x a IH]; [reflexivity | simpl; f_equal; exact IH]. Qed.

Lemma concat_app (l1 l2 : list string) :
  String.concat "" (l1 ++ l2) = String.concat "" l1 +:+ String.concat "" l2.
Proof.
  induction l1 as [|x l1 IH]; [reflexivity |].
  change ((x :: l1) ++ l2) with (x :: (l1 ++ l2)).
  now rewrite !concat_cons, IH, string_app_assoc.
Qed.

(** The characters of a string make up the string. *)
Lemma concat_chars (s : string) : String.concat "" (chars s) = s.
Proof.
  induction s as [|c s IH]; [reflexivity |].
  cbn [chars]. destruct (chars s) as [|g gs].
  - simpl in IH. now subst s.
  - rewrite concat_cons in IH. destruct (starts_cont g).
    + rewrite concat_cons. simpl. now rewrite IH.
    + rewrite !concat_cons. simpl. now rewrite IH.
Qed.

Lemma chars_is_wf (s : string) : chars_wf (chars s).
Proof.
  induction s as [|c s IH]; [exact I |].
  cbn [chars]. destruct (chars s) as [|g gs]; [now split |].
  destruct IH as [Hg Hgs]. destruct (starts_cont g) eqn:Hc.
  - split; [|exact Hgs]. destruct g as [|d t]; [discriminate |].
    simpl in *. now rewrite Hc, Hg.
  - split; [reflexivity |]. constructor; [|exact Hgs].
    unfold is_head. now rewrite Hg, Hc.
Qed.

Lemma chars_wf_take (n : nat) (gs : list string) :
  chars_wf gs -> chars_wf (take n gs).
Proof.
  destruct gs as [|g gs]; [now destruct n |].
  destruct n as [|n]; [intros _; exact I |].
  intros [Hg Hgs]. split; [exact Hg | now apply Forall_take].
Qed.

Lemma chars_cons (c : ascii) (s : string) :
  chars (String c s)
  = match chars s with
    | g :: gs =>
        if starts_cont g then String c g :: gs
        else String c EmptyString :: g :: gs
    | [] => [String c EmptyString]
    end.
Proof. reflexivity. Qed.

Lemma chars_group_app (c : ascii) (t rest : string) :
  all_cont t = true ->
  match chars rest with g :: _ => starts_cont g = false | [] => True end ->
  chars (String c (t +:+ rest)) = String c t :: chars rest.
Proof.
  revert c; induction t as [|d t IH]; intros c Ht Hrest.
  - change ("" +:+ rest) with rest. cbn [chars].
    destruct (chars rest) as [|g gs]; [reflexivity | now rewrite Hrest].
  - simpl in Ht. apply andb_prop in Ht as [Hd Ht].
    change (String d t +:+ rest) with (String d (t +:+ rest)).
    rewrite chars_cons, (IH d Ht Hrest). simpl. now rewrite Hd.
Qed.

Lemma chars_concat (gs : list string) :
  chars_wf gs -> chars (String.concat "" gs) = gs.
Proof.
  assert (Hheads : forall hs, Forall (fun h => is_head h = true) hs ->
                     chars (String.concat "" hs) = hs).
  { induction hs as [|h hs IH]; intros Hall; [reflexivity |].
    inversion Hall as [|? ? Hh Hhs]; subst.
    rewrite concat_cons. destruct h as [|c t]; [discriminate |].
    unfold is_head in Hh. apply andb_prop in Hh as [Hg _].
    change (String c t +:+ String.concat "" hs) with (String c (t +:+ String.concat "" hs)).
    rewrite chars_group_app; [now rewrite IH | exact Hg |].
    rewrite (IH Hhs). destruct Hhs as [|h' hs' Hh']; [exact I |].
    unfold is_head in Hh'. apply andb_prop in Hh' as [_ Hn].
    now destruct (starts_cont h'). }
  destruct gs as [|g gs]; [reflexivity |]. intros [Hg Hgs].
  rewrite concat_cons. destruct g as [|c t]; [discriminate |].
  change (String c t +:+ String.concat "" gs) with (String c (t +:+ String.concat "" gs)).
  rewrite chars_group_app; [now rewrite Hheads | exact Hg |].
  rewrite (Hheads _ Hgs). destruct Hgs as [|h' hs' Hh']; [exact I |].
  unfold is_head in Hh'. apply andb_prop in Hh' as [_ Hn].
  now destruct (starts_cont h').
Qed.

(** [s[:n]] has [n] characters, or all of [s] when [s] is shorter. *)
Lemma str_len_str_take (n : nat) (s : string) :
  str_len (str_take n s) = Nat.min n (str_len s).
Proof.
  unfold str_len, str_take.
  rewrite chars_concat by apply chars_wf_take, chars_is_wf.
  apply length_take.
Qed.

Lemma chars_str_take (n : nat) (s : string) :
  chars (str_take n s) = take n (chars s).
Proof. unfold str_take. apply chars_concat, chars_wf_take, chars_is_wf. Qed.

(** A cut counts characters: of 250 letters of two bytes each,
    [s[:200]] keeps 200. *)
Example str_take_counts_characters :
  str_take 200 (String.concat "" (replicate 250 "é"))
  = String.concat "" (replicate 200 "é")
  /\ str_len (String.concat "" (replicate 250 "é")) = 250%nat
  /\ String.length (String.concat "" (replicate 250 "é")) = 500%nat.
Proof. vm_compute. repeat split. Qed.

(** *** Strings of ASCII characters *)

Lemma is_cont_ascii (c : ascii) : (N_of_ascii c <? 128)%N = true -> is_cont c = false.
Proof.
  intros Hc. unfold is_cont. apply N.ltb_lt in Hc.
  destruct (128 <=? N_of_ascii c)%N eqn:Hle; [|reflexivity].
  apply N.leb_le in Hle. lia.
Qed.

Lemma chars_ascii (s : string) :
  is_ascii s = true ->
  chars s = (fun c => String c EmptyString) <$> list_ascii_of_string s.
Proof.
  induction s as [|c s IH]; [reflexivity |].
  simpl. intros Hs. apply andb_prop in Hs as [Hc Hs]. rewrite (IH Hs).
  destruct s as [|d s]; [reflexivity |].
  simpl in Hs. apply andb_prop in Hs as [Hd _].
  simpl. now rewrite (is_cont_ascii d Hd).
Qed.

Lemma length_list_ascii (s : string) :
  length (list_ascii_of_string s) = String.length s.
Proof. induction s as [|c s IH]; [reflexivity | simpl; now rewrite IH]. Qed.

Lemma str_len_ascii (s : string) : is_ascii s = true -> str_len s = String.length s.
Proof.
  intros Hs. unfold str_len. rewrite (chars_ascii s Hs), length_fmap.
  apply length_list_ascii.
Qed.

Lemma is_latin1_ascii (s : string) : is_ascii s = true -> is_latin1 s = true.
Proof.
  induction s as [|c s IH]; [reflexivity |].
  simpl. intros Hs. apply andb_prop in Hs as [Hc Hs]. rewrite Hc. now apply IH.
Qed.

Lemma not_lead_ascii (c : ascii) (k : N) :
  (N_of_ascii c <? 128)%N = true -> (128 <= k)%N -> (N_of_ascii c =? k)%N = false.
Proof. intros Hc Hk. apply N.ltb_lt in Hc. apply N.eqb_neq. lia. Qed.

Lemma upper_latin1_ascii (s : string) :
  is_ascii s = true -> upper_latin1 s = str_map upper_ascii s.
Proof.
  induction s as [|c s IH]; [reflexivity |].
  simpl. intros Hs. apply andb_prop in Hs as [Hc Hs].
  rewrite !(not_lead_ascii c _ Hc) by lia. now rewrite IH.
Qed.

Lemma lower_latin1_ascii (s : string) :
  is_ascii s = true -> lower_latin1 s = str_map lower_ascii s.
Proof.
  induction s as [|c s IH]; [reflexivity |].
  simpl. intros Hs. apply andb_prop in Hs as [Hc Hs].
  rewrite !(not_lead_ascii c _ Hc) by lia. now rewrite IH.
Qed.

Lemma length_str_map (f : ascii -> ascii) (s : string) :
  String.length (str_map f s) = String.length s.
Proof. induction s as [|c s IH]; simpl; [reflexivity | now rewrite IH]. Qed.

Lemma upper_ascii_is_ascii (c : ascii) :
  (N_of_ascii c <? 128)%N = true -> (N_of_ascii (upper_ascii c) <? 128)%N = true.
Proof.
  intros Hc. unfold upper_ascii.
  destruct ((97 <=? N_of_ascii c) && (N_of_ascii c <=? 122))%N eqn:Hr; [|exact Hc].
  apply andb_prop in Hr as [H1 H2]. apply N.leb_le in H1, H2.
  rewrite N_ascii_embedding by lia. apply N.ltb_lt. lia.
Qed.

Lemma lower_ascii_is_ascii (c : ascii) :
  (N_of_ascii c <? 128)%N = true -> (N_of_ascii (lower_ascii c) <? 128)%N = true.
Proof.
  intros Hc. unfold lower_ascii.
  destruct ((65 <=? N_of_ascii c) && (N_of_ascii c <=? 90))%N eqn:Hr; [|exact Hc].
  apply andb_prop in Hr as [H1 H2]. apply N.leb_le in H1, H2.
  rewrite N_ascii_embedding by lia. apply N.ltb_lt. lia.
Qed.

Lemma is_ascii_str_map (f : ascii -> ascii) (s : string) :
  (forall c, (N_of_ascii c <? 128)%N = true -> (N_of_ascii (f c) <? 128)%N = true) ->
  is_ascii s = true -> is_ascii (str_map f s) = true.
Proof.
  intros Hf. induction s as [|c s IH]; [reflexivity |].
  simpl. intros Hs. apply andb_prop in Hs as [Hc Hs].
  now rewrite (Hf c Hc), IH.
Qed.

Section Case.
Context `{PyBuiltins}.

(** On a string of ASCII characters [upper] and [lower] change the
    letters a-z and A-Z, one for one. *)
Lemma upper_ascii_string (s : string) :
  is_ascii s = true -> upper s = str_map upper_ascii s.
Proof.
  intros Hs. unfold upper. now rewrite (is_latin1_ascii s Hs), upper_latin1_ascii.
Qed.

Lemma lower_ascii_string (s : string) :
  is_ascii s = true -> lower s = str_map lower_ascii s.
Proof.
  intros Hs. unfold lower. now rewrite (is_latin1_ascii s Hs), lower_latin1_ascii.
Qed.

Lemma is_ascii_upper (s : string) : is_ascii s = true -> is_ascii (upper s) = true.
Proof.
  intros Hs. rewrite (upper_ascii_string s Hs).
  now apply is_ascii_str_map; [apply upper_ascii_is_ascii |].
Qed.

Lemma is_ascii_lower (s : string) : is_ascii s = true -> is_ascii (lower s) = true.
Proof.
  intros Hs. rewrite (lower_ascii_string s Hs).
  now apply is_ascii_str_map; [apply lower_ascii_is_ascii |].
Qed.

Lemma str_len_upper (s : string) :
  is_ascii s = true -> str_len (upper s) = str_len s.
Proof.
  intros Hs. rewrite (str_len_ascii _ (is_ascii_upper s Hs)), (str_len_ascii s Hs).
  rewrite (upper_ascii_string s Hs). apply length_str_map.
Qed.

(** The upper case of a string can be longer than the string. *)
Lemma upper_sharp_s : upper "ßa" = "SSA" /\ str_len "ßa" = 2%nat.
Proof. split; reflexivity. Qed.

End Case.

Lemma startswith_app (p s : string) : startswith p (p +:+ s) = true.
Proof.
  induction p as [|c p IH]; simpl; [reflexivity |].
  now rewrite Ascii.eqb_refl.
Qed.

Lemma contains_here (p s : string) : contains p (p +:+ s) = true.
Proof.
  destruct p as [|c p]; simpl; [now destruct s |].
  now rewrite Ascii.eqb_refl, startswith_app.
Qed.

Lemma contains_app_r (n a hay : string) :
  contains n hay = true -> contains n (a +:+ hay) = true.
Proof.
  intros Hn. induction a as [|c a IH]; simpl; [exact Hn |].
  rewrite IH. apply orb_true_r.
Qed.

Lemma contains_app (n a b : string) : contains n (a +:+ n +:+ b) = true.
Proof. apply contains_app_r, contains_here. Qed.

Lemma string_app_nil_r (s : string) : s +:+ "" = s.
Proof. induction s as [|c s IH]; [reflexivity | simpl; f_equal; exact IH]. Qed.

Lemma contains_suffix (n a : string) : contains n (a +:+ n) = true.
Proof.
  pose proof (contains_app n a "") as Hc.
  now rewrite string_app_nil_r in Hc.
Qed.

(** [s[:n]] is a prefix of [s]. *)
Lemma startswith_str_take (n : nat) (s : string) : startswith (str_take n s) s = true.
Proof.
  set (p := str_take n s).
  replace s with (p +:+ String.concat "" (drop n (chars s)));
    [apply startswith_app |].
  unfold p, str_take. now rewrite <- concat_app, take_drop, concat_chars.
Qed.

Lemma string_app_length (a b : string) :
  String.length (a +:+ b) = (String.length a + String.length b)%nat.
Proof. induction a as [|x a IH]; [reflexivity | simpl; now rewrite IH]. Qed.

(** Cancellation of a common suffix. *)
Lemma string_app_inv_tail (a b c : string) : a +:+ c = b +:+ c -> a = b.
Proof.
  revert b; induction a as [|x a IH]; intros [|y b] Heq; simpl in Heq.
  - reflexivity.
  - apply (f_equal String.length) in Heq. simpl in Heq.
    rewrite string_app_length in Heq. lia.
  - apply (f_equal String.length) in Heq. simpl in Heq.
    rewrite string_app_length in Heq. lia.
  - injection Heq as -> Heq. f_equal. now apply IH.
Qed.

(** ** The monad of the tools *)

Lemma fetch_json_log (url : string) (params : option dict) (e : env)
    (log : list request) :
  log_after (fetch_json url params) e log = log ++ [(url, params)].
Proof.
  unfold log_after, fetch_json, mbind, M_bind, read_config, http_get; simpl.
  destruct (http_client e log (url, params)) as [| msg | status text body];
    try reflexivity.
  destruct (is_success status); [destruct body |]; reflexivity.
Qed.

Lemma bind_raises {A B} (m : M A) (k : A -> M B) e log x log' :
  m e log = (Raise x, log') -> (m ≫= k) e log = (Raise x, log').
Proof. intros Hm. unfold mbind, M_bind. now rewrite Hm. Qed.

Lemma bind_ok {A B} (m : M A) (k : A -> M B) e log a log' :
  m e log = (Ok a, log') -> (m ≫= k) e log = k a e log'.
Proof. intros Hm. unfold mbind, M_bind. now rewrite Hm. Qed.

Lemma raises_bind {A B} (m : M A) (k : A -> M B) e log x :
  raises m e log x -> raises (m ≫= k) e log x.
Proof.
  unfold raises. intros Hm. destruct (m e log) as [r log'] eqn:E.
  simpl in Hm; subst r. now rewrite (bind_raises _ _ _ _ _ _ E).
Qed.

(** A tool that fetches once and then only computes adds what the fetch
    adds to the log. *)
Lemma log_bind_lift {A B} (m : M A) (k : A -> result B) e log :
  log_after (m ≫= fun a => lift (k a)) e log = log_after m e log.
Proof.
  unfold log_after, mbind, M_bind.
  destruct (m e log) as [[a|x] log']; reflexivity.
Qed.

Lemma fetch_json_timeout (url : string) (params : option dict) e log :
  http_client e log (url, params) = TimeoutException ->
  fetch_json url params e log =
    (Raise (Exception ("Request timed out after " +:+ str_int (timeout (config e))
                         +:+ "s: " +:+ url)),
     log ++ [(url, params)]).
Proof.
  intros Ho. unfold fetch_json, mbind, M_bind, read_config, http_get; simpl.
  now rewrite Ho.
Qed.

Lemma is_success_error (status_code : Z) :
  400 <= status_code -> is_success status_code = false.
Proof. intros Hs. unfold is_success. apply andb_false_iff. right. lia. Qed.

Lemma fetch_json_status (url : string) (params : option dict) e log
    status_code text body :
  http_client e log (url, params) = Response status_code text body ->
  400 <= status_code ->
  fetch_json url params e log =
    (Raise (Exception ("HTTP " +:+ str_int status_code +:+ ": " +:+ str_take 200 text)),
     log ++ [(url, params)]).
Proof.
  intros Ho Hs. unfold fetch_json, mbind, M_bind, read_config, http_get; simpl.
  now rewrite Ho, (is_success_error _ Hs).
Qed.

(** After its fetch a tool only computes: whatever the branches, the log
    stays the one the fetch left. *)
Ltac pure_tail Hlog :=
  unfold mbind, M_bind, mret, M_ret, lift;
  repeat match goal with
    | |- context [match ?r with Ok _ => _ | Raise _ => _ end] => destruct r
    | |- context [if ?b then _ else _] => destruct b
    end;
  exact Hlog.

Ltac after_fetch :=
  unfold log_after; unfold mbind at 1, M_bind at 1;
  match goal with
  | |- context [fetch_json ?url ?params ?e ?log] =>
      let Hlog := fresh "Hlog" in
      pose proof (fetch_json_log url params e log) as Hlog;
      unfold log_after in Hlog;
      destruct (fetch_json url params e log) as [[?data|?x] ?log'];
      simpl in Hlog; [pure_tail Hlog | exact Hlog]
  end.

(** ** The gateway's failures (C1) *)

(** C1, as stated, fails: the claim has the message of an upstream HTTP
    error carry the failing URL. For a 404 answer to a request for
    [https://api.weather.gov/alerts/active] the gateway raises
    [Exception("HTTP 404: Not Found")], the single-step tool [query_noaa]
    lets exactly that error reach its caller, and the URL does not occur
    in the message. *)
Lemma C1_http_status_message_omits_url :
  fetch_json "https://api.weather.gov/alerts/active" None
    (Example.answering Example.no_keys (Response 404 "Not Found" None)) []
  = (Raise (Exception "HTTP 404: Not Found"),
     [("https://api.weather.gov/alerts/active", None)])
  /\ Weather.query_noaa "/alerts/active" None
       (Example.answering Example.no_keys (Response 404 "Not Found" None)) []
     = (Raise (Exception "HTTP 404: Not Found"),
        [("https://api.weather.gov/alerts/active", None)])
  /\ contains "https://api.weather.gov/alerts/active" "HTTP 404: Not Found" = false.
Proof. repeat split. Qed.

(** What the fetch at the head of a call does is what the call does:
    the request it logs and the exception it raises. *)
Lemma forget_raises {A} (m : M A) e log x :
  raises m e log x -> raises (forget m) e log x.
Proof.
  unfold raises, forget. destruct (m e log) as [[a|y] log']; simpl; [discriminate |].
  now intros [= ->].
Qed.

Lemma forget_log {A} (m : M A) e log :
  log_after (forget m) e log = log_after m e log.
Proof. unfold log_after, forget. now destruct (m e log) as [[a|y] log']. Qed.

Lemma read_config_bind {A} (k : Config -> M A) e log :
  (read_config ≫= k) e log = k (config e) e log.
Proof. reflexivity. Qed.

Lemma single_step_fetch `{PyBuiltins} (e : env) (log : list request)
    (c : single_step) (req : request) :
  request_of (config e) c = Some req ->
  log_after (call c) e log = log ++ [req]
  /\ forall x, raises (fetch_json (fst req) (snd req)) e log x ->
               raises (call c) e log x.
Proof.
  intros Hreq.
  destruct c; cbn [request_of] in Hreq;
    repeat match type of Hreq with
      | (if ?b then _ else _) = _ => destruct b eqn:?; [|discriminate]
      end;
    injection Hreq as <-; cbn [call fst snd]; rewrite forget_log;
    (split; [|intros x Hx; apply forget_raises]).
  all: try (unfold Weather.query_noaa, Census.query_census, EuData.query_eu_data,
              Datagov.query_datagov, Economics.query_worldbank;
            first [exact Hx | apply fetch_json_log]).
  all: try (unfold Census.get_population, Census.get_demographics,
              Census.get_housing_stats, Nasa.search_nasa_images,
              EuData.search_eu_datasets, EuData.get_eu_dataset_info,
              Datagov.search_datasets, Datagov.get_dataset_info;
            first [now apply raises_bind | after_fetch]).
  all: unfold Weather.get_weather_alerts, Weather.get_global_weather,
         Weather.query_openweather, Nasa.get_astronomy_photo,
         Nasa.get_mars_rover_photos, log_after, raises;
       rewrite ?read_config_bind; cbn beta zeta; rewrite ?Heqb; cbn [negb].
  all: first [ exact Hx | now apply raises_bind | apply fetch_json_log | after_fetch ].
Qed.

(** C1 (amended): for every call of [fetch_json], a timeout raises
    [Exception] with the message "Request timed out after <timeout>s:
    <url>", which names the configured timeout and the failing URL; an
    upstream response with status >= 400 raises [Exception] with the
    message "HTTP <status>: <first 200 characters of the body>", which
    carries the status code and the truncated body and not the URL; and
    each of the nineteen single-step tools, once past its guard, makes
    one request and lets whatever the gateway raises on it reach the
    caller unchanged: a timeout with the URL in its message, an
    HTTP-status failure with the status and the truncated body. *)
Theorem C1_fetch_failures `{PyBuiltins} (e : env) (log : list request)
    (url : string) (params : option dict) :
  (http_client e log (url, params) = TimeoutException ->
   exists msg,
     fetch_json url params e log = (Raise (Exception msg), log ++ [(url, params)])
     /\ msg = "Request timed out after " +:+ str_int (timeout (config e))
                +:+ "s: " +:+ url
     /\ contains (str_int (timeout (config e)) +:+ "s") msg = true
     /\ contains url msg = true)
  /\ (forall status_code text body,
        http_client e log (url, params) = Response status_code text body ->
        400 <= status_code ->
        exists msg,
          fetch_json url params e log = (Raise (Exception msg), log ++ [(url, params)])
          /\ msg = "HTTP " +:+ str_int status_code +:+ ": " +:+ str_take 200 text
          /\ contains (str_int status_code) msg = true
          /\ contains (str_take 200 text) msg = true
          /\ chars (str_take 200 text) = take 200 (chars text)
          /\ str_len (str_take 200 text) = Nat.min 200 (str_len text)
          /\ startswith (str_take 200 text) text = true)
  /\ (forall c req,
        request_of (config e) c = Some req ->
        log_after (call c) e log = log ++ [req]
        /\ (forall x,
               raises (fetch_json (fst req) (snd req)) e log x ->
               raises (call c) e log x)
        /\ (http_client e log req = TimeoutException ->
            exists msg,
              raises (call c) e log (Exception msg)
              /\ msg = "Request timed out after " +:+ str_int (timeout (config e))
                         +:+ "s: " +:+ fst req
              /\ contains (fst req) msg = true)
        /\ (forall status_code text body,
               http_client e log req = Response status_code text body ->
               400 <= status_code ->
               raises (call c) e log
                 (Exception ("HTTP " +:+ str_int status_code +:+ ": "
                               +:+ str_take 200 text)))).
Proof.
  split; [|split].
  - intros Ho. eexists. split; [apply (fetch_json_timeout _ _ _ _ Ho) |].
    split; [reflexivity |]. split.
    + rewrite <- (string_app_assoc _ "s" (": " +:+ url)).
      apply contains_app.
    + rewrite <- (string_app_assoc _ "s: " url), <- string_app_assoc.
      apply contains_suffix.
  - intros status_code text body Ho Hs. eexists.
    split; [apply (fetch_json_status _ _ _ _ _ _ _ Ho Hs) |].
    split; [reflexivity |]. split; [apply contains_app |].
    split; [|split; [|split]].
    + rewrite <- (string_app_assoc _ ": " _), <- string_app_assoc.
      apply contains_suffix.
    + apply chars_str_take.
    + apply str_len_str_take.
    + apply startswith_str_take.
  - intros c [u ps] Hreq.
    destruct (single_step_fetch e log c (u, ps) Hreq) as [Hlog Hraise].
    split; [exact Hlog |]. split; [exact Hraise |]. split.
    + intros Ho. eexists. split; [|split; [reflexivity |]].
      * apply Hraise. unfold raises. cbn [fst snd].
        now rewrite (fetch_json_timeout _ _ _ _ Ho).
      * cbn [fst]. rewrite <- (string_app_assoc _ "s: " u), <- string_app_assoc.
        apply contains_suffix.
    + intros status_code text body Ho Hs. apply Hraise. unfold raises.
      cbn [fst snd]. now rewrite (fetch_json_status _ _ _ _ _ _ _ Ho Hs).
Qed.

(** The amended C1 at work: a timeout of 30 seconds and an HTTP 503 on
    the alerts endpoint, met by [fetch_json] and by the alerts tool. *)
Lemma C1_fetch_failures_witness :
  (exists msg,
      fetch_json "https://api.weather.gov/alerts/active" None
        (Example.answering Example.no_keys TimeoutException) []
      = (Raise (Exception msg), [] ++ [("https://api.weather.gov/alerts/active", None)])
      /\ msg = "Request timed out after 30s: https://api.weather.gov/alerts/active"
      /\ contains "30s" msg = true
      /\ contains "https://api.weather.gov/alerts/active" msg = true)
  /\ (exists msg,
         fetch_json "https://api.weather.gov/alerts/active" None
           (Example.answering Example.no_keys (Response 503 "Service Unavailable" None)) []
         = (Raise (Exception msg),
            [] ++ [("https://api.weather.gov/alerts/active", None)])
         /\ msg = "HTTP 503: Service Unavailable")
  /\ raises (call (H := Example.builtins) (GetWeatherAlerts "ca"))
        (Example.answering Example.no_keys (Response 503 "Service Unavailable" None)) []
        (Exception "HTTP 503: Service Unavailable").
Proof.
  split; [|split].
  - apply (proj1 (C1_fetch_failures (H := Example.builtins)
                    (Example.answering Example.no_keys TimeoutException) []
                    "https://api.weather.gov/alerts/active" None)).
    reflexivity.
  - destruct (proj1 (proj2 (C1_fetch_failures (H := Example.builtins)
                    (Example.answering Example.no_keys
                       (Response 503 "Service Unavailable" None)) []
                    "https://api.weather.gov/alerts/active" None))
                _ _ _ eq_refl ltac:(lia)) as (msg & Hf & Hm & _).
    exists msg. split; [exact Hf | exact Hm].
  - exact (proj2 (proj2 (proj2
             (proj2 (proj2 (C1_fetch_failures (H := Example.builtins)
                       (Example.answering Example.no_keys
                          (Response 503 "Service Unavailable" None)) []
                       "" None))
                (GetWeatherAlerts "ca")
                ("https://api.weather.gov/alerts/active", Some [("area", JStr "CA")])
                eq_refl)))
           503 "Service Unavailable" None eq_refl ltac:(lia)).
Defined.

(** ** The guards of the weather tools (C2, C9) *)

Lemma has_openweather_key (cfg : Config) :
  has_openweather cfg = true ->
  exists key, openweather_api_key cfg = Some key /\ key <> "".
Proof.
  unfold has_openweather, key_truthy.
  destruct (openweather_api_key cfg) as [[|c k]|]; try discriminate.
  intros _. exists (String c k). split; [reflexivity | discriminate].
Qed.

(** C2: without an OpenWeather key ([config.has_openweather] false, which
    is the case when the key is [None] and when it is the empty string)
    [get_global_weather] returns, and does not raise, a string that
    contains "OPENWEATHER_API_KEY", and the request log is left as it was:
    no network call; [query_openweather] likewise returns its error
    value and makes no call. With a key the guard is passed and the fetch takes
    place: the tool is the fetch of the weather endpoint followed by the
    formatting, and it adds exactly that one request, carrying the key
    as [appid], to the log. *)
Theorem C2_global_weather_guard `{PyBuiltins} (e : env) (log : list request)
    (city country_code : string) :
  (openweather_api_key (config e) = None -> has_openweather (config e) = false)
  /\ (has_openweather (config e) = false ->
      Weather.get_global_weather city country_code e log
      = (Ok "Error: OpenWeather tools require OPENWEATHER_API_KEY environment variable",
         log)
      /\ contains "OPENWEATHER_API_KEY"
           "Error: OpenWeather tools require OPENWEATHER_API_KEY environment variable"
         = true)
  /\ (forall endpoint params,
         has_openweather (config e) = false ->
         Weather.query_openweather endpoint params e log
         = (Ok (JObj [("error",
                       JStr "OpenWeather requires OPENWEATHER_API_KEY environment variable")]),
            log))
  /\ (has_openweather (config e) = true ->
      exists key,
        openweather_api_key (config e) = Some key /\ key <> ""
        /\ let query :=
             if str_truthy country_code then city +:+ "," +:+ country_code else city in
           let url := "https://api.openweathermap.org/data/2.5/weather" in
           let params :=
             Some [("q", JStr query); ("appid", JStr key); ("units", JStr "metric")] in
           Weather.get_global_weather city country_code e log
           = (fetch_json url params ≫= fun data => lift (Weather.global_weather_text data))
               e log
           /\ log_after (Weather.get_global_weather city country_code) e log
              = log ++ [(url, params)]).
Proof.
  split; [|split; [|split]].
  - intros Hk. unfold has_openweather. now rewrite Hk.
  - intros Hk. split; [|reflexivity].
    unfold Weather.get_global_weather, mbind, M_bind, read_config. simpl.
    now rewrite Hk.
  - intros endpoint params Hk.
    unfold Weather.query_openweather, mbind, M_bind, read_config. simpl.
    now rewrite Hk.
  - intros Hk. destruct (has_openweather_key _ Hk) as (key & Hkey & Hne).
    exists key. split; [exact Hkey |]. split; [exact Hne |].
    intros query url params.
    assert (Weather.get_global_weather city country_code e log
            = (fetch_json url params
                 ≫= fun data => lift (Weather.global_weather_text data)) e log) as Heq.
    { unfold Weather.get_global_weather.
      unfold mbind at 1, M_bind at 1, read_config. simpl.
      rewrite Hk, Hkey. reflexivity. }
    split; [exact Heq |].
    unfold log_after. rewrite Heq.
    change (log_after (fetch_json url params
                         ≫= fun data => lift (Weather.global_weather_text data)) e log
            = log ++ [(url, params)]).
    rewrite log_bind_lift. apply fetch_json_log.
Qed.

(** C2 at work: no key and an upstream that would answer; a key and an
    upstream that times out. *)
Lemma C2_global_weather_guard_witness :
  Weather.get_global_weather (H := Example.builtins) "London" "GB"
    (Example.answering Example.no_keys (Response 200 "{}" (Some (JObj [])))) []
  = (Ok "Error: OpenWeather tools require OPENWEATHER_API_KEY environment variable", [])
  /\ log_after (Weather.get_global_weather (H := Example.builtins) "London" "GB")
       (Example.answering Example.with_keys TimeoutException) []
     = [("https://api.openweathermap.org/data/2.5/weather",
         Some [("q", JStr "London,GB"); ("appid", JStr "ow-key");
               ("units", JStr "metric")])].
Proof.
  split.
  - apply (proj1 (proj2 (C2_global_weather_guard (H := Example.builtins)
                           (Example.answering Example.no_keys
                              (Response 200 "{}" (Some (JObj [])))) [] "London" "GB"))).
    reflexivity.
  - destruct (proj2 (proj2 (proj2 (C2_global_weather_guard (H := Example.builtins)
                              (Example.answering Example.with_keys TimeoutException)
                              [] "London" "GB"))) eq_refl)
      as (key & Hkey & _ & _ & Hlog).
    injection Hkey as <-. exact Hlog.
Defined.

(** C9, as stated, fails: the claim has the fetch attempted for every
    argument of two characters. The argument "ßa" has two characters;
    its upper case is "SSA", of three, so the tool returns the error
    string and makes no request. (Both characters are below U+0100: the
    result does not depend on the built-ins.) *)
Lemma C9_two_characters_refused :
  str_len "ßa" = 2%nat
  /\ upper (H := Example.builtins) "ßa" = "SSA"
  /\ str_len (upper (H := Example.builtins) "ßa") = 3%nat
  /\ Weather.get_weather_alerts (H := Example.builtins) "ßa"
       (Example.answering Example.no_keys (Response 200 "{}" (Some (JObj [])))) []
     = (Ok "Error: State must be a 2-letter code (e.g., 'CA', 'TX')", []).
Proof. repeat split. Qed.

(** C9 (amended): [get_weather_alerts] upper-cases its argument; when
    the result is not two characters long it returns the error string
    and leaves the request log as it was; when the result is two
    characters long the guard is passed and the one request for the
    active alerts of the upper-cased state is made. The upper case of an
    argument of two ASCII characters has two characters, so for each of
    these the fetch is attempted. *)
Theorem C9_alerts_state_guard `{PyBuiltins} (e : env) (log : list request)
    (state : string) :
  (str_len (upper state) <> 2%nat ->
   Weather.get_weather_alerts state e log
   = (Ok "Error: State must be a 2-letter code (e.g., 'CA', 'TX')", log))
  /\ (str_len (upper state) = 2%nat ->
      log_after (Weather.get_weather_alerts state) e log
      = log ++ [("https://api.weather.gov/alerts/active",
                 Some [("area", JStr (upper state))])])
  /\ (is_ascii state = true -> str_len state = 2%nat ->
      str_len (upper state) = 2%nat
      /\ log_after (Weather.get_weather_alerts state) e log
         = log ++ [("https://api.weather.gov/alerts/active",
                    Some [("area", JStr (upper state))])]).
Proof.
  assert (Hpass : str_len (upper state) = 2%nat ->
                  log_after (Weather.get_weather_alerts state) e log
                  = log ++ [("https://api.weather.gov/alerts/active",
                             Some [("area", JStr (upper state))])]).
  { intros Hlen. unfold Weather.get_weather_alerts. rewrite Hlen.
    change (negb (2 =? 2)%nat) with false. cbv iota. after_fetch. }
  split; [|split].
  - intros Hlen. unfold Weather.get_weather_alerts.
    apply Nat.eqb_neq in Hlen. now rewrite Hlen.
  - exact Hpass.
  - intros Hascii Hlen.
    assert (Hup : str_len (upper state) = 2%nat) by now rewrite str_len_upper.
    split; [exact Hup | exact (Hpass Hup)].
Qed.

(** The amended C9 at work: a three-letter and a two-letter argument. *)
Lemma C9_alerts_state_guard_witness :
  Weather.get_weather_alerts (H := Example.builtins) "cal"
    (Example.answering Example.no_keys TimeoutException) []
  = (Ok "Error: State must be a 2-letter code (e.g., 'CA', 'TX')", [])
  /\ log_after (Weather.get_weather_alerts (H := Example.builtins) "ca")
       (Example.answering Example.no_keys TimeoutException) []
     = [] ++ [("https://api.weather.gov/alerts/active",
               Some [("area", JStr (upper (H := Example.builtins) "ca"))])]
  /\ (str_len (upper (H := Example.builtins) "ca") = 2%nat
      /\ log_after (Weather.get_weather_alerts (H := Example.builtins) "ca")
           (Example.answering Example.no_keys TimeoutException) []
         = [] ++ [("https://api.weather.gov/alerts/active",
                   Some [("area", JStr (upper (H := Example.builtins) "ca"))])]).
Proof.
  split; [|split].
  - apply (proj1 (C9_alerts_state_guard (H := Example.builtins)
                    (Example.answering Example.no_keys TimeoutException) [] "cal")).
    vm_compute. discriminate.
  - apply (proj1 (proj2 (C9_alerts_state_guard (H := Example.builtins)
                    (Example.answering Example.no_keys TimeoutException) [] "ca"))).
    reflexivity.
  - apply (proj2 (proj2 (C9_alerts_state_guard (H := Example.builtins)
                    (Example.answering Example.no_keys TimeoutException) [] "ca")));
      reflexivity.
Defined.

(** ** The census tools: geography (C4, C10) *)

(** C4, as stated, fails: the claim has the lookup return a five-digit
    code, and the code of California, which the claim itself gives as
    "06", has two digits. *)
Lemma C4_fips_code_has_two_digits :
  Census.STATE_FIPS !! "CA" = Some "06"
  /\ Census.fips_of (H := Example.builtins) "CA" = "06"
  /\ String.length (Census.fips_of (H := Example.builtins) "CA") <> 5%nat.
Proof. vm_compute. repeat split; discriminate. Qed.

(** Every row of the literal: an upper-case key of two characters and a
    code of two digits. *)
Lemma state_fips_items_checked `{PyBuiltins} :
  Forall (fun kv : string * string =>
            upper (lower (fst kv)) = fst kv
            /\ upper (fst kv) = fst kv
            /\ String.length (fst kv) = 2%nat
            /\ String.length (snd kv) = 2%nat
            /\ all_digits (snd kv) = true)
         Census.STATE_FIPS_items.
Proof. unfold Census.STATE_FIPS_items. repeat constructor. Qed.

(** C4 (amended): the table has 52 entries; for every key of the table
    the lookup of the census tools returns the entry of that key, a code
    of two decimal digits (the same for the lower-case spelling of the
    key), with "CA" giving "06", "TX" giving "48" and "DC" giving "11";
    for every argument whose upper-case form is not a key, the lookup
    returns that upper-case form. *)
Theorem C4_state_fips_lookup `{PyBuiltins} :
  size Census.STATE_FIPS = 52%nat
  /\ (forall code fips : string,
         Census.STATE_FIPS !! code = Some fips ->
         Census.fips_of code = fips
         /\ Census.fips_of (lower code) = fips
         /\ String.length code = 2%nat
         /\ String.length fips = 2%nat
         /\ all_digits fips = true)
  /\ Census.fips_of "CA" = "06"
  /\ Census.fips_of "TX" = "48"
  /\ Census.fips_of "DC" = "11"
  /\ (forall state : string,
         Census.STATE_FIPS !! upper state = None ->
         Census.fips_of state = upper state).
Proof.
  split; [vm_compute; reflexivity |].
  split.
  - intros code fips Hlook.
    assert ((code, fips) ∈ Census.STATE_FIPS_items) as Hin.
    { apply elem_of_list_to_map_2. exact Hlook. }
    pose proof state_fips_items_checked as Hall.
    rewrite Forall_forall in Hall.
    destruct (Hall (code, fips) Hin) as (Hul & Hu & Hc & Hf & Hd). simpl in *.
    unfold Census.fips_of. rewrite Hul, Hu, Hlook. simpl. auto.
  - split; [vm_compute; reflexivity |].
    split; [vm_compute; reflexivity |].
    split; [vm_compute; reflexivity |].
    intros state Hnone. unfold Census.fips_of. now rewrite Hnone.
Qed.

(** C4 at work: California by its key, and an argument that is no key. *)
Lemma C4_state_fips_lookup_witness :
  (Census.fips_of (H := Example.builtins) "CA" = "06" /\ String.length "06" = 2%nat)
  /\ Census.fips_of (H := Example.builtins) "zz" = upper (H := Example.builtins) "zz".
Proof.
  pose proof (C4_state_fips_lookup (H := Example.builtins))
    as (_ & Hkey & _ & _ & _ & Hother).
  split.
  - destruct (Hkey "CA" "06") as (Hf & _ & _ & Hl & _);
      [vm_compute; reflexivity | split; [exact Hf | exact Hl]].
  - apply Hother. vm_compute. reflexivity.
Defined.

Lemma str_truthy_nonempty (s : string) : s <> "" -> str_truthy s = true.
Proof. destruct s; [congruence | reflexivity]. Qed.

Section Geography.
Context `{PyBuiltins}.

Lemma population_url_county (state county : string) :
  county <> "" ->
  Census.population_url state county
  = "https://api.census.gov/data/2022/acs/acs5?get=NAME,B01003_001E&for=county:*&in=state:"
      +:+ Census.fips_of state.
Proof.
  intros Hc. unfold Census.population_url. now rewrite (str_truthy_nonempty _ Hc).
Qed.

Lemma demographics_url_county (state county : string) :
  county <> "" ->
  Census.demographics_url state county
  = "https://api.census.gov/data/2022/acs/acs5?get=NAME,B01003_001E,B01002_001E,B19013_001E,B02001_002E,B02001_003E,B02001_005E,B03001_003E&for=county:"
      +:+ county +:+ "&in=state:" +:+ Census.fips_of state.
Proof.
  intros Hc. unfold Census.demographics_url. now rewrite (str_truthy_nonempty _ Hc).
Qed.

Lemma housing_url_county (state county : string) :
  county <> "" ->
  Census.housing_url state county
  = "https://api.census.gov/data/2022/acs/acs5?get=NAME,B25001_001E,B25002_002E,B25002_003E,B25077_001E,B25064_001E&for=county:"
      +:+ county +:+ "&in=state:" +:+ Census.fips_of state.
Proof.
  intros Hc. unfold Census.housing_url. now rewrite (str_truthy_nonempty _ Hc).
Qed.

(** The geography that [get_demographics] and [get_housing_stats] build
    for a county determines the county. *)
Lemma county_geo_inj (prefix fips county1 county2 : string) :
  prefix +:+ county1 +:+ "&in=state:" +:+ fips
  = prefix +:+ county2 +:+ "&in=state:" +:+ fips ->
  county1 = county2.
Proof.
  intros Heq. apply String.app_inj in Heq.
  rewrite <- !(string_app_assoc _ "&in=state:" fips) in Heq.
  apply string_app_inv_tail in Heq. now apply string_app_inv_tail in Heq.
Qed.

Lemma get_demographics_log (state county : string) e log :
  log_after (Census.get_demographics state county) e log
  = log ++ [(Census.demographics_url state county, None)].
Proof. unfold Census.get_demographics. after_fetch. Qed.

Lemma get_housing_stats_log (state county : string) e log :
  log_after (Census.get_housing_stats state county) e log
  = log ++ [(Census.housing_url state county, None)].
Proof. unfold Census.get_housing_stats. after_fetch. Qed.

Lemma get_population_log (state county : string) e log :
  log_after (Census.get_population state county) e log
  = log ++ [(Census.population_url state county, None)].
Proof. unfold Census.get_population. after_fetch. Qed.

End Geography.

(** C10: for two distinct non-empty county arguments and the same state,
    [get_population] builds the same URL, the one that asks the 2022
    ACS for the population of [county:*] in the state, and is the same
    computation: the same one request and the same result whatever the
    upstream answers. [get_demographics] and [get_housing_stats] request
    the geography [county:<county>] in the state: each makes one
    request, for a URL with the given county in it, and the requests
    for the two counties differ. *)
Theorem C10_population_ignores_county `{PyBuiltins} (state county1 county2 : string) :
  county1 <> "" -> county2 <> "" -> county1 <> county2 ->
  Census.population_url state county1 = Census.population_url state county2
  /\ Census.population_url state county1
     = "https://api.census.gov/data/2022/acs/acs5?get=NAME,B01003_001E&for=county:*&in=state:"
         +:+ Census.fips_of state
  /\ Census.get_population state county1 = Census.get_population state county2
  /\ (forall e log county,
         county = county1 \/ county = county2 ->
         log_after (Census.get_population state county) e log
         = log ++ [("https://api.census.gov/data/2022/acs/acs5?get=NAME,B01003_001E&for=county:*&in=state:"
                      +:+ Census.fips_of state, None)])
  /\ (forall e log county,
         county = county1 \/ county = county2 ->
         log_after (Census.get_demographics state county) e log
         = log ++ [("https://api.census.gov/data/2022/acs/acs5?get=NAME,B01003_001E,B01002_001E,B19013_001E,B02001_002E,B02001_003E,B02001_005E,B03001_003E&for=county:"
                      +:+ county +:+ "&in=state:" +:+ Census.fips_of state, None)])
  /\ (forall e log county,
         county = county1 \/ county = county2 ->
         log_after (Census.get_housing_stats state county) e log
         = log ++ [("https://api.census.gov/data/2022/acs/acs5?get=NAME,B25001_001E,B25002_002E,B25002_003E,B25077_001E,B25064_001E&for=county:"
                      +:+ county +:+ "&in=state:" +:+ Census.fips_of state, None)])
  /\ (forall e log,
         log_after (Census.get_demographics state county1) e log
         <> log_after (Census.get_demographics state county2) e log)
  /\ (forall e log,
         log_after (Census.get_housing_stats state county1) e log
         <> log_after (Census.get_housing_stats state county2) e log).
Proof.
  intros H1 H2 Hne.
  assert (Hnonempty : forall county, county = county1 \/ county = county2 ->
                                     county <> "")
    by (intros county [-> | ->]; assumption).
  assert (Census.population_url state county1 = Census.population_url state county2)
    as Hurl by now rewrite !population_url_county.
  split; [exact Hurl |].
  split; [now apply population_url_county |].
  split; [unfold Census.get_population; now rewrite Hurl |].
  split.
  { intros e log county Hc.
    now rewrite get_population_log, (population_url_county _ _ (Hnonempty _ Hc)). }
  split.
  { intros e log county Hc.
    now rewrite get_demographics_log, (demographics_url_county _ _ (Hnonempty _ Hc)). }
  split.
  { intros e log county Hc.
    now rewrite get_housing_stats_log, (housing_url_county _ _ (Hnonempty _ Hc)). }
  split.
  - intros e log. rewrite !get_demographics_log, !demographics_url_county by assumption.
    intros Heq. apply app_inv_head in Heq. injection Heq as Heq.
    now apply (county_geo_inj "") in Heq.
  - intros e log. rewrite !get_housing_stats_log, !housing_url_county by assumption.
    intros Heq. apply app_inv_head in Heq. injection Heq as Heq.
    now apply (county_geo_inj "") in Heq.
Qed.

(** C10 at work: Los Angeles and San Diego county in California. *)
Lemma C10_population_ignores_county_witness :
  Census.population_url (H := Example.builtins) "CA" "037"
  = Census.population_url (H := Example.builtins) "CA" "073"
  /\ Census.population_url (H := Example.builtins) "CA" "037"
     = "https://api.census.gov/data/2022/acs/acs5?get=NAME,B01003_001E&for=county:*&in=state:06"
  /\ log_after (Census.get_demographics (H := Example.builtins) "CA" "037")
       (Example.answering Example.no_keys TimeoutException) []
     <> log_after (Census.get_demographics (H := Example.builtins) "CA" "073")
          (Example.answering Example.no_keys TimeoutException) [].
Proof.
  destruct (C10_population_ignores_county (H := Example.builtins) "CA" "037" "073")
    as (Hp & Hu & _ & _ & _ & _ & Hd & _); try discriminate.
  split; [exact Hp |]. split; [exact Hu | apply Hd].
Defined.

(** ** The census tools: percentages (C5) *)

(** C5, as stated, fails: the claim has the housing tool render "N/A"
    for the vacancy rate of a geography without housing units. The tool
    sets the rate to the int 0 there and formats it with one decimal:
    the text reads "0.0% vacancy rate" and contains no "N/A". *)
Lemma C5_housing_zero_units_renders_zero :
  Census.vacancy_text 0 0 = Ok "0.0% vacancy rate"
  /\ exists text,
       Census.get_housing_stats (H := Example.builtins) "CA" ""
         (Example.answering Example.no_keys
            (Response 200 "" (Some Example.empty_housing))) []
       = (Ok text,
          [("https://api.census.gov/data/2022/acs/acs5?get=NAME,B25001_001E,B25002_002E,B25002_003E,B25077_001E,B25064_001E&for=state:06",
            None)])
       /\ contains "**Vacant**: 0 (0.0% vacancy rate)" text = true
       /\ contains "N/A" text = false.
Proof.
  split; [reflexivity |]. eexists. split; [vm_compute; reflexivity |].
  split; vm_compute; reflexivity.
Qed.

(** C5 (amended): both ratio computations of the census tools test the
    denominator and never divide by zero. The percentage-of-total
    formatter of [get_demographics] renders "N/A" when the total is 0,
    whatever the part, and "25.0%" for total 200 and part 50. The vacancy
    rate of [get_housing_stats] is the int 0 when there are no housing
    units, whatever the number of vacant units, and is rendered as
    "0.0% vacancy rate", not as "N/A". *)
Theorem C5_zero_denominator_guards :
  (forall n : Z, Census.pct 0 n = Ok "N/A")
  /\ Census.pct 200 50 = Ok "25.0%"
  /\ (forall vacant : Z,
         Census.vacancy_rate vacant 0 = Ok (Int 0)
         /\ Census.vacancy_text vacant 0 = Ok "0.0% vacancy rate")
  /\ (forall name occupied vacant median_value median_rent,
         exists text,
           Census.housing_text name 0 occupied vacant median_value median_rent = Ok text
           /\ contains "0.0% vacancy rate" text = true).
Proof.
  split; [intros n; reflexivity |].
  split; [vm_compute; reflexivity |].
  split; [intros vacant; split; reflexivity |].
  intros name occupied vacant median_value median_rent.
  eexists. split; [reflexivity |].
  do 16 apply contains_app_r. apply contains_here.
Qed.

(** ** The NASA tools: the API key (C8) *)

Lemma dict_lookup_set_eq (k : string) (v : json) (d : dict) :
  dict_lookup k (dict_set k v d) = Some v.
Proof.
  induction d as [|[k' v'] d IH]; simpl.
  - now rewrite String.eqb_refl.
  - destruct (String.eqb k k') eqn:E; simpl; rewrite E; [reflexivity | exact IH].
Qed.

Lemma dict_lookup_set_ne (k k' : string) (v : json) (d : dict) :
  k <> k' -> dict_lookup k (dict_set k' v d) = dict_lookup k d.
Proof.
  intros Hne. induction d as [|[k2 v2] d IH]; simpl.
  - apply String.eqb_neq in Hne. now rewrite Hne.
  - destruct (String.eqb k' k2) eqn:E; simpl.
    + apply String.eqb_eq in E. subst k2.
      apply String.eqb_neq in Hne. now rewrite Hne.
    + now rewrite IH.
Qed.

(** C8, as stated, fails for one NASA tool: [search_nasa_images] builds
    its parameters from the query and the media type alone, and sends no
    [api_key], neither "DEMO_KEY" nor a configured key. *)
Lemma C8_image_search_sends_no_key :
  log_after (Nasa.search_nasa_images (H := Example.builtins) "mars" "image")
    (Example.answering Example.no_keys TimeoutException) []
  = [("https://images-api.nasa.gov/search",
      Some [("q", JStr "mars"); ("media_type", JStr "image")])]
  /\ dict_lookup "api_key" [("q", JStr "mars"); ("media_type", JStr "image")] = None
  /\ log_after (Nasa.search_nasa_images (H := Example.builtins) "mars" "image")
       (Example.answering Example.with_keys TimeoutException) []
     = [("https://images-api.nasa.gov/search",
         Some [("q", JStr "mars"); ("media_type", JStr "image")])].
Proof. repeat split. Qed.

(** C8 (amended): the NASA tools never deny a request for want of a key.
    [get_api_key] is "DEMO_KEY" when no key is configured (the key is
    [None] or empty) and the configured key otherwise. The tools of
    [api.nasa.gov] ([get_astronomy_photo], [get_mars_rover_photos],
    [query_nasa]) make their one request with that value as the
    [api_key] parameter; [search_nasa_images] makes its one request to
    the image library without an [api_key] parameter. *)
Theorem C8_nasa_api_key `{PyBuiltins} (e : env) (log : list request) :
  (has_nasa_key (config e) = false -> Nasa.get_api_key (config e) = "DEMO_KEY")
  /\ (nasa_api_key (config e) = None -> has_nasa_key (config e) = false)
  /\ (forall key,
         nasa_api_key (config e) = Some key -> key <> "" ->
         Nasa.get_api_key (config e) = key)
  /\ (forall date,
         exists params,
           log_after (Nasa.get_astronomy_photo date) e log
           = log ++ [("https://api.nasa.gov/planetary/apod", Some params)]
           /\ dict_lookup "api_key" params = Some (JStr (Nasa.get_api_key (config e))))
  /\ (forall rover sol earth_date camera,
         exists params,
           log_after (Nasa.get_mars_rover_photos rover sol earth_date camera) e log
           = log ++ [("https://api.nasa.gov/mars-photos/api/v1/rovers/"
                        +:+ lower rover +:+ "/photos", Some params)]
           /\ dict_lookup "api_key" params = Some (JStr (Nasa.get_api_key (config e))))
  /\ (forall endpoint given,
         exists params,
           log_after (Nasa.query_nasa endpoint given) e log
           = log ++ [("https://api.nasa.gov" +:+ endpoint, Some params)]
           /\ dict_lookup "api_key" params = Some (JStr (Nasa.get_api_key (config e))))
  /\ (forall query media_type,
         log_after (Nasa.search_nasa_images query media_type) e log
         = log ++ [("https://images-api.nasa.gov/search",
                    Some [("q", JStr query); ("media_type", JStr media_type)])]).
Proof.
  split; [|split; [|split; [|split; [|split; [|split]]]]].
  - unfold has_nasa_key, Nasa.get_api_key, key_truthy.
    destruct (nasa_api_key (config e)) as [k|]; [|reflexivity].
    now intros ->.
  - unfold has_nasa_key. now intros ->.
  - intros key Hk Hne. unfold Nasa.get_api_key. rewrite Hk.
    now rewrite (str_truthy_nonempty _ Hne).
  - intros date. exists (Nasa.astronomy_params (config e) date). split.
    + unfold Nasa.get_astronomy_photo.
      unfold log_after, mbind at 1, M_bind at 1, read_config. simpl.
      after_fetch.
    + unfold Nasa.astronomy_params. destruct (str_truthy date); [|reflexivity].
      now rewrite dict_lookup_set_ne.
  - intros rover sol earth_date camera.
    exists (Nasa.rover_params (config e) sol earth_date camera). split.
    + unfold Nasa.get_mars_rover_photos.
      unfold log_after, mbind at 1, M_bind at 1, read_config. simpl.
      after_fetch.
    + unfold Nasa.rover_params.
      destruct sol, (str_truthy earth_date), (str_truthy camera);
        rewrite ?dict_lookup_set_ne by discriminate; reflexivity.
  - intros endpoint given. eexists. split.
    + unfold Nasa.query_nasa.
      unfold log_after, mbind at 1, M_bind at 1, read_config. simpl.
      apply fetch_json_log.
    + apply dict_lookup_set_eq.
  - intros query media_type. unfold Nasa.search_nasa_images.
    after_fetch.
Qed.

(** C8 at work: the photo of the day without a key and with one. *)
Lemma C8_nasa_api_key_witness :
  Nasa.get_api_key Example.no_keys = "DEMO_KEY"
  /\ Nasa.get_api_key Example.with_keys = "nasa-key".
Proof.
  split.
  - apply (proj1 (C8_nasa_api_key (H := Example.builtins)
                    (Example.answering Example.no_keys TimeoutException) [])).
    reflexivity.
  - apply (proj1 (proj2 (proj2 (C8_nasa_api_key (H := Example.builtins)
                    (Example.answering Example.with_keys TimeoutException) [])))
             "nasa-key"); [reflexivity | discriminate].
Defined.

(** ** The EU tools: multilingual fields (C6) *)

Lemma dict_lookup_multilingual (lang : string) (m : list (string * string)) :
  dict_lookup lang ((fun kv => (fst kv, JStr (snd kv))) <$> m)
  = JStr <$> text_of lang m.
Proof.
  unfold text_of. induction m as [|[k v] m IH]; simpl; [reflexivity |].
  destruct (String.eqb lang k); [reflexivity | exact IH].
Qed.

Section Multilingual.
Context `{PyBuiltins}.

Lemma multilingual_english (m : list (string * string)) (placeholder en : string) :
  text_of "en" m = Some en -> en <> "" ->
  EuData.multilingual (multilingual_obj m) placeholder = Ok (JStr en).
Proof.
  intros Hen Hne. unfold EuData.multilingual, multilingual_obj.
  rewrite dict_lookup_multilingual, Hen. simpl.
  destruct m as [|kv m]; [discriminate |]. simpl.
  now rewrite (str_truthy_nonempty _ Hne).
Qed.

Lemma multilingual_first (m : list (string * string)) (placeholder lang text : string) :
  text_of "en" m = None -> m !! 0%nat = Some (lang, text) ->
  EuData.multilingual (multilingual_obj m) placeholder = Ok (JStr text).
Proof.
  intros Hen Hfirst. unfold EuData.multilingual, multilingual_obj.
  rewrite dict_lookup_multilingual, Hen. simpl.
  destruct m as [|kv m]; [discriminate |]. simpl in *.
  injection Hfirst as ->. reflexivity.
Qed.

Lemma multilingual_empty (placeholder : string) :
  EuData.multilingual (multilingual_obj []) placeholder = Ok (JStr placeholder).
Proof. reflexivity. Qed.

(** A dataset whose field [k] holds [obj] hands [obj] to the extraction. *)
Lemma extract_title_field (obj : json) (ds : dict) :
  EuData.extract_title (JObj (dict_set "title" obj ds))
  = EuData.multilingual obj "Untitled".
Proof.
  unfold EuData.extract_title, get. now rewrite dict_lookup_set_eq.
Qed.

Lemma extract_description_info_field (obj : json) (ds : dict) :
  EuData.extract_description_info (JObj (dict_set "description" obj ds))
  = EuData.multilingual obj "No description".
Proof.
  unfold EuData.extract_description_info, get. now rewrite dict_lookup_set_eq.
Qed.

Lemma extract_description_search_field (obj : json) (ds : dict) :
  EuData.extract_description_search (JObj (dict_set "description" obj ds))
  = (EuData.multilingual obj "" ≫= fun desc =>
       if truthy desc then slice_to desc 200 else Ok (JStr "No description")).
Proof.
  unfold EuData.extract_description_search, get. now rewrite dict_lookup_set_eq.
Qed.

End Multilingual.

(** C6, as stated, fails for the descriptions of [search_eu_datasets].
    With the mapping [{"fr": ""}], which has no "en" entry, the
    description is "No description", which is no entry of the mapping;
    with an "en" entry of 201 characters the description is not that
    entry: it is cut to 200 characters. *)
Lemma C6_search_description_is_not_the_entry :
  (text_of "en" [("fr", "")] = None
   /\ EuData.extract_description_search (H := Example.builtins)
        (JObj [("description", multilingual_obj [("fr", "")])])
      = Ok (JStr "No description")
   /\ ~ In "No description" (snd <$> [("fr", "")]))
  /\ (text_of "en" [("en", Example.long_text)] = Some Example.long_text
      /\ Example.long_text <> ""
      /\ EuData.extract_description_search (H := Example.builtins)
           (JObj [("description", multilingual_obj [("en", Example.long_text)])])
         <> Ok (JStr Example.long_text)).
Proof.
  split.
  - split; [reflexivity |]. split; [reflexivity |].
    intros [Hin | []]. discriminate Hin.
  - split; [reflexivity |]. split; [discriminate |].
    vm_compute. discriminate.
Qed.

(** C6 (amended): for every multilingual mapping [m] from language codes
    to strings held by the title or the description of a dataset: a
    non-empty "en" entry is the extracted title and the extracted
    description; without an "en" entry the first entry of a non-empty
    mapping is; for the empty mapping the placeholder is, "Untitled" for
    a title and "No description" for a description. The description of
    [search_eu_datasets] is further cut to its first 200 characters
    (characters, not bytes: the cut never splits one), and is "No
    description" when the entry chosen is the empty string. In
    particular the title mapping [{"fr": "Bonjour"}] gives "Bonjour" and
    the empty mapping gives "Untitled". *)
Theorem C6_multilingual_fallback `{PyBuiltins} (m : list (string * string)) (ds : dict) :
  let with_title := JObj (dict_set "title" (multilingual_obj m) ds) in
  let with_description := JObj (dict_set "description" (multilingual_obj m) ds) in
  (forall en,
      text_of "en" m = Some en -> en <> "" ->
      EuData.extract_title with_title = Ok (JStr en)
      /\ EuData.extract_description_info with_description = Ok (JStr en)
      /\ EuData.extract_description_search with_description
         = Ok (JStr (str_take 200 en)))
  /\ (text_of "en" m = None -> m <> [] ->
      exists lang text,
        m !! 0%nat = Some (lang, text)
        /\ EuData.extract_title with_title = Ok (JStr text)
        /\ EuData.extract_description_info with_description = Ok (JStr text)
        /\ EuData.extract_description_search with_description
           = Ok (JStr (if str_truthy text then str_take 200 text
                       else "No description")))
  /\ (m = [] ->
      EuData.extract_title with_title = Ok (JStr "Untitled")
      /\ EuData.extract_description_info with_description = Ok (JStr "No description")
      /\ EuData.extract_description_search with_description
         = Ok (JStr "No description"))
  /\ EuData.extract_title (JObj [("title", multilingual_obj [("fr", "Bonjour")])])
     = Ok (JStr "Bonjour")
  /\ EuData.extract_title (JObj [("title", multilingual_obj [])])
     = Ok (JStr "Untitled")
  /\ (forall text,
         chars (str_take 200 text) = take 200 (chars text)
         /\ str_len (str_take 200 text) = Nat.min 200 (str_len text)
         /\ startswith (str_take 200 text) text = true).
Proof.
  intros with_title with_description. subst with_title with_description.
  rewrite extract_title_field, extract_description_info_field,
    extract_description_search_field.
  split; [|split; [|split]].
  - intros en Hen Hne. rewrite !(multilingual_english _ _ _ Hen Hne).
    split; [reflexivity |]. split; [reflexivity |].
    simpl. now rewrite (str_truthy_nonempty _ Hne).
  - intros Hen Hm. destruct m as [|[lang text] m']; [congruence |].
    exists lang, text. split; [reflexivity |].
    rewrite !(multilingual_first _ _ lang text Hen eq_refl).
    split; [reflexivity |]. split; [reflexivity |].
    simpl. now destruct (str_truthy text).
  - intros ->. rewrite !multilingual_empty. repeat split.
  - split; [reflexivity |]. split; [reflexivity |].
    intros text. split; [apply chars_str_take |].
    split; [apply str_len_str_take | apply startswith_str_take].
Qed.

(** C6 at work: an English title next to a French one, and a French
    title alone. *)
Lemma C6_multilingual_fallback_witness :
  EuData.extract_title (H := Example.builtins)
    (JObj (dict_set "title" (multilingual_obj [("fr", "Salut"); ("en", "Hello")]) []))
  = Ok (JStr "Hello")
  /\ exists lang text,
       [("fr", "Bonjour")] !! 0%nat = Some (lang, text)
       /\ EuData.extract_title (H := Example.builtins)
            (JObj (dict_set "title" (multilingual_obj [("fr", "Bonjour")]) []))
          = Ok (JStr text).
Proof.
  split.
  - apply (proj1 (C6_multilingual_fallback (H := Example.builtins)
                    [("fr", "Salut"); ("en", "Hello")] []) "Hello");
      [reflexivity | discriminate].
  - destruct (proj1 (proj2 (C6_multilingual_fallback (H := Example.builtins)
                              [("fr", "Bonjour")] [])) eq_refl)
      as (lang & text & Hfirst & Htitle & _); [discriminate |].
    exists lang, text. split; [exact Hfirst | exact Htitle].
Defined.

(** ** Capping of rendered lists (C7) *)

Lemma mapM_result_length {A B} (f : A -> result B) (l : list A) (r : list B) :
  mapM f l = Ok r -> length r = length l.
Proof.
  revert r; induction l as [|x l IH]; intros r; simpl.
  - intros [= <-]. reflexivity.
  - destruct (f x) as [y|]; [|discriminate]. simpl.
    destruct (mapM f l) as [k|]; [|discriminate]. simpl.
    intros [= <-]. simpl. now rewrite (IH k).
Qed.

Lemma mapM_result_ok {A B} (f : A -> result B) (l : list A) :
  Forall (fun x => exists y, f x = Ok y) l -> exists r, mapM f l = Ok r.
Proof.
  induction 1 as [|x l [y Hy] _ [k Hk]]; simpl.
  - now exists [].
  - rewrite Hy. simpl. rewrite Hk. simpl. now exists (y :: k).
Qed.

Lemma fetch_json_ok (url : string) (params : option dict) e log
    status_code text data :
  http_client e log (url, params) = Response status_code text (Some data) ->
  is_success status_code = true ->
  fetch_json url params e log = (Ok data, log ++ [(url, params)]).
Proof.
  intros Ho Hs. unfold fetch_json, mbind, M_bind, read_config, http_get; simpl.
  now rewrite Ho, Hs.
Qed.

Lemma fetch_json_answers (url : string) (params : option dict) e log data :
  answers e log (url, params) data ->
  fetch_json url params e log = (Ok data, log ++ [(url, params)]).
Proof. intros (status & text & Ho & Hs). exact (fetch_json_ok _ _ _ _ _ _ _ Ho Hs). Qed.

Section Capping.
Context `{PyBuiltins}.

Lemma alerts_result_entries (state : string) (items : list json) (result : list string) :
  Weather.alerts_result state (JArr items) = Ok result ->
  exists entries,
    result = ("Active weather alerts for " +:+ state +:+ ":" +:+ nl) :: entries
    /\ mapM Weather.alert_entry (take 10 items) = Ok entries
    /\ length entries = Nat.min 10 (length items).
Proof.
  intros Hr. unfold Weather.alerts_result in Hr. simpl in Hr.
  destruct (mapM Weather.alert_entry (take 10 items)) as [entries|] eqn:E;
    [|discriminate].
  simpl in Hr. injection Hr as <-. exists entries. split; [reflexivity |].
  split; [reflexivity |].
  rewrite (mapM_result_length _ _ _ E). apply length_take.
Qed.

Lemma forecast_result_entries (latitude longitude : spec_float)
    (fields properties : dict) (items : list json) (result : list string) :
  dict_lookup "properties" fields = Some (JObj properties) ->
  dict_lookup "periods" properties = Some (JArr items) ->
  Weather.forecast_result latitude longitude (JObj fields) = Ok result ->
  exists entries,
    result = ("Weather forecast for " +:+ float_str latitude +:+ ", "
                +:+ float_str longitude +:+ ":" +:+ nl) :: entries
    /\ mapM Weather.forecast_entry (take 6 items) = Ok entries
    /\ length entries = Nat.min 6 (length items).
Proof.
  intros Hp Hi Hr. unfold Weather.forecast_result, getitem in Hr.
  rewrite Hp in Hr. simpl in Hr. rewrite Hi in Hr. simpl in Hr.
  destruct (mapM Weather.forecast_entry (take 6 items)) as [entries|] eqn:E;
    [|discriminate].
  simpl in Hr. injection Hr as <-. exists entries. split; [reflexivity |].
  split; [reflexivity |].
  rewrite (mapM_result_length _ _ _ E). apply length_take.
Qed.

Lemma population_result_entries (headers : json) (rows : list json)
    (result : list string) :
  Census.population_result (JArr (headers :: rows)) = Ok result ->
  exists entries,
    result = ("Population Data (" +:+ Census.ACS_YEAR +:+ " ACS 5-Year Estimates):"
                +:+ nl) :: entries
    /\ mapM Census.population_entry (take 20 rows) = Ok entries
    /\ length entries = Nat.min 20 (length rows).
Proof.
  intros Hr. unfold Census.population_result in Hr. simpl in Hr.
  change (drop 0 rows) with rows in Hr.
  destruct (mapM Census.population_entry (take 20 rows)) as [entries|] eqn:E;
    [|discriminate].
  simpl in Hr. injection Hr as <-. exists entries. split; [reflexivity |].
  split; [reflexivity |].
  rewrite (mapM_result_length _ _ _ E). apply length_take.
Qed.

Lemma rover_result_entries (rover : string) (items : list json) (result : list string) :
  Nasa.rover_result rover (JArr items) = Ok result ->
  exists entries,
    result = ("**Mars Rover Photos - " +:+ capitalize rover +:+ "**" +:+ nl)
               :: ("Found " +:+ str_int (Z.of_nat (length items)) +:+ " photos" +:+ nl)
               :: entries
    /\ length entries = Nat.min 10 (length items).
Proof.
  intros Hr. unfold Nasa.rover_result in Hr. simpl in Hr.
  destruct (mapM _ (take 10 items)) as [entries|] eqn:E; [|discriminate].
  simpl in Hr. injection Hr as <-. exists entries. split; [reflexivity |].
  rewrite (mapM_result_length _ _ _ E). apply length_take.
Qed.

Lemma images_result_entries (query : string) (items : list json) (result : list string) :
  Nasa.images_result query (JArr items) = Ok result ->
  exists entries,
    result = ("**NASA Image Search: '" +:+ query +:+ "'**" +:+ nl)
               :: ("Found " +:+ str_int (Z.of_nat (length items)) +:+ " results" +:+ nl)
               :: entries
    /\ length entries = Nat.min 10 (length items).
Proof.
  intros Hr. unfold Nasa.images_result in Hr. simpl in Hr.
  destruct (mapM _ (take 10 items)) as [entries|] eqn:E; [|discriminate].
  simpl in Hr. injection Hr as <-. exists entries. split; [reflexivity |].
  rewrite (mapM_result_length _ _ _ E). apply length_take.
Qed.

Lemma search_output_entries (query : string) (total : json) (items : list json)
    (output : list string) :
  EuData.search_output query total (JArr items) = Ok output ->
  exists entries,
    output = ("**EU Open Data Search: '" +:+ query +:+ "'**")
               :: ("Found " +:+ str total +:+ " datasets (showing "
                     +:+ str_int (Z.of_nat (length items)) +:+ ")" +:+ nl)
               :: entries
    /\ mapM EuData.search_entry items = Ok entries
    /\ length entries = length items.
Proof.
  intros Hr. unfold EuData.search_output in Hr. simpl in Hr.
  destruct (mapM EuData.search_entry items) as [entries|] eqn:E; [|discriminate].
  simpl in Hr. injection Hr as <-. exists entries. split; [reflexivity |].
  split; [reflexivity |]. apply (mapM_result_length _ _ _ E).
Qed.

Lemma datagov_search_output_entries (query : string) (total : json)
    (items : list json) (output : list string) :
  Datagov.search_output query total (JArr items) = Ok output ->
  exists entries,
    output = ("**Data.gov Search: '" +:+ query +:+ "'**")
               :: ("Found " +:+ str total +:+ " datasets (showing "
                     +:+ str_int (Z.of_nat (length items)) +:+ ")" +:+ nl)
               :: entries
    /\ mapM Datagov.search_entry items = Ok entries
    /\ length entries = length items.
Proof.
  intros Hr. unfold Datagov.search_output in Hr. simpl in Hr.
  destruct (mapM Datagov.search_entry items) as [entries|] eqn:E; [|discriminate].
  simpl in Hr. injection Hr as <-. exists entries. split; [reflexivity |].
  split; [reflexivity |]. apply (mapM_result_length _ _ _ E).
Qed.

Lemma distribution_lines_entries (items : list json) (lines : list string) :
  items <> [] ->
  EuData.distribution_lines (JArr items) = Ok lines ->
  exists entries,
    lines = "**Available Distributions:**" :: entries
    /\ mapM EuData.distribution_entry (take 10 items) = Ok entries
    /\ length entries = Nat.min 10 (length items).
Proof.
  intros Hne Hr. destruct items as [|item items]; [congruence |].
  unfold EuData.distribution_lines in Hr.
  change (truthy (JArr (item :: items))) with true in Hr. cbv iota in Hr.
  change (slice_to (JArr (item :: items)) 10 ≫= iter)
    with (Ok (take 10 (item :: items))) in Hr.
  unfold mbind at 1, result_bind at 1 in Hr.
  destruct (mapM EuData.distribution_entry (take 10 (item :: items)))
    as [entries|] eqn:E; [|discriminate].
  simpl in Hr. injection Hr as <-. exists entries.
  split; [reflexivity |]. split; [reflexivity |].
  rewrite (mapM_result_length _ _ _ E). apply (length_take (item :: items) 10).
Qed.

Lemma resource_lines_entries (items : list json) (lines : list string) :
  items <> [] ->
  Datagov.resource_lines (JArr items) = Ok lines ->
  exists entries,
    lines = "**Available Resources:**" :: entries
    /\ mapM Datagov.resource_entry (take 10 items) = Ok entries
    /\ length entries = Nat.min 10 (length items).
Proof.
  intros Hne Hr. destruct items as [|item items]; [congruence |].
  unfold Datagov.resource_lines in Hr.
  change (truthy (JArr (item :: items))) with true in Hr. cbv iota in Hr.
  change (slice_to (JArr (item :: items)) 10 ≫= iter)
    with (Ok (take 10 (item :: items))) in Hr.
  unfold mbind at 1, result_bind at 1 in Hr.
  destruct (mapM Datagov.resource_entry (take 10 (item :: items)))
    as [entries|] eqn:E; [|discriminate].
  simpl in Hr. injection Hr as <-. exists entries.
  split; [reflexivity |]. split; [reflexivity |].
  rewrite (mapM_result_length _ _ _ E). apply (length_take (item :: items) 10).
Qed.

(** The list [output] of the two dataset lookups: five lines about the
    dataset, then the lines of its files. *)
Lemma eu_dataset_info_output_lines (ds : json) (items : list json)
    (output : list string) :
  get ds "distributions" (JArr []) = Ok (JArr items) ->
  EuData.dataset_info_output ds = Ok output ->
  exists head lines,
    output = head ++ lines
    /\ length head = 5%nat
    /\ EuData.distribution_lines (JArr items) = Ok lines.
Proof.
  intros Hd Hr. unfold EuData.dataset_info_output in Hr. rewrite Hd in Hr.
  unfold mbind, result_bind, mret, result_ret in Hr.
  repeat match type of Hr with
    | context [match ?r with Ok _ => _ | Raise _ => _ end] =>
        lazymatch r with
        | EuData.distribution_lines _ => fail
        | _ => destruct r; [|discriminate]
        end
    end.
  destruct (EuData.distribution_lines (JArr items)) as [lines|]; [|discriminate].
  injection Hr as <-. eexists [_; _; _; _; _], lines. split; [reflexivity |].
  split; reflexivity.
Qed.

Lemma datagov_dataset_info_output_lines (ds : json) (items : list json)
    (output : list string) :
  get ds "resources" (JArr []) = Ok (JArr items) ->
  Datagov.dataset_info_output ds = Ok output ->
  exists head lines,
    output = head ++ lines
    /\ length head = 5%nat
    /\ Datagov.resource_lines (JArr items) = Ok lines.
Proof.
  intros Hd Hr. unfold Datagov.dataset_info_output in Hr. rewrite Hd in Hr.
  unfold mbind, result_bind, mret, result_ret in Hr.
  repeat match type of Hr with
    | context [match ?r with Ok _ => _ | Raise _ => _ end] =>
        lazymatch r with
        | Datagov.resource_lines _ => fail
        | _ => destruct r; [|discriminate]
        end
    end.
  destruct (Datagov.resource_lines (JArr items)) as [lines|]; [|discriminate].
  injection Hr as <-. eexists [_; _; _; _; _], lines. split; [reflexivity |].
  split; reflexivity.
Qed.

(** *** What the tools return for an answer with a list *)

Lemma truthy_nonempty (items : list json) : items <> [] -> truthy (JArr items) = true.
Proof. destruct items; [congruence | reflexivity]. Qed.

Lemma get_weather_alerts_run (state : string) e log data items result :
  str_len (upper state) = 2%nat ->
  answers e log ("https://api.weather.gov/alerts/active",
                 Some [("area", JStr (upper state))]) data ->
  get data "features" (JArr []) = Ok (JArr items) ->
  items <> [] ->
  Weather.alerts_result (upper state) (JArr items) = Ok result ->
  Weather.get_weather_alerts state e log
  = (Ok (join (nl +:+ nl +:+ "---" +:+ nl +:+ nl) result),
     log ++ [("https://api.weather.gov/alerts/active",
              Some [("area", JStr (upper state))])]).
Proof.
  intros Hlen Ha Hf Hne Hr. unfold Weather.get_weather_alerts. rewrite Hlen.
  change (negb (2 =? 2)%nat) with false. cbv iota.
  erewrite bind_ok; [|exact (fetch_json_answers _ _ _ _ _ Ha)].
  unfold mbind at 1, M_bind at 1, lift. rewrite Hf, (truthy_nonempty _ Hne).
  change (negb true) with false. cbv iota.
  unfold mbind at 1, M_bind at 1. now rewrite Hr.
Qed.

Lemma get_weather_forecast_run (latitude longitude : spec_float) e log
    points_data forecast_url forecast_data result :
  let points_url :=
    "https://api.weather.gov/points/" +:+ float_str latitude +:+ ","
      +:+ float_str longitude in
  answers e log (points_url, None) points_data ->
  (getitem points_data "properties" ≫= fun p => getitem p "forecast")
  = Ok (JStr forecast_url) ->
  answers e (log ++ [(points_url, None)]) (forecast_url, None) forecast_data ->
  Weather.forecast_result latitude longitude forecast_data = Ok result ->
  Weather.get_weather_forecast latitude longitude e log
  = (Ok (join (nl +:+ nl) result),
     log ++ [(points_url, None); (forecast_url, None)]).
Proof.
  intros points_url Ha Hu Hb Hr. unfold Weather.get_weather_forecast.
  erewrite bind_ok; [|exact (fetch_json_answers _ _ _ _ _ Ha)].
  unfold mbind at 1, M_bind at 1, lift. rewrite Hu.
  unfold Weather.fetch_json_at.
  erewrite bind_ok; [|exact (fetch_json_answers _ _ _ _ _ Hb)].
  unfold mbind at 1, M_bind at 1. rewrite Hr.
  unfold mret, M_ret. now rewrite <- app_assoc.
Qed.

Lemma get_population_run (state county : string) e log data result :
  answers e log (Census.population_url state county, None) data ->
  Census.population_result data = Ok result ->
  Census.get_population state county e log
  = (Ok (join nl result), log ++ [(Census.population_url state county, None)]).
Proof.
  intros Ha Hr. unfold Census.get_population.
  erewrite bind_ok; [|exact (fetch_json_answers _ _ _ _ _ Ha)].
  unfold mbind at 1, M_bind at 1, lift. now rewrite Hr.
Qed.

Lemma get_mars_rover_photos_run (rover : string) (sol : option Z)
    (earth_date camera : string) e log data items result :
  let req := ("https://api.nasa.gov/mars-photos/api/v1/rovers/" +:+ lower rover
                +:+ "/photos",
              Some (Nasa.rover_params (config e) sol earth_date camera)) in
  answers e log req data ->
  get data "photos" (JArr []) = Ok (JArr items) ->
  items <> [] ->
  Nasa.rover_result (lower rover) (JArr items) = Ok result ->
  Nasa.get_mars_rover_photos rover sol earth_date camera e log
  = (Ok (join (nl +:+ nl) result), log ++ [req]).
Proof.
  intros req Ha Hp Hne Hr. unfold Nasa.get_mars_rover_photos.
  rewrite read_config_bind.
  erewrite bind_ok; [|exact (fetch_json_answers _ _ _ _ _ Ha)].
  unfold mbind at 1, M_bind at 1, lift. rewrite Hp, (truthy_nonempty _ Hne).
  change (negb true) with false. cbv iota.
  unfold mbind at 1, M_bind at 1. now rewrite Hr.
Qed.

Lemma search_nasa_images_run (query media_type : string) e log data items result :
  let req := ("https://images-api.nasa.gov/search",
              Some [("q", JStr query); ("media_type", JStr media_type)]) in
  answers e log req data ->
  (get data "collection" (JObj []) ≫= fun c => get c "items" (JArr []))
  = Ok (JArr items) ->
  items <> [] ->
  Nasa.images_result query (JArr items) = Ok result ->
  Nasa.search_nasa_images query media_type e log
  = (Ok (join (nl +:+ nl +:+ "---" +:+ nl +:+ nl) result), log ++ [req]).
Proof.
  intros req Ha Hp Hne Hr. unfold Nasa.search_nasa_images.
  erewrite bind_ok; [|exact (fetch_json_answers _ _ _ _ _ Ha)].
  unfold mbind at 1, M_bind at 1, lift. rewrite Hp, (truthy_nonempty _ Hne).
  change (negb true) with false. cbv iota.
  unfold mbind at 1, M_bind at 1. now rewrite Hr.
Qed.

Lemma get_eu_dataset_info_run (dataset_id : string) e log data ds output :
  let req := ("https://data.europa.eu/api/hub/search/datasets/" +:+ dataset_id, None) in
  answers e log req data ->
  get data "result" (JObj []) = Ok ds ->
  truthy ds = true ->
  EuData.dataset_info_output ds = Ok output ->
  EuData.get_eu_dataset_info dataset_id e log = (Ok (join nl output), log ++ [req]).
Proof.
  intros req Ha Hd Ht Hr. unfold EuData.get_eu_dataset_info.
  erewrite bind_ok; [|exact (fetch_json_answers _ _ _ _ _ Ha)].
  unfold mbind at 1, M_bind at 1, lift. rewrite Hd, Ht.
  change (negb true) with false. cbv iota.
  unfold mbind at 1, M_bind at 1. now rewrite Hr.
Qed.

Lemma get_dataset_info_run (dataset_id : string) e log data ds output :
  let req := ("https://catalog.data.gov/api/3/action/package_show",
              Some [("id", JStr dataset_id)]) in
  answers e log req data ->
  get data "result" (JObj []) = Ok ds ->
  truthy ds = true ->
  Datagov.dataset_info_output ds = Ok output ->
  Datagov.get_dataset_info dataset_id e log = (Ok (join nl output), log ++ [req]).
Proof.
  intros req Ha Hd Ht Hr. unfold Datagov.get_dataset_info.
  erewrite bind_ok; [|exact (fetch_json_answers _ _ _ _ _ Ha)].
  unfold mbind at 1, M_bind at 1, lift. rewrite Hd, Ht.
  change (negb true) with false. cbv iota.
  unfold mbind at 1, M_bind at 1. now rewrite Hr.
Qed.

Lemma search_eu_datasets_run (query : string) (limit : Z) e log data total items
    output :
  let req := ("https://data.europa.eu/api/hub/search/datasets",
              Some [("q", JStr query); ("limit", JNum (inject_Z (Z.min limit 50)))]) in
  answers e log req data ->
  (get data "result" (JObj []) ≫= fun r => get r "results" (JArr []))
  = Ok (JArr items) ->
  (get data "result" (JObj []) ≫= fun r => get r "count" (JNum 0)) = Ok total ->
  items <> [] ->
  EuData.search_output query total (JArr items) = Ok output ->
  EuData.search_eu_datasets query limit e log
  = (Ok (join (nl +:+ nl +:+ "---" +:+ nl +:+ nl) output), log ++ [req]).
Proof.
  intros req Ha Hres Htot Hne Hr. unfold EuData.search_eu_datasets.
  erewrite bind_ok; [|exact (fetch_json_answers _ _ _ _ _ Ha)].
  unfold mbind at 1, M_bind at 1, lift. rewrite Hres.
  unfold mbind at 1, M_bind at 1. rewrite Htot, (truthy_nonempty _ Hne).
  change (negb true) with false. cbv iota.
  unfold mbind at 1, M_bind at 1. now rewrite Hr.
Qed.

Lemma search_datasets_run (query : string) (rows : Z) e log data total items output :
  let req := ("https://catalog.data.gov/api/3/action/package_search",
              Some [("q", JStr query); ("rows", JNum (inject_Z (Z.min rows 50)))]) in
  answers e log req data ->
  (get data "result" (JObj []) ≫= fun r => get r "results" (JArr []))
  = Ok (JArr items) ->
  (get data "result" (JObj []) ≫= fun r => get r "count" (JNum 0)) = Ok total ->
  items <> [] ->
  Datagov.search_output query total (JArr items) = Ok output ->
  Datagov.search_datasets query rows e log
  = (Ok (join (nl +:+ nl +:+ "---" +:+ nl +:+ nl) output), log ++ [req]).
Proof.
  intros req Ha Hres Htot Hne Hr. unfold Datagov.search_datasets.
  erewrite bind_ok; [|exact (fetch_json_answers _ _ _ _ _ Ha)].
  unfold mbind at 1, M_bind at 1, lift. rewrite Hres.
  unfold mbind at 1, M_bind at 1. rewrite Htot, (truthy_nonempty _ Hne).
  change (negb true) with false. cbv iota.
  unfold mbind at 1, M_bind at 1. now rewrite Hr.
Qed.

(** [get_weather_forecast] asks for the grid point and then at most once
    for the forecast. *)
Lemma forecast_log (latitude longitude : spec_float) e log :
  exists more,
    log_after (Weather.get_weather_forecast latitude longitude) e log
    = log ++ ("https://api.weather.gov/points/" +:+ float_str latitude +:+ ","
                +:+ float_str longitude, None) :: more
    /\ (length more <= 1)%nat.
Proof.
  unfold Weather.get_weather_forecast, log_after.
  unfold mbind at 1, M_bind at 1.
  match goal with
  | |- context [fetch_json ?url ?params e log] =>
      pose proof (fetch_json_log url params e log) as Hlog;
      unfold log_after in Hlog;
      destruct (fetch_json url params e log) as [[data|x] log1]
  end; simpl in Hlog; subst log1.
  2: { exists []. split; [reflexivity | simpl; lia]. }
  unfold mbind at 1, M_bind at 1, lift.
  destruct (getitem data "properties" ≫= _) as [forecast_url|x].
  2: { exists []. split; [reflexivity | simpl; lia]. }
  unfold mbind at 1, M_bind at 1, Weather.fetch_json_at.
  destruct forecast_url as [| b | q | u | l | d];
    try (exists []; split; [reflexivity | simpl; lia]).
  match goal with
  | |- context [fetch_json ?url ?params e ?l] =>
      pose proof (fetch_json_log url params e l) as Hlog;
      unfold log_after in Hlog;
      destruct (fetch_json url params e l) as [[forecast_data|x] log2]
  end; simpl in Hlog; subst log2.
  2: { exists [(u, None)]. split; [now rewrite <- app_assoc | simpl; lia]. }
  exists [(u, None)]. split; [|simpl; lia].
  unfold mbind, M_bind, mret, M_ret.
  destruct (Weather.forecast_result latitude longitude forecast_data);
    simpl; now rewrite <- app_assoc.
Qed.

End Capping.

(** C7, as stated, fails: the claim has every list-rendering tool cap
    its entries at 10, 20 or 50 by truncating the fetched list. Of a
    forecast with 100 periods [get_weather_forecast] renders 6; and the
    50 of the EU search bounds the [limit] it asks for, not the list it
    renders: of 60 datasets in the answer it renders 60. *)
Lemma C7_forecast_renders_six_periods :
  (exists header entries,
      Weather.forecast_result (H := Example.builtins) (S754_zero false) (S754_zero false)
        Example.forecast_100
      = Ok (header :: entries)
      /\ length entries = 6%nat)
  /\ (exists title found entries,
         EuData.search_output (H := Example.builtins) "water" (JNum 60)
           Example.datasets_60
         = Ok (title :: found :: entries)
         /\ length entries = 60%nat).
Proof.
  split.
  - eexists _, _. split; [vm_compute; reflexivity | reflexivity].
  - eexists _, _, _. split; [vm_compute; reflexivity | reflexivity].
Qed.

(** C7 (amended): every tool that slices a list it has fetched renders
    at most a fixed number of its items: 6 periods in
    [get_weather_forecast]; 10 alerts in [get_weather_alerts], 10 photos
    in [get_mars_rover_photos], 10 items in [search_nasa_images], 10
    distributions in [get_eu_dataset_info] and 10 resources in
    [get_dataset_info]; 20 rows in [get_population]. What the tool
    returns is its header lines followed by the renderings of the first
    items of the list already fetched, as many as the list has up to the
    cap; the items beyond the cap are not looked at. [search_eu_datasets]
    and [search_datasets] instead bound by 50 the count they ask for in
    their one request and render every dataset of the answer. No tool
    makes a request on account of the size of an answer: each of these
    tools but the forecast makes exactly one request, the forecast tool
    its request for the grid point and at most one more. In particular
    [get_weather_alerts], answered with 100 alerts of which the first ten
    render, returns exactly 10 entries under its header. *)
Theorem C7_result_caps `{PyBuiltins} (e : env) (log : list request) :
  (forall state status_code text data items entries,
      str_len (upper state) = 2%nat ->
      http_client e log ("https://api.weather.gov/alerts/active",
                         Some [("area", JStr (upper state))])
      = Response status_code text (Some data) ->
      is_success status_code = true ->
      get data "features" (JArr []) = Ok (JArr items) ->
      items <> [] ->
      mapM Weather.alert_entry (take 10 items) = Ok entries ->
      Weather.get_weather_alerts state e log
      = (Ok (join (nl +:+ nl +:+ "---" +:+ nl +:+ nl)
               (("Active weather alerts for " +:+ upper state +:+ ":" +:+ nl)
                  :: entries)),
         log ++ [("https://api.weather.gov/alerts/active",
                  Some [("area", JStr (upper state))])])
      /\ length entries = Nat.min 10 (length items)
      /\ (length items = 100%nat -> length entries = 10%nat))
  /\ (forall items,
         Forall (fun alert => exists entry, Weather.alert_entry alert = Ok entry)
                (take 10 items) ->
         exists entries, mapM Weather.alert_entry (take 10 items) = Ok entries)
  /\ (forall latitude longitude points_data forecast_url fields properties items
             result,
         answers e log
           ("https://api.weather.gov/points/" +:+ float_str latitude +:+ ","
              +:+ float_str longitude, None) points_data ->
         (getitem points_data "properties" ≫= fun p => getitem p "forecast")
         = Ok (JStr forecast_url) ->
         answers e
           (log ++ [("https://api.weather.gov/points/" +:+ float_str latitude +:+ ","
                       +:+ float_str longitude, None)])
           (forecast_url, None) (JObj fields) ->
         dict_lookup "properties" fields = Some (JObj properties) ->
         dict_lookup "periods" properties = Some (JArr items) ->
         Weather.forecast_result latitude longitude (JObj fields) = Ok result ->
         Weather.get_weather_forecast latitude longitude e log
         = (Ok (join (nl +:+ nl) result),
            log ++ [("https://api.weather.gov/points/" +:+ float_str latitude +:+ ","
                       +:+ float_str longitude, None);
                    (forecast_url, None)])
         /\ exists entries,
              result = ("Weather forecast for " +:+ float_str latitude +:+ ", "
                          +:+ float_str longitude +:+ ":" +:+ nl) :: entries
              /\ mapM Weather.forecast_entry (take 6 items) = Ok entries
              /\ length entries = Nat.min 6 (length items))
  /\ (forall state county headers rows result,
         answers e log (Census.population_url state county, None)
           (JArr (headers :: rows)) ->
         Census.population_result (JArr (headers :: rows)) = Ok result ->
         Census.get_population state county e log
         = (Ok (join nl result), log ++ [(Census.population_url state county, None)])
         /\ exists entries,
              result = ("Population Data (" +:+ Census.ACS_YEAR
                          +:+ " ACS 5-Year Estimates):" +:+ nl) :: entries
              /\ mapM Census.population_entry (take 20 rows) = Ok entries
              /\ length entries = Nat.min 20 (length rows))
  /\ (forall rover sol earth_date camera data items result,
         answers e log
           ("https://api.nasa.gov/mars-photos/api/v1/rovers/" +:+ lower rover
              +:+ "/photos",
            Some (Nasa.rover_params (config e) sol earth_date camera)) data ->
         get data "photos" (JArr []) = Ok (JArr items) ->
         items <> [] ->
         Nasa.rover_result (lower rover) (JArr items) = Ok result ->
         Nasa.get_mars_rover_photos rover sol earth_date camera e log
         = (Ok (join (nl +:+ nl) result),
            log ++ [("https://api.nasa.gov/mars-photos/api/v1/rovers/" +:+ lower rover
                       +:+ "/photos",
                     Some (Nasa.rover_params (config e) sol earth_date camera))])
         /\ exists entries,
              result = ("**Mars Rover Photos - " +:+ capitalize (lower rover) +:+ "**"
                          +:+ nl)
                         :: ("Found " +:+ str_int (Z.of_nat (length items))
                               +:+ " photos" +:+ nl)
                         :: entries
              /\ length entries = Nat.min 10 (length items))
  /\ (forall query media_type data items result,
         answers e log
           ("https://images-api.nasa.gov/search",
            Some [("q", JStr query); ("media_type", JStr media_type)]) data ->
         (get data "collection" (JObj []) ≫= fun c => get c "items" (JArr []))
         = Ok (JArr items) ->
         items <> [] ->
         Nasa.images_result query (JArr items) = Ok result ->
         Nasa.search_nasa_images query media_type e log
         = (Ok (join (nl +:+ nl +:+ "---" +:+ nl +:+ nl) result),
            log ++ [("https://images-api.nasa.gov/search",
                     Some [("q", JStr query); ("media_type", JStr media_type)])])
         /\ exists entries,
              result = ("**NASA Image Search: '" +:+ query +:+ "'**" +:+ nl)
                         :: ("Found " +:+ str_int (Z.of_nat (length items))
                               +:+ " results" +:+ nl)
                         :: entries
              /\ length entries = Nat.min 10 (length items))
  /\ (forall dataset_id data ds items output,
         answers e log
           ("https://data.europa.eu/api/hub/search/datasets/" +:+ dataset_id, None)
           data ->
         get data "result" (JObj []) = Ok ds ->
         truthy ds = true ->
         get ds "distributions" (JArr []) = Ok (JArr items) ->
         items <> [] ->
         EuData.dataset_info_output ds = Ok output ->
         EuData.get_eu_dataset_info dataset_id e log
         = (Ok (join nl output),
            log ++ [("https://data.europa.eu/api/hub/search/datasets/" +:+ dataset_id,
                     None)])
         /\ exists head entries,
              output = head ++ "**Available Distributions:**" :: entries
              /\ length head = 5%nat
              /\ mapM EuData.distribution_entry (take 10 items) = Ok entries
              /\ length entries = Nat.min 10 (length items))
  /\ (forall dataset_id data ds items output,
         answers e log
           ("https://catalog.data.gov/api/3/action/package_show",
            Some [("id", JStr dataset_id)]) data ->
         get data "result" (JObj []) = Ok ds ->
         truthy ds = true ->
         get ds "resources" (JArr []) = Ok (JArr items) ->
         items <> [] ->
         Datagov.dataset_info_output ds = Ok output ->
         Datagov.get_dataset_info dataset_id e log
         = (Ok (join nl output),
            log ++ [("https://catalog.data.gov/api/3/action/package_show",
                     Some [("id", JStr dataset_id)])])
         /\ exists head entries,
              output = head ++ "**Available Resources:**" :: entries
              /\ length head = 5%nat
              /\ mapM Datagov.resource_entry (take 10 items) = Ok entries
              /\ length entries = Nat.min 10 (length items))
  /\ (forall query limit data total items output,
         answers e log
           ("https://data.europa.eu/api/hub/search/datasets",
            Some [("q", JStr query); ("limit", JNum (inject_Z (Z.min limit 50)))])
           data ->
         (get data "result" (JObj []) ≫= fun r => get r "results" (JArr []))
         = Ok (JArr items) ->
         (get data "result" (JObj []) ≫= fun r => get r "count" (JNum 0)) = Ok total ->
         items <> [] ->
         EuData.search_output query total (JArr items) = Ok output ->
         EuData.search_eu_datasets query limit e log
         = (Ok (join (nl +:+ nl +:+ "---" +:+ nl +:+ nl) output),
            log ++ [("https://data.europa.eu/api/hub/search/datasets",
                     Some [("q", JStr query);
                           ("limit", JNum (inject_Z (Z.min limit 50)))])])
         /\ Z.min limit 50 <= 50
         /\ exists entries,
              output = ("**EU Open Data Search: '" +:+ query +:+ "'**")
                         :: ("Found " +:+ str total +:+ " datasets (showing "
                               +:+ str_int (Z.of_nat (length items)) +:+ ")" +:+ nl)
                         :: entries
              /\ mapM EuData.search_entry items = Ok entries
              /\ length entries = length items)
  /\ (forall query rows data total items output,
         answers e log
           ("https://catalog.data.gov/api/3/action/package_search",
            Some [("q", JStr query); ("rows", JNum (inject_Z (Z.min rows 50)))])
           data ->
         (get data "result" (JObj []) ≫= fun r => get r "results" (JArr []))
         = Ok (JArr items) ->
         (get data "result" (JObj []) ≫= fun r => get r "count" (JNum 0)) = Ok total ->
         items <> [] ->
         Datagov.search_output query total (JArr items) = Ok output ->
         Datagov.search_datasets query rows e log
         = (Ok (join (nl +:+ nl +:+ "---" +:+ nl +:+ nl) output),
            log ++ [("https://catalog.data.gov/api/3/action/package_search",
                     Some [("q", JStr query);
                           ("rows", JNum (inject_Z (Z.min rows 50)))])])
         /\ Z.min rows 50 <= 50
         /\ exists entries,
              output = ("**Data.gov Search: '" +:+ query +:+ "'**")
                         :: ("Found " +:+ str total +:+ " datasets (showing "
                               +:+ str_int (Z.of_nat (length items)) +:+ ")" +:+ nl)
                         :: entries
              /\ mapM Datagov.search_entry items = Ok entries
              /\ length entries = length items)
  /\ (forall c req,
         request_of (config e) c = Some req ->
         log_after (call c) e log = log ++ [req])
  /\ (forall latitude longitude,
         exists more,
           log_after (Weather.get_weather_forecast latitude longitude) e log
           = log ++ ("https://api.weather.gov/points/" +:+ float_str latitude +:+ ","
                       +:+ float_str longitude, None) :: more
           /\ (length more <= 1)%nat).
Proof.
  repeat apply conj.
  - intros state status_code text data items entries Hlen Ho Hs Hf Hne Hm.
    assert (length entries = Nat.min 10 (length items)) as Hcount.
    { rewrite (mapM_result_length _ _ _ Hm). apply length_take. }
    split; [|split; [exact Hcount | intros H100; rewrite Hcount, H100; reflexivity]].
    apply (get_weather_alerts_run state e log data items);
      [exact Hlen | now exists status_code, text | exact Hf | exact Hne |].
    unfold Weather.alerts_result.
    change (slice_to (JArr items) 10 ≫= iter) with (Ok (take 10 items)).
    unfold mbind at 1, result_bind at 1. now rewrite Hm.
  - intros items. apply mapM_result_ok.
  - intros latitude longitude points_data forecast_url fields properties items
      result Ha Hu Hb Hp Hi Hr.
    split; [now apply (get_weather_forecast_run latitude longitude e log points_data
                         forecast_url (JObj fields)) |].
    now apply (forecast_result_entries latitude longitude fields properties).
  - intros state county headers rows result Ha Hr.
    split; [now apply (get_population_run state county e log (JArr (headers :: rows))) |].
    now apply (population_result_entries headers).
  - intros rover sol earth_date camera data items result Ha Hp Hne Hr.
    split; [now apply (get_mars_rover_photos_run rover sol earth_date camera e log
                         data items) |].
    now apply rover_result_entries.
  - intros query media_type data items result Ha Hp Hne Hr.
    split; [now apply (search_nasa_images_run query media_type e log data items) |].
    now apply images_result_entries.
  - intros dataset_id data ds items output Ha Hd Ht Hi Hne Hr.
    split; [now apply (get_eu_dataset_info_run dataset_id e log data ds) |].
    destruct (eu_dataset_info_output_lines ds items output Hi Hr)
      as (head & lines & -> & Hhead & Hlines).
    destruct (distribution_lines_entries items lines Hne Hlines)
      as (entries & -> & Hm & Hlen).
    now exists head, entries.
  - intros dataset_id data ds items output Ha Hd Ht Hi Hne Hr.
    split; [now apply (get_dataset_info_run dataset_id e log data ds) |].
    destruct (datagov_dataset_info_output_lines ds items output Hi Hr)
      as (head & lines & -> & Hhead & Hlines).
    destruct (resource_lines_entries items lines Hne Hlines)
      as (entries & -> & Hm & Hlen).
    now exists head, entries.
  - intros query limit data total items output Ha Hres Htot Hne Hr.
    split; [now apply (search_eu_datasets_run query limit e log data total items) |].
    split; [lia | now apply search_output_entries].
  - intros query rows data total items output Ha Hres Htot Hne Hr.
    split; [now apply (search_datasets_run query rows e log data total items) |].
    split; [lia | now apply datagov_search_output_entries].
  - intros c req Hreq. exact (proj1 (single_step_fetch e log c req Hreq)).
  - intros. apply forecast_log.
Qed.

(** The amended C7 at work: California answers with 100 alerts. *)
Lemma C7_result_caps_witness :
  exists entries,
    Weather.get_weather_alerts (H := Example.builtins) "ca"
      (Example.answering Example.no_keys (Response 200 "" (Some Example.alerts_100))) []
    = (Ok (join (nl +:+ nl +:+ "---" +:+ nl +:+ nl)
             (("Active weather alerts for " +:+ upper (H := Example.builtins) "ca"
                 +:+ ":" +:+ nl) :: entries)),
       [] ++ [("https://api.weather.gov/alerts/active",
               Some [("area", JStr (upper (H := Example.builtins) "ca"))])])
    /\ length entries = 10%nat.
Proof.
  eexists.
  destruct (proj1 (C7_result_caps (H := Example.builtins)
                     (Example.answering Example.no_keys
                        (Response 200 "" (Some Example.alerts_100))) [])
              "ca" 200 "" Example.alerts_100
              (replicate 100
                 (JObj [("properties",
                         JObj [("event", JStr "Flood Watch");
                               ("severity", JStr "Moderate")])]))
              _ eq_refl eq_refl eq_refl eq_refl ltac:(discriminate) eq_refl)
    as (Hrun & _ & H100).
  split; [exact Hrun | apply H100; reflexivity].
Defined.

(** ** The comparison of countries (C3) *)

(** *** The sort *)

Lemma insert_desc_perm {A} (x : Q * A) (l : list (Q * A)) :
  Permutation (Economics.insert_desc x l) (x :: l).
Proof.
  induction l as [|y l IH]; simpl; [reflexivity |].
  destruct (Qlt_le_dec (fst x) (fst y)); [|reflexivity].
  rewrite IH. apply perm_swap.
Qed.

Lemma insert_desc_sorted {A} (x : Q * A) (l : list (Q * A)) :
  descending l -> descending (Economics.insert_desc x l).
Proof.
  unfold descending. induction 1 as [|y l Hs IH Hy]; simpl.
  - repeat constructor.
  - destruct (Qlt_le_dec (fst x) (fst y)) as [Hlt | Hle].
    + constructor; [exact IH |].
      rewrite (insert_desc_perm x l). constructor; [|exact Hy].
      now apply Qlt_le_weak.
    + constructor; [now constructor |].
      constructor; [exact Hle |].
      eapply Forall_impl; [exact Hy |].
      intros z Hz. simpl in Hz. now apply Qle_trans with (fst y).
Qed.


Lemma sort_desc_sorted {A} (l : list (Q * A)) : descending (Economics.sort_desc l).
Proof.
  induction l as [|x l IH]; [constructor |].
  apply insert_desc_sorted, IH.
Qed.

(** *** One country *)

Lemma fetch_json_fails (url : string) (params : option dict) e log :
  fetch_fails (http_client e log (url, params)) = true ->
  exists x, fetch_json url params e log = (Raise x, log ++ [(url, params)]).
Proof.
  intros Hf. unfold fetch_json, mbind, M_bind, read_config, http_get; simpl.
  destruct (http_client e log (url, params)) as [| msg | status text [data|]];
    simpl in Hf; try (eexists; reflexivity).
  - apply negb_true_iff in Hf. rewrite Hf. eexists; reflexivity.
  - destruct (is_success status); eexists; reflexivity.
Qed.


(** A failure of the fetch is swallowed: the iteration contributes
    nothing and the loop goes on. *)
Lemma fetch_point_swallows (indicator country : string) e log x :
  raises (fetch_json (Economics.indicator_url country indicator)
                     (Some Economics.compare_params)) e log x ->
  Economics.fetch_point indicator country e log
  = (Ok None, log ++ [compare_request indicator country]).
Proof.
  unfold raises. intros Hx.
  unfold Economics.fetch_point, try_except, compare_request.
  unfold mbind, M_bind.
  pose proof (fetch_json_log (Economics.indicator_url country indicator)
                (Some Economics.compare_params) e log) as Hlog.
  unfold log_after in Hlog.
  destruct (fetch_json _ _ e log) as [[data|y] log']; simpl in *; subst log'.
  - discriminate.
  - reflexivity.
Qed.


(** *** The loop over the countries *)



Section Answers.
Variables (e : env) (indicator : string).
Variables (answer : string -> http_outcome).
Variables (point : string -> Economics.data_point) (value : string -> Q).




End Answers.






(* ================================================================= *)
(** * Further properties of the code *)

(** ** The gateway *)

(** X1: a call of [fetch_json] makes exactly one GET, whatever comes of
    it (there is no retry); it returns a value exactly when the response
    has a 2xx status and a JSON body, and the value is that body; it
    raises an error other than the gateway's [Exception] exactly when a
    2xx response has a body that is not JSON; a transport failure raises
    [Exception("Request failed: <str(e)>")]. *)
Theorem X1_fetch_json_outcomes (url : string) (params : option dict)
    (e : env) (log : list request) :
  log_after (fetch_json url params) e log = log ++ [(url, params)]
  /\ (forall data,
         fst (fetch_json url params e log) = Ok data <->
         exists status_code text,
           http_client e log (url, params) = Response status_code text (Some data)
           /\ is_success status_code = true)
  /\ (raises (fetch_json url params) e log PyError <->
      exists status_code text,
        http_client e log (url, params) = Response status_code text None
        /\ is_success status_code = true)
  /\ (forall msg,
         http_client e log (url, params) = RequestError msg ->
         raises (fetch_json url params) e log (Exception ("Request failed: " +:+ msg))).
Proof.
  split; [apply fetch_json_log |].
  unfold raises, fetch_json, mbind, M_bind, read_config, http_get; simpl.
  destruct (http_client e log (url, params)) as [| m | status text body]; simpl.
  - split; [|split].
    + intros data. split; [discriminate | intros (? & ? & ? & _); discriminate].
    + split; [discriminate | intros (? & ? & ? & _); discriminate].
    + discriminate.
  - split; [|split].
    + intros data. split; [discriminate | intros (? & ? & ? & _); discriminate].
    + split; [discriminate | intros (? & ? & ? & _); discriminate].
    + intros msg [= ->]. reflexivity.
  - split; [|split; [|discriminate]].
    + intros data. destruct (is_success status) eqn:Hs; simpl.
      * destruct body as [d|]; simpl; split.
        -- intros [= ->]. now exists status, text.
        -- intros (? & ? & [= _ _ ->] & _). reflexivity.
        -- discriminate.
        -- intros (? & ? & ? & _). discriminate.
      * split; [discriminate | intros (? & ? & [= <- _ _] & Hs'); congruence].
    + destruct (is_success status) eqn:Hs; simpl.
      * destruct body as [d|]; simpl; split.
        -- discriminate.
        -- intros (? & ? & ? & _). discriminate.
        -- intros _. now exists status, text.
        -- reflexivity.
      * split; [discriminate | intros (? & ? & [= <- _ _] & Hs'); congruence].
Qed.

(** X1 at work: a connection that is refused. *)
Lemma X1_fetch_json_outcomes_witness :
  raises (fetch_json "https://api.weather.gov/alerts/active" None)
    (Example.answering Example.no_keys (RequestError "All connection attempts failed"))
    [] (Exception "Request failed: All connection attempts failed").
Proof.
  apply (proj2 (proj2 (proj2 (X1_fetch_json_outcomes
           "https://api.weather.gov/alerts/active" None
           (Example.answering Example.no_keys
              (RequestError "All connection attempts failed")) [])))).
  reflexivity.
Defined.

(** ** The availability summary *)

(** X2: the summary printed at startup has eight lines whatever the
    configuration; it says "OPENWEATHER_API_KEY not set" exactly when no
    OpenWeather key is configured, and "using API key" exactly when a
    NASA key is. *)
Theorem X2_availability_summary (c : Config) :
  length (availability_lines c) = 8%nat
  /\ contains "OPENWEATHER_API_KEY not set" (get_availability_summary c)
     = negb (has_openweather c)
  /\ contains "OpenWeather (API key configured)" (get_availability_summary c)
     = has_openweather c
  /\ contains "NASA (using API key for higher limits)" (get_availability_summary c)
     = has_nasa_key c
  /\ contains "NASA (no key, limited to 30 req/hour)" (get_availability_summary c)
     = negb (has_nasa_key c).
Proof.
  unfold get_availability_summary, availability_lines.
  destruct (has_nasa_key c), (has_openweather c); vm_compute; repeat split.
Qed.

(** ** The weather tools *)

(** X3: when the alerts endpoint answers an argument that passes the
    guard (its upper case has two characters) with an object that has no
    "features", or whose "features" is empty (or otherwise false),
    [get_weather_alerts] returns the text "No active weather alerts for
    <STATE>" and does not raise. *)
Theorem X3_no_active_alerts `{PyBuiltins} (e : env) (log : list request)
    (state : string) (status_code : Z) (text : string) (fields : dict) :
  str_len (upper state) = 2%nat ->
  http_client e log ("https://api.weather.gov/alerts/active",
                     Some [("area", JStr (upper state))])
  = Response status_code text (Some (JObj fields)) ->
  is_success status_code = true ->
  (dict_lookup "features" fields = None
   \/ exists v, dict_lookup "features" fields = Some v /\ truthy v = false) ->
  Weather.get_weather_alerts state e log
  = (Ok ("No active weather alerts for " +:+ upper state),
     log ++ [("https://api.weather.gov/alerts/active",
              Some [("area", JStr (upper state))])]).
Proof.
  intros Hlen Ho Hs Hf.
  unfold Weather.get_weather_alerts. rewrite Hlen.
  change (negb (2 =? 2)%nat) with false. cbv iota.
  erewrite bind_ok; [|exact (fetch_json_ok _ _ _ _ _ _ _ Ho Hs)].
  unfold mbind at 1, M_bind at 1, lift, get.
  destruct Hf as [Hnone | (v & Hv & Hfalse)].
  - rewrite Hnone. reflexivity.
  - rewrite Hv. simpl. rewrite Hfalse. reflexivity.
Qed.

(** X3 at work: Wyoming without alerts. *)
Lemma X3_no_active_alerts_witness :
  Weather.get_weather_alerts (H := Example.builtins) "wy"
    (Example.answering Example.no_keys
       (Response 200 "" (Some (JObj [("features", JArr [])])))) []
  = (Ok ("No active weather alerts for " +:+ upper (H := Example.builtins) "wy"),
     [] ++ [("https://api.weather.gov/alerts/active",
             Some [("area", JStr (upper (H := Example.builtins) "wy"))])]).
Proof.
  apply (X3_no_active_alerts (H := Example.builtins)
           (Example.answering Example.no_keys
              (Response 200 "" (Some (JObj [("features", JArr [])])))) []
           "wy" 200 "" [("features", JArr [])]);
    [reflexivity | reflexivity | reflexivity |].
  right. exists (JArr []). split; reflexivity.
Defined.

(** X4: [get_weather_forecast] is a chain of two fetches: the second
    request goes, without parameters, to the URL that the answer to the
    first gives under properties.forecast. When the first fetch raises,
    or its answer has no such entry, the tool raises that error and the
    second request is not made. *)
Theorem X4_forecast_chain `{PyBuiltins} (e : env) (log : list request)
    (latitude longitude : spec_float) :
  let points_url :=
    "https://api.weather.gov/points/" +:+ float_str latitude +:+ ","
      +:+ float_str longitude in
  (forall x,
      raises (fetch_json points_url None) e log x ->
      Weather.get_weather_forecast latitude longitude e log
      = (Raise x, log ++ [(points_url, None)]))
  /\ (forall status_code text data,
         http_client e log (points_url, None) = Response status_code text (Some data) ->
         is_success status_code = true ->
         (forall x,
             (getitem data "properties" ≫= fun p => getitem p "forecast") = Raise x ->
             Weather.get_weather_forecast latitude longitude e log
             = (Raise x, log ++ [(points_url, None)]))
         /\ (forall forecast_url,
                (getitem data "properties" ≫= fun p => getitem p "forecast")
                = Ok (JStr forecast_url) ->
                log_after (Weather.get_weather_forecast latitude longitude) e log
                = log ++ [(points_url, None); (forecast_url, None)]
                /\ forall x,
                     raises (fetch_json forecast_url None) e
                            (log ++ [(points_url, None)]) x ->
                     raises (Weather.get_weather_forecast latitude longitude) e log x)).
Proof.
  intros points_url. split.
  - intros x Hx. unfold Weather.get_weather_forecast. fold points_url.
    pose proof (fetch_json_log points_url None e log) as Hlog.
    unfold raises in Hx. unfold log_after in Hlog.
    destruct (fetch_json points_url None e log) as [r log'] eqn:E.
    simpl in Hx, Hlog. subst r log'.
    apply (bind_raises _ _ _ _ _ _ E).
  - intros status_code text data Ho Hs. split.
    + intros x Hx. unfold Weather.get_weather_forecast.
      erewrite bind_ok; [|exact (fetch_json_ok _ _ _ _ _ _ _ Ho Hs)].
      unfold mbind at 1, M_bind at 1, lift. now rewrite Hx.
    + intros forecast_url Hu.
      assert (Weather.get_weather_forecast latitude longitude e log
              = (fetch_json forecast_url None ≫= fun forecast_data =>
                   lift (Weather.forecast_result latitude longitude forecast_data)
                     ≫= fun result => mret (join (nl +:+ nl) result))
                  e (log ++ [(points_url, None)])) as Heq.
      { unfold Weather.get_weather_forecast.
        erewrite bind_ok; [|exact (fetch_json_ok _ _ _ _ _ _ _ Ho Hs)].
        unfold mbind at 1, M_bind at 1, lift. now rewrite Hu. }
      split.
      * replace (log ++ [(points_url, None); (forecast_url, None)])
          with ((log ++ [(points_url, None)]) ++ [(forecast_url, None)])
          by now rewrite <- app_assoc.
        unfold log_after. rewrite Heq.
        generalize (log ++ [(points_url, None)]). intros log1.
        unfold mbind at 1, M_bind at 1.
        pose proof (fetch_json_log forecast_url None e log1) as Hlog.
        unfold log_after in Hlog.
        destruct (fetch_json forecast_url None e log1) as [[forecast_data|x] log2];
          simpl in Hlog; [pure_tail Hlog | exact Hlog].
      * intros x Hx. unfold raises. rewrite Heq. now apply raises_bind.
Qed.

(** X4 at work: the grid point is found and the forecast times out. *)
Lemma X4_forecast_chain_witness :
  log_after (Weather.get_weather_forecast (H := Example.builtins)
               (S754_zero false) (S754_zero false))
    {| config := Example.no_keys; http_client := Example.points_then_timeout |} []
  = [] ++ [("https://api.weather.gov/points/?,?", None);
           (Example.grid_forecast_url, None)].
Proof.
  apply (proj2 (X4_forecast_chain (H := Example.builtins)
                  {| config := Example.no_keys;
                     http_client := Example.points_then_timeout |} []
                  (S754_zero false) (S754_zero false))
           200 "" Example.points_answer eq_refl eq_refl).
  reflexivity.
Defined.

(** ** The raw-query tools *)

Lemma dict_set_absent (k : string) (v : json) (d : dict) :
  dict_lookup k d = None -> dict_set k v d = d ++ [(k, v)].
Proof.
  induction d as [|[k' v'] d IH]; simpl; [reflexivity |].
  destruct (String.eqb k k'); [discriminate |].
  intros Hd. now rewrite IH.
Qed.

Lemma dict_set_present (k : string) (v : json) (d : dict) :
  dict_lookup k d <> None -> fst <$> dict_set k v d = fst <$> d.
Proof.
  induction d as [|[k' v'] d IH]; [simpl; congruence |].
  cbn [dict_lookup dict_set]. destruct (String.eqb k k'); [reflexivity |].
  intros Hd. rewrite !fmap_cons. f_equal. now apply IH.
Qed.

Lemma dict_set_injected (k : string) (v : json) (d : dict) :
  injected k v d (dict_set k v d).
Proof.
  split; [apply dict_lookup_set_eq |].
  split; [intros k' Hne; now apply dict_lookup_set_ne |].
  split; [apply dict_set_absent | apply dict_set_present].
Qed.

(** X5: the raw-query tools that add a parameter of their own send the
    caller's parameters (none when [params] is [None]) with that one key
    set: [query_nasa] sets [api_key] to the key in force,
    [query_worldbank] sets [format] to "json", and [query_openweather],
    when a key is configured, sets [appid] to it. A value the caller gave
    for that key is replaced in place, every other parameter is sent as
    given, and each tool makes exactly one request. *)
Theorem X5_raw_query_parameter `{PyBuiltins} (e : env) (log : list request)
    (given : option dict) :
  (forall endpoint,
      exists params,
        log_after (Nasa.query_nasa endpoint given) e log
        = log ++ [("https://api.nasa.gov" +:+ endpoint, Some params)]
        /\ injected "api_key" (JStr (Nasa.get_api_key (config e)))
                    (default [] given) params)
  /\ (forall country indicator,
         exists params,
           log_after (Economics.query_worldbank country indicator given) e log
           = log ++ [("https://api.worldbank.org/v2/country/" +:+ country
                        +:+ "/indicator/" +:+ indicator, Some params)]
           /\ injected "format" (JStr "json") (default [] given) params)
  /\ (forall endpoint key,
         openweather_api_key (config e) = Some key -> key <> "" ->
         exists params,
           log_after (Weather.query_openweather endpoint given) e log
           = log ++ [("https://api.openweathermap.org" +:+ endpoint, Some params)]
           /\ injected "appid" (JStr key) (default [] given) params).
Proof.
  assert (Weather.params_or_empty given = default [] given) as Hd
    by (destruct given as [[|kv d]|]; reflexivity).
  split; [|split].
  - intros endpoint. eexists. split.
    + unfold Nasa.query_nasa.
      unfold log_after, mbind at 1, M_bind at 1, read_config. simpl.
      apply fetch_json_log.
    + rewrite Hd. apply dict_set_injected.
  - intros country indicator. eexists. split.
    + unfold Economics.query_worldbank. apply fetch_json_log.
    + rewrite Hd. apply dict_set_injected.
  - intros endpoint key Hkey Hne. eexists. split.
    + unfold Weather.query_openweather.
      unfold log_after, mbind at 1, M_bind at 1, read_config. simpl.
      unfold has_openweather. rewrite Hkey. simpl.
      rewrite (str_truthy_nonempty _ Hne). simpl.
      apply fetch_json_log.
    + rewrite Hd. apply dict_set_injected.
Qed.

(** X5 at work: a caller of [query_openweather] who passes an [appid]
    of their own next to a city. *)
Lemma X5_raw_query_parameter_witness :
  exists params,
    log_after
      (Weather.query_openweather "/data/2.5/weather"
         (Some [("appid", JStr "mine"); ("q", JStr "Oslo")]))
      (Example.answering Example.with_keys TimeoutException) []
    = [] ++ [("https://api.openweathermap.org" +:+ "/data/2.5/weather", Some params)]
    /\ dict_lookup "appid" params = Some (JStr "ow-key")
    /\ dict_lookup "q" params = Some (JStr "Oslo").
Proof.
  destruct (proj2 (proj2 (X5_raw_query_parameter (H := Example.builtins)
                            (Example.answering Example.with_keys TimeoutException) []
                            (Some [("appid", JStr "mine"); ("q", JStr "Oslo")])))
              "/data/2.5/weather" "ow-key" eq_refl ltac:(discriminate))
    as (params & Hlog & Hset & Hother & _).
  exists params. split; [exact Hlog |]. split; [exact Hset |].
  rewrite Hother by discriminate. reflexivity.
Defined.

(** ** The census tools *)

Lemma str_map_compose (f g h : ascii -> ascii) (s : string) :
  (forall c, f (g c) = h c) -> str_map f (str_map g s) = str_map h s.
Proof.
  intros Hc. induction s as [|c s IH]; simpl; [reflexivity |].
  now rewrite Hc, IH.
Qed.

Lemma upper_ascii_idem (c : ascii) : upper_ascii (upper_ascii c) = upper_ascii c.
Proof. destruct c as [[] [] [] [] [] [] [] []]; reflexivity. Qed.

Lemma upper_lower_ascii (c : ascii) : upper_ascii (lower_ascii c) = upper_ascii c.
Proof. destruct c as [[] [] [] [] [] [] [] []]; reflexivity. Qed.

Lemma all_digits_ascii (s : string) : all_digits s = true -> is_ascii s = true.
Proof.
  induction s as [|c s IH]; [reflexivity |].
  intros Hd. cbn [all_digits] in Hd. apply andb_true_iff in Hd as [Hc Hs].
  cbn [is_ascii]. rewrite (IH Hs), andb_true_r.
  apply andb_true_iff in Hc as [_ Hc]. apply N.leb_le in Hc. apply N.ltb_lt. lia.
Qed.

Lemma str_map_upper_digits (s : string) :
  all_digits s = true -> str_map upper_ascii s = s.
Proof.
  induction s as [|c s IH]; [reflexivity |].
  intros Hd. cbn [all_digits] in Hd. apply andb_true_iff in Hd as [Hc Hs].
  cbn [str_map]. rewrite (IH Hs). f_equal.
  destruct c as [[] [] [] [] [] [] [] []]; try reflexivity; discriminate Hc.
Qed.

Lemma upper_digits `{PyBuiltins} (s : string) : all_digits s = true -> upper s = s.
Proof.
  intros Hd. rewrite (upper_ascii_string s (all_digits_ascii s Hd)).
  now apply str_map_upper_digits.
Qed.

(** No key of the table is a string of digits. *)
Lemma state_fips_keys_are_letters :
  Forall (fun kv : string * string => all_digits (fst kv) = false)
         Census.STATE_FIPS_items.
Proof. unfold Census.STATE_FIPS_items. repeat constructor. Qed.

(** X6: the lookup of the census tools takes a state written in ASCII
    characters in any case and takes a numeric FIPS code as it is:
    [fips_of] gives the same code for such a state, its upper-case and
    its lower-case spelling, and returns a string of digits unchanged. *)
Theorem X6_fips_of_any_case_and_codes `{PyBuiltins} (state : string) :
  (is_ascii state = true ->
   Census.fips_of (upper state) = Census.fips_of state
   /\ Census.fips_of (lower state) = Census.fips_of state)
  /\ (all_digits state = true -> Census.fips_of state = state).
Proof.
  unfold Census.fips_of. split.
  - intros Hs.
    assert (upper (upper state) = upper state) as Hu.
    { rewrite (upper_ascii_string _ (is_ascii_upper state Hs)).
      rewrite (upper_ascii_string state Hs).
      apply (str_map_compose _ _ _ _ upper_ascii_idem). }
    assert (upper (lower state) = upper state) as Hl.
    { rewrite (upper_ascii_string _ (is_ascii_lower state Hs)).
      rewrite (lower_ascii_string state Hs), (upper_ascii_string state Hs).
      apply (str_map_compose _ _ _ _ upper_lower_ascii). }
    now rewrite Hu, Hl.
  - intros Hd. rewrite (upper_digits _ Hd).
    destruct (Census.STATE_FIPS !! state) as [fips|] eqn:Hlook; [|reflexivity].
    exfalso.
    assert ((state, fips) ∈ Census.STATE_FIPS_items) as Hin
      by (apply elem_of_list_to_map_2; exact Hlook).
    pose proof state_fips_keys_are_letters as Hall.
    rewrite Forall_forall in Hall. specialize (Hall _ Hin). simpl in Hall.
    congruence.
Qed.

(** X6 at work: California in lower case, and its FIPS code given as
    the state. *)
Lemma X6_fips_of_any_case_and_codes_witness :
  Census.fips_of (H := Example.builtins) (lower (H := Example.builtins) "Ca")
  = Census.fips_of (H := Example.builtins) "Ca"
  /\ Census.fips_of (H := Example.builtins) "06" = "06".
Proof.
  split.
  - apply (proj1 (X6_fips_of_any_case_and_codes (H := Example.builtins) "Ca")).
    reflexivity.
  - apply (proj2 (X6_fips_of_any_case_and_codes (H := Example.builtins) "06")).
    reflexivity.
Defined.

(** X7: the three census tools are instances of the raw query: for the
    dataset acs/acs5 of 2022, the tool's variables and the geography the
    tool builds (the state alone without a county; the wildcard
    [county:*] for [get_population] and the given county for the other
    two with one), [query_census] requests the same URL as the tool, and
    each makes that one request. *)
Theorem X7_census_tools_as_raw_query `{PyBuiltins} (state county : string) :
  let state_geo := "state:" +:+ Census.fips_of state in
  (Census.population_url state ""
   = Census.query_census_url "acs/acs5" ["NAME"; "B01003_001E"] state_geo "2022"
   /\ Census.demographics_url state ""
      = Census.query_census_url "acs/acs5"
          ["NAME"; "B01003_001E"; "B01002_001E"; "B19013_001E";
           "B02001_002E"; "B02001_003E"; "B02001_005E"; "B03001_003E"]
          state_geo "2022"
   /\ Census.housing_url state ""
      = Census.query_census_url "acs/acs5"
          ["NAME"; "B25001_001E"; "B25002_002E"; "B25002_003E";
           "B25077_001E"; "B25064_001E"] state_geo "2022")
  /\ (county <> "" ->
      Census.population_url state county
      = Census.query_census_url "acs/acs5" ["NAME"; "B01003_001E"]
          ("county:*&in=state:" +:+ Census.fips_of state) "2022"
      /\ Census.demographics_url state county
         = Census.query_census_url "acs/acs5"
             ["NAME"; "B01003_001E"; "B01002_001E"; "B19013_001E";
              "B02001_002E"; "B02001_003E"; "B02001_005E"; "B03001_003E"]
             ("county:" +:+ county +:+ "&in=state:" +:+ Census.fips_of state) "2022"
      /\ Census.housing_url state county
         = Census.query_census_url "acs/acs5"
             ["NAME"; "B25001_001E"; "B25002_002E"; "B25002_003E";
              "B25077_001E"; "B25064_001E"]
             ("county:" +:+ county +:+ "&in=state:" +:+ Census.fips_of state) "2022")
  /\ (forall e log dataset variables geo year,
         log_after (Census.query_census dataset variables geo year) e log
         = log ++ [(Census.query_census_url dataset variables geo year, None)])
  /\ (forall e log,
         log_after (Census.get_demographics state county) e log
         = log ++ [(Census.demographics_url state county, None)]
         /\ log_after (Census.get_housing_stats state county) e log
            = log ++ [(Census.housing_url state county, None)]).
Proof.
  intros state_geo. split; [|split; [|split]].
  - repeat split.
  - intros Hc.
    unfold Census.population_url, Census.demographics_url, Census.housing_url.
    rewrite (str_truthy_nonempty _ Hc). repeat split.
  - intros. apply fetch_json_log.
  - intros e log. split.
    + unfold Census.get_demographics. after_fetch.
    + unfold Census.get_housing_stats. after_fetch.
Qed.

(** X7 at work: the demographics of Los Angeles county. *)
Lemma X7_census_tools_as_raw_query_witness :
  Census.demographics_url (H := Example.builtins) "CA" "037"
  = Census.query_census_url "acs/acs5"
      ["NAME"; "B01003_001E"; "B01002_001E"; "B19013_001E";
       "B02001_002E"; "B02001_003E"; "B02001_005E"; "B03001_003E"]
      ("county:" +:+ "037" +:+ "&in=state:"
         +:+ Census.fips_of (H := Example.builtins) "CA") "2022".
Proof.
  apply (proj1 (proj2 (X7_census_tools_as_raw_query (H := Example.builtins) "CA" "037"))).
  discriminate.
Defined.

(** *** Thousands separators *)

Lemma strip_commas_app (a b : string) :
  strip_commas (a +:+ b) = strip_commas a +:+ strip_commas b.
Proof.
  induction a as [|c a IH]; [reflexivity |].
  simpl. destruct (Ascii.eqb c ","); simpl; now rewrite IH.
Qed.

Lemma strip_commas_of_list (l : list ascii) :
  strip_commas (string_of_list_ascii l)
  = string_of_list_ascii (List.filter not_comma l).
Proof.
  induction l as [|c l IH]; [reflexivity |].
  simpl. unfold not_comma at 1. destruct (Ascii.eqb c ","); simpl; now rewrite IH.
Qed.

(** Grouping adds commas and nothing else. *)
Lemma group3_filter (n : nat) (l : list ascii) :
  (length l <= n)%nat ->
  List.filter not_comma (group3 l) = List.filter not_comma l.
Proof.
  revert l; induction n as [|n IH]; intros l Hl.
  - destruct l; [reflexivity | simpl in Hl; lia].
  - destruct l as [|a [|b [|c [|d l]]]]; try reflexivity.
    transitivity (List.filter not_comma ([a; b; c] ++ [","%char] ++ group3 (d :: l)));
      [reflexivity |].
    transitivity (List.filter not_comma ([a; b; c] ++ d :: l)); [|reflexivity].
    rewrite !List.filter_app. rewrite (IH (d :: l)) by (simpl in *; lia).
    reflexivity.
Qed.

(** The decimal numeral of a natural number has no comma. *)
Lemma strip_commas_pretty_go (x : N) (s : string) :
  strip_commas s = s -> strip_commas (pretty_N_go x s) = pretty_N_go x s.
Proof.
  revert s. induction (N.lt_wf_0 x) as [x _ IH]; intros s Hs.
  assert (x = 0 \/ 0 < x)%N as [-> | Hpos] by lia.
  - now rewrite pretty_N_go_0.
  - rewrite pretty_N_go_step by exact Hpos. apply IH.
    + now apply N.div_lt.
    + simpl. rewrite Hs. unfold pretty_N_char. now repeat case_match.
Qed.

Lemma strip_commas_str_int (z : Z) : strip_commas (str_int z) = str_int z.
Proof.
  unfold str_int, pretty, pretty_Z.
  destruct z as [|p|p]; [reflexivity | |].
  - unfold pretty, pretty_positive, pretty, pretty_N.
    case_decide; [reflexivity |]. now apply strip_commas_pretty_go.
  - rewrite strip_commas_app. f_equal.
    unfold pretty, pretty_positive, pretty, pretty_N.
    case_decide; [reflexivity |]. now apply strip_commas_pretty_go.
Qed.

(** [format_thousands] only inserts commas. *)
Lemma format_thousands_strip (z : Z) :
  strip_commas (format_thousands z) = str_int z.
Proof.
  unfold format_thousands. rewrite strip_commas_app, strip_commas_of_list.
  rewrite List.filter_rev, (group3_filter _ _ (le_n _)), List.filter_rev.
  rewrite rev_involutive, <- strip_commas_of_list, string_of_list_ascii_of_string.
  rewrite strip_commas_str_int.
  destruct z as [|p|p]; reflexivity.
Qed.

(** X8: the entry of [get_population] for a row shows the name and the
    population of the row: when the population cell is true and [int()]
    of it is [n], the entry is "- <name>: <t>" where [t] is the decimal
    numeral of [n] with commas inserted and nothing else changed; when
    the cell is empty (or otherwise false) the population shown is 0 and
    [int()] is not called. *)
Theorem X8_population_entry `{PyBuiltins} (name cell : json) (rest : list json) :
  (forall n,
      truthy cell = true -> py_int cell = Some n ->
      Census.population_entry (JArr (name :: cell :: rest))
      = Ok ("- " +:+ str name +:+ ": " +:+ format_thousands n)
      /\ strip_commas (format_thousands n) = str_int n)
  /\ (truthy cell = true -> py_int cell = None ->
      Census.population_entry (JArr (name :: cell :: rest)) = Raise PyError)
  /\ (truthy cell = false ->
      Census.population_entry (JArr (name :: cell :: rest))
      = Ok ("- " +:+ str name +:+ ": 0")).
Proof.
  unfold Census.population_entry, Census.int_or_zero. simpl.
  split; [|split].
  - intros n Ht Hn. rewrite Ht, Hn. split; [reflexivity |].
    apply format_thousands_strip.
  - intros Ht Hn. now rewrite Ht, Hn.
  - intros Ht. now rewrite Ht.
Qed.

(** X8 at work: California, and a row without an estimate. *)
Lemma X8_population_entry_witness :
  (Census.population_entry (H := Example.builtins)
     (JArr [JStr "California"; JStr "39356104"; JStr "06"])
   = Ok ("- " +:+ "California" +:+ ": " +:+ "39,356,104")
   /\ strip_commas "39,356,104" = "39356104")
  /\ Census.population_entry (H := Example.builtins)
       (JArr [JStr "Nowhere"; JStr ""; JStr "99"])
     = Ok ("- " +:+ "Nowhere" +:+ ": 0").
Proof.
  split.
  - apply (proj1 (X8_population_entry (H := Example.builtins) (JStr "California")
                    (JStr "39356104") [JStr "06"]) 39356104); reflexivity.
  - apply (proj2 (proj2 (X8_population_entry (H := Example.builtins) (JStr "Nowhere")
                           (JStr "") [JStr "99"]))).
    reflexivity.
Defined.

(** *** Percentages *)

(** X9: the percentage of a part of zero keeps the sign of the total:
    [pct] renders "0.0%" for a positive total and "-0.0%" for a negative
    one, the float computed being the negative zero. *)
Theorem X9_pct_of_zero (total_pop : Z) :
  (0 < total_pop -> Census.pct total_pop 0 = Ok "0.0%")
  /\ (total_pop < 0 -> Census.pct total_pop 0 = Ok "-0.0%").
Proof.
  split; intros Ht; destruct total_pop as [|p|p]; try lia; reflexivity.
Qed.

(** X9 at work: a total of 200 and a total of -666666666, the value the
    census reports for a missing estimate. *)
Lemma X9_pct_of_zero_witness :
  Census.pct 200 0 = Ok "0.0%" /\ Census.pct (-666666666) 0 = Ok "-0.0%".
Proof.
  split.
  - apply (proj1 (X9_pct_of_zero 200)). reflexivity.
  - apply (proj2 (X9_pct_of_zero (-666666666))). reflexivity.
Defined.

(** X10: the first row of a census answer is taken for the header row
    and never rendered: an answer that is the header row alone gives the
    title line alone, and an answer that is the empty list makes
    [get_population] raise, after its one request. *)
Theorem X10_population_header_row `{PyBuiltins} (e : env) (log : list request)
    (state county : string) (status_code : Z) (text : string) :
  is_success status_code = true ->
  (forall headers,
      http_client e log (Census.population_url state county, None)
      = Response status_code text (Some (JArr [headers])) ->
      Census.get_population state county e log
      = (Ok ("Population Data (2022 ACS 5-Year Estimates):" +:+ nl),
         log ++ [(Census.population_url state county, None)]))
  /\ (http_client e log (Census.population_url state county, None)
      = Response status_code text (Some (JArr [])) ->
      Census.get_population state county e log
      = (Raise PyError, log ++ [(Census.population_url state county, None)])).
Proof.
  intros Hs. split.
  - intros headers Ho. unfold Census.get_population.
    erewrite bind_ok; [|exact (fetch_json_ok _ _ _ _ _ _ _ Ho Hs)].
    reflexivity.
  - intros Ho. unfold Census.get_population.
    erewrite bind_ok; [|exact (fetch_json_ok _ _ _ _ _ _ _ Ho Hs)].
    reflexivity.
Qed.

(** X10 at work: the census answers with the header row alone. *)
Lemma X10_population_header_row_witness :
  Census.get_population (H := Example.builtins) "CA" ""
    (Example.answering Example.no_keys
       (Response 200 "" (Some (JArr [JArr [JStr "NAME"; JStr "B01003_001E"]])))) []
  = (Ok ("Population Data (2022 ACS 5-Year Estimates):" +:+ nl),
     [] ++ [(Census.population_url (H := Example.builtins) "CA" "", None)]).
Proof.
  apply (proj1 (X10_population_header_row (H := Example.builtins)
                  (Example.answering Example.no_keys
                     (Response 200 ""
                        (Some (JArr [JArr [JStr "NAME"; JStr "B01003_001E"]])))) []
                  "CA" "" 200 "" eq_refl)
           (JArr [JStr "NAME"; JStr "B01003_001E"])).
  reflexivity.
Defined.

(** ** The NASA tools *)

(** X11: the day of the Mars photos is chosen in this order: a sol, when
    given, is sent and the earth date is not, even if one was given too;
    without a sol a non-empty earth date is sent and no sol; without
    either, sol 1000 is sent. A camera is sent in lower case, and not at
    all when it is empty. *)
Theorem X11_rover_params `{PyBuiltins} (cfg : Config) (sol : option Z)
    (earth_date camera : string) :
  let params := Nasa.rover_params cfg sol earth_date camera in
  (forall n, sol = Some n ->
             dict_lookup "sol" params = Some (JNum (inject_Z n))
             /\ dict_lookup "earth_date" params = None)
  /\ (sol = None -> earth_date <> "" ->
      dict_lookup "earth_date" params = Some (JStr earth_date)
      /\ dict_lookup "sol" params = None)
  /\ (sol = None -> earth_date = "" ->
      dict_lookup "sol" params = Some (JNum (inject_Z 1000))
      /\ dict_lookup "earth_date" params = None)
  /\ (camera <> "" -> dict_lookup "camera" params = Some (JStr (lower camera)))
  /\ (camera = "" -> dict_lookup "camera" params = None).
Proof.
  intros params. subst params. unfold Nasa.rover_params.
  split; [|split; [|split; [|split]]].
  - intros n ->. destruct (str_truthy camera); split; reflexivity.
  - intros -> He. rewrite (str_truthy_nonempty _ He).
    destruct (str_truthy camera); split; reflexivity.
  - intros -> ->. destruct (str_truthy camera); split; reflexivity.
  - intros Hc. rewrite (str_truthy_nonempty _ Hc).
    destruct sol; [|destruct (str_truthy earth_date)]; reflexivity.
  - intros ->. destruct sol; [|destruct (str_truthy earth_date)]; reflexivity.
Qed.

(** X11 at work: a sol and an earth date are both given. *)
Lemma X11_rover_params_witness :
  dict_lookup "sol"
    (Nasa.rover_params (H := Example.builtins) Example.no_keys (Some 42)
       "2015-06-03" "MAST")
  = Some (JNum (inject_Z 42))
  /\ dict_lookup "earth_date"
       (Nasa.rover_params (H := Example.builtins) Example.no_keys (Some 42)
          "2015-06-03" "MAST") = None.
Proof.
  apply (proj1 (X11_rover_params (H := Example.builtins) Example.no_keys (Some 42)
                  "2015-06-03" "MAST") 42).
  reflexivity.
Defined.

(** X12: the Mars photo tool and the image search report the number of
    items the answer holds, not the number they show: under the title,
    the line "Found <n> photos" (or "results") carries the length of the
    whole list, while the entries after it are at most 10. *)
Theorem X12_found_count `{PyBuiltins} (items : list json) (result : list string) :
  (forall rover,
      Nasa.rover_result rover (JArr items) = Ok result ->
      exists entries,
        result = ("**Mars Rover Photos - " +:+ capitalize rover +:+ "**" +:+ nl)
                   :: ("Found " +:+ str_int (Z.of_nat (length items)) +:+ " photos"
                         +:+ nl)
                   :: entries
        /\ length entries = Nat.min 10 (length items))
  /\ (forall query,
         Nasa.images_result query (JArr items) = Ok result ->
         exists entries,
           result = ("**NASA Image Search: '" +:+ query +:+ "'**" +:+ nl)
                      :: ("Found " +:+ str_int (Z.of_nat (length items)) +:+ " results"
                            +:+ nl)
                      :: entries
           /\ length entries = Nat.min 10 (length items)).
Proof.
  split; intros; [now apply rover_result_entries | now apply images_result_entries].
Qed.

(** X12 at work: 25 photos in the answer, 10 shown. *)
Lemma X12_found_count_witness :
  exists title entries,
    Nasa.rover_result (H := Example.builtins) "curiosity" (JArr Example.photos_25)
    = Ok (title :: ("Found " +:+ "25" +:+ " photos" +:+ nl) :: entries)
    /\ length entries = 10%nat.
Proof.
  destruct (Nasa.rover_result (H := Example.builtins) "curiosity"
              (JArr Example.photos_25)) as [result|x] eqn:E;
    [|vm_compute in E; discriminate].
  destruct (proj1 (X12_found_count (H := Example.builtins) Example.photos_25 result)
              "curiosity" E) as (entries & -> & Hlen).
  eexists _, entries. split; [reflexivity | exact Hlen].
Defined.

(** ** Nothing found *)

(** When the list of results under ["result"] can be read, so can the
    count beside it. *)
Lemma result_count_readable (data results : json) :
  (get data "result" (JObj []) ≫= fun r => get r "results" (JArr [])) = Ok results ->
  exists total,
    (get data "result" (JObj []) ≫= fun r => get r "count" (JNum 0)) = Ok total.
Proof.
  destruct data as [| | | | |fields]; try discriminate. simpl.
  destruct (default (JObj []) (dict_lookup "result" fields)) as [| | | | |r];
    try discriminate.
  simpl. intros _. eexists. reflexivity.
Qed.

(** X13: an answer without the list a tool is after, or with an empty
    one, is not an error: after its one request the tool returns a text
    that says so. This holds for the Mars photos, the NASA image search,
    both dataset searches and both dataset lookups. *)
Theorem X13_nothing_found `{PyBuiltins} (e : env) (log : list request) (data : json) :
  (forall rover sol earth_date camera found,
      let req := ("https://api.nasa.gov/mars-photos/api/v1/rovers/" +:+ lower rover
                    +:+ "/photos",
                  Some (Nasa.rover_params (config e) sol earth_date camera)) in
      answers e log req data ->
      get data "photos" (JArr []) = Ok found -> truthy found = false ->
      Nasa.get_mars_rover_photos rover sol earth_date camera e log
      = (Ok ("No photos found for " +:+ lower rover +:+ " with the specified parameters"),
         log ++ [req]))
  /\ (forall query media_type found,
         let req := ("https://images-api.nasa.gov/search",
                     Some [("q", JStr query); ("media_type", JStr media_type)]) in
         answers e log req data ->
         (get data "collection" (JObj []) ≫= fun c => get c "items" (JArr [])) = Ok found ->
         truthy found = false ->
         Nasa.search_nasa_images query media_type e log
         = (Ok ("No results found for '" +:+ query +:+ "'"), log ++ [req]))
  /\ (forall query limit found,
         let req := ("https://data.europa.eu/api/hub/search/datasets",
                     Some (EuData.search_params query limit)) in
         answers e log req data ->
         (get data "result" (JObj []) ≫= fun r => get r "results" (JArr [])) = Ok found ->
         truthy found = false ->
         EuData.search_eu_datasets query limit e log
         = (Ok ("No EU datasets found for '" +:+ query +:+ "'"), log ++ [req]))
  /\ (forall query rows found,
         let req := ("https://catalog.data.gov/api/3/action/package_search",
                     Some (Datagov.search_params query rows)) in
         answers e log req data ->
         (get data "result" (JObj []) ≫= fun r => get r "results" (JArr [])) = Ok found ->
         truthy found = false ->
         Datagov.search_datasets query rows e log
         = (Ok ("No datasets found for '" +:+ query +:+ "'"), log ++ [req]))
  /\ (forall dataset_id found,
         let req := ("https://data.europa.eu/api/hub/search/datasets/" +:+ dataset_id,
                     None) in
         answers e log req data ->
         get data "result" (JObj []) = Ok found -> truthy found = false ->
         EuData.get_eu_dataset_info dataset_id e log
         = (Ok ("Dataset not found: " +:+ dataset_id), log ++ [req]))
  /\ (forall dataset_id found,
         let req := ("https://catalog.data.gov/api/3/action/package_show",
                     Some [("id", JStr dataset_id)]) in
         answers e log req data ->
         get data "result" (JObj []) = Ok found -> truthy found = false ->
         Datagov.get_dataset_info dataset_id e log
         = (Ok ("Dataset not found: " +:+ dataset_id), log ++ [req])).
Proof.
  split; [|split; [|split; [|split; [|split]]]].
  - intros rover sol earth_date camera found req Ha Hf Ht.
    unfold Nasa.get_mars_rover_photos.
    unfold mbind at 1, M_bind at 1, read_config. cbv beta iota.
    erewrite bind_ok; [|exact (fetch_json_answers _ _ _ _ _ Ha)].
    unfold mbind at 1, M_bind at 1, lift. rewrite Hf, Ht. reflexivity.
  - intros query media_type found req Ha Hf Ht.
    unfold Nasa.search_nasa_images.
    erewrite bind_ok; [|exact (fetch_json_answers _ _ _ _ _ Ha)].
    unfold mbind at 1, M_bind at 1, lift. rewrite Hf, Ht. reflexivity.
  - intros query limit found req Ha Hf Ht.
    destruct (result_count_readable _ _ Hf) as [total Htotal].
    unfold EuData.search_eu_datasets.
    erewrite bind_ok; [|exact (fetch_json_answers _ _ _ _ _ Ha)].
    unfold mbind at 1, M_bind at 1, lift. rewrite Hf.
    unfold mbind at 1, M_bind at 1. rewrite Htotal, Ht. reflexivity.
  - intros query rows found req Ha Hf Ht.
    destruct (result_count_readable _ _ Hf) as [total Htotal].
    unfold Datagov.search_datasets.
    erewrite bind_ok; [|exact (fetch_json_answers _ _ _ _ _ Ha)].
    unfold mbind at 1, M_bind at 1, lift. rewrite Hf.
    unfold mbind at 1, M_bind at 1. rewrite Htotal, Ht. reflexivity.
  - intros dataset_id found req Ha Hf Ht.
    unfold EuData.get_eu_dataset_info.
    erewrite bind_ok; [|exact (fetch_json_answers _ _ _ _ _ Ha)].
    unfold mbind at 1, M_bind at 1, lift. rewrite Hf, Ht. reflexivity.
  - intros dataset_id found req Ha Hf Ht.
    unfold Datagov.get_dataset_info.
    erewrite bind_ok; [|exact (fetch_json_answers _ _ _ _ _ Ha)].
    unfold mbind at 1, M_bind at 1, lift. rewrite Hf, Ht. reflexivity.
Qed.

(** X13 at work: a dataset that Data.gov does not know, answered with an
    empty object. *)
Lemma X13_nothing_found_witness :
  Datagov.get_dataset_info (H := Example.builtins) "no-such-id"
    (Example.answering Example.no_keys (Response 200 "{}" (Some (JObj [])))) []
  = (Ok ("Dataset not found: " +:+ "no-such-id"),
     [] ++ [("https://catalog.data.gov/api/3/action/package_show",
             Some [("id", JStr "no-such-id")])]).
Proof.
  apply (proj2 (proj2 (proj2 (proj2 (proj2
           (X13_nothing_found (H := Example.builtins)
              (Example.answering Example.no_keys (Response 200 "{}" (Some (JObj []))))
              [] (JObj []))))))
           "no-such-id" (JObj [])).
  - exists 200, "{}". split; reflexivity.
  - reflexivity.
  - reflexivity.
Defined.

(** ** The economics tools *)

Section Indicators.
Context `{PyBuiltins}.

Lemma fetch_indicator_total (country indicator : string) e log :
  exists line,
    Economics.fetch_indicator country indicator e log
    = (Ok line, log ++ [(Economics.indicator_url country indicator,
                         Some Economics.indicator_params)]).
Proof.
  unfold Economics.fetch_indicator, try_except. unfold mbind, M_bind.
  pose proof (fetch_json_log (Economics.indicator_url country indicator)
                (Some Economics.indicator_params) e log) as Hlog.
  unfold log_after in Hlog.
  destruct (fetch_json _ _ e log) as [[data|x] log']; simpl in Hlog; subst log'.
  - unfold lift. destruct (Economics.indicator_line indicator data) as [line|x];
      eexists; reflexivity.
  - eexists; reflexivity.
Qed.

Lemma fetch_indicator_error (country indicator : string) e log x :
  raises (fetch_json (Economics.indicator_url country indicator)
                     (Some Economics.indicator_params)) e log x ->
  Economics.fetch_indicator country indicator e log
  = (Ok (Some ("- " +:+ indicator +:+ ": Error fetching data")),
     log ++ [(Economics.indicator_url country indicator,
              Some Economics.indicator_params)]).
Proof.
  intros Hx. unfold raises in Hx.
  unfold Economics.fetch_indicator, try_except. unfold mbind, M_bind.
  pose proof (fetch_json_log (Economics.indicator_url country indicator)
                (Some Economics.indicator_params) e log) as Hlog.
  unfold log_after in Hlog.
  destruct (fetch_json _ _ e log) as [[data|y] log2]; simpl in *; subst log2.
  - discriminate.
  - reflexivity.
Qed.

(** The loop over the indicators: one request each, in order, and the
    line of an indicator is what its iteration gives after the requests
    for the indicators before it. *)
Lemma fetch_indicators_total (country : string) (asked : list string) e log :
  let request := fun i => (Economics.indicator_url country i,
                           Some Economics.indicator_params) in
  exists found,
    mapM (Economics.fetch_indicator country) asked e log
    = (Ok found, log ++ (request <$> asked))
    /\ length found = length asked
    /\ forall n indicator,
         asked !! n = Some indicator ->
         exists line,
           found !! n = Some line
           /\ Economics.fetch_indicator country indicator e
                (log ++ (request <$> take n asked))
              = (Ok line, log ++ (request <$> take (S n) asked)).
Proof.
  intros request. revert log; induction asked as [|i asked IH]; intros log.
  - exists []. split; [|split; [reflexivity | intros n indicator Hn; discriminate]].
    simpl. unfold mret, M_ret. now rewrite app_nil_r.
  - destruct (fetch_indicator_total country i e log) as [line Hline].
    destruct (IH (log ++ [request i])) as (found & Hfound & Hlen & Hnth).
    exists (line :: found). split; [|split; [simpl; now rewrite Hlen |]].
    + cbn [mapM]. erewrite bind_ok; [|exact Hline].
      erewrite bind_ok; [|exact Hfound].
      unfold mret, M_ret. cbn [fmap list_fmap]. now rewrite <- app_assoc.
    + intros [|n] indicator Hn.
      * injection Hn as <-. exists line. split; [reflexivity |].
        cbn [take fmap list_fmap]. now rewrite app_nil_r.
      * destruct (Hnth n indicator Hn) as (line' & Hl & Hf).
        exists line'. split; [exact Hl |].
        cbn [take fmap list_fmap].
        change (request i :: (request <$> take n asked))
          with ([request i] ++ (request <$> take n asked)).
        change (request i :: (request <$> take (S n) asked))
          with ([request i] ++ (request <$> take (S n) asked)).
        rewrite !app_assoc. exact Hf.
Qed.

Lemma fetch_indicators_all_fail (country : string) (asked : list string) e log :
  let request := fun i => (Economics.indicator_url country i,
                           Some Economics.indicator_params) in
  (forall h i, In i asked -> fetch_fails (http_client e h (request i)) = true) ->
  mapM (Economics.fetch_indicator country) asked e log
  = (Ok ((fun i => Some ("- " +:+ i +:+ ": Error fetching data")) <$> asked),
     log ++ (request <$> asked)).
Proof.
  intros request. revert log. induction asked as [|i asked IH]; intros log Hfail.
  - simpl. unfold mret, M_ret. now rewrite app_nil_r.
  - destruct (fetch_json_fails (Economics.indicator_url country i)
                (Some Economics.indicator_params) e log) as [x Hx].
    { apply (Hfail log i). now left. }
    cbn [mapM]. erewrite bind_ok.
    2: { apply (fetch_indicator_error country i e log x).
         unfold raises. now rewrite Hx. }
    erewrite bind_ok; [|apply IH; intros; apply Hfail; now right].
    unfold mret, M_ret. cbn [fmap list_fmap]. now rewrite <- app_assoc.
Qed.

End Indicators.

(** X14: [get_country_indicators] never raises: whatever the upstream
    does, it returns its header followed by the lines of the indicators
    asked for, at most one each and in their order, having made exactly
    one request per indicator; the line of an indicator is the one its
    iteration gives after the requests for the indicators before it,
    and it is "- <indicator>: Error fetching data" when the fetch of
    that iteration raises. So when every fetch fails the output is the
    header and one such line per indicator. With [None] or an empty
    list the tool asks for its four default indicators. *)
Theorem X14_country_indicators_total `{PyBuiltins} (e : env) (log : list request)
    (country : string) (indicators : option (list string)) :
  let asked := Economics.indicators_or_default indicators in
  let request := fun i => (Economics.indicator_url country i,
                           Some Economics.indicator_params) in
  let header := "**Economic Indicators for " +:+ upper country +:+ "**" +:+ nl in
  (exists found : list (option string),
      Economics.get_country_indicators country indicators e log
      = (Ok (join nl (header :: omap id found)), log ++ (request <$> asked))
      /\ length found = length asked
      /\ (length (omap id found) <= length asked)%nat
      /\ (forall n indicator,
             asked !! n = Some indicator ->
             exists line,
               found !! n = Some line
               /\ Economics.fetch_indicator country indicator e
                    (log ++ (request <$> take n asked))
                  = (Ok line, log ++ (request <$> take (S n) asked)))
      /\ (forall n indicator x,
             asked !! n = Some indicator ->
             raises (fetch_json (Economics.indicator_url country indicator)
                                (Some Economics.indicator_params))
                    e (log ++ (request <$> take n asked)) x ->
             found !! n = Some (Some ("- " +:+ indicator +:+ ": Error fetching data"))))
  /\ ((forall h i, In i asked -> fetch_fails (http_client e h (request i)) = true) ->
      Economics.get_country_indicators country indicators e log
      = (Ok (join nl (header :: ((fun i => "- " +:+ i +:+ ": Error fetching data")
                                   <$> asked))),
         log ++ (request <$> asked)))
  /\ (indicators = None \/ indicators = Some [] ->
      asked = ["NY.GDP.MKTP.CD"; "SP.POP.TOTL"; "SI.POV.DDAY"; "NY.GDP.PCAP.CD"])
  /\ (forall i l, indicators = Some (i :: l) -> asked = i :: l).
Proof.
  intros asked request header. split; [|split; [|split]].
  - destruct (fetch_indicators_total country asked e log)
      as (found & Hfound & Hlen & Hnth).
    exists found. split; [|split; [exact Hlen |split; [|split]]].
    + unfold Economics.get_country_indicators. fold asked.
      erewrite bind_ok; [|exact Hfound]. reflexivity.
    + rewrite <- Hlen. clear. induction found as [|[l|] found IH]; cbn in *; lia.
    + exact Hnth.
    + intros n indicator x Hn Hx.
      destruct (Hnth n indicator Hn) as (line & Hline & Hf).
      rewrite (fetch_indicator_error country indicator e _ x Hx) in Hf.
      injection Hf as <-. exact Hline.
  - intros Hfail. unfold Economics.get_country_indicators. fold asked.
    erewrite bind_ok;
      [|exact (fetch_indicators_all_fail country asked e log Hfail)].
    assert (omap id ((fun i => Some ("- " +:+ i +:+ ": Error fetching data")) <$> asked)
            = (fun i => "- " +:+ i +:+ ": Error fetching data") <$> asked) as ->.
    { clear. induction asked as [|i asked IH]; [reflexivity |].
      cbn [fmap list_fmap omap list_omap id]. f_equal. exact IH. }
    reflexivity.
  - intros [-> | ->]; reflexivity.
  - intros i l ->. reflexivity.
Qed.

(** X14 at work: the World Bank is out of reach and no indicator is
    named. *)
Lemma X14_country_indicators_total_witness :
  Economics.get_country_indicators (H := Example.builtins) "usa" None
    (Example.answering Example.no_keys TimeoutException) []
  = (Ok (join nl [ "**Economic Indicators for USA**" +:+ nl;
                   "- NY.GDP.MKTP.CD: Error fetching data";
                   "- SP.POP.TOTL: Error fetching data";
                   "- SI.POV.DDAY: Error fetching data";
                   "- NY.GDP.PCAP.CD: Error fetching data" ]),
     [] ++ ((fun i => (Economics.indicator_url "usa" i, Some Economics.indicator_params))
              <$> ["NY.GDP.MKTP.CD"; "SP.POP.TOTL"; "SI.POV.DDAY"; "NY.GDP.PCAP.CD"]))
  /\ Economics.indicators_or_default None
     = ["NY.GDP.MKTP.CD"; "SP.POP.TOTL"; "SI.POV.DDAY"; "NY.GDP.PCAP.CD"].
Proof.
  pose proof (X14_country_indicators_total (H := Example.builtins)
                (Example.answering Example.no_keys TimeoutException) [] "usa" None)
    as (_ & Hfail & Hdefault & _).
  split.
  - apply Hfail. intros h i _. reflexivity.
  - apply Hdefault. now left.
Defined.

(** Inserting before a list in descending order whose head is no larger
    puts the element first. *)
Lemma sort_desc_sorted_id {A} (l : list (Q * A)) :
  descending l -> Economics.sort_desc l = l.
Proof.
  unfold descending. induction 1 as [|x l Hs IH Hx]; [reflexivity |].
  unfold Economics.sort_desc in *. cbn [foldr]. rewrite IH.
  destruct l as [|y l]; [reflexivity |]. simpl.
  destruct (Qlt_le_dec (fst x) (fst y)) as [Hlt | Hle]; [|reflexivity].
  exfalso. apply Forall_cons in Hx as [Hy _]. simpl in Hy.
  now apply (Qlt_not_le _ _ Hlt).
Qed.

(** X15: the sort of [compare_countries] keeps the order it is given
    wherever it can: data points whose values are already in descending
    order, equal values included, are rendered in the order of the
    requests, the result being the header and their renderings, or the
    error of the first rendering that raises; and sorting a second time
    changes nothing. *)
Theorem X15_sort_keeps_sorted_order `{PyBuiltins} (indicator : string)
    (data_points : list Economics.data_point) (k : list (Q * Economics.data_point)) :
  Economics.keyed data_points = Ok k ->
  Economics.sort_desc (Economics.sort_desc k) = Economics.sort_desc k
  /\ (descending k ->
      Economics.compare_results indicator data_points
      = (fun entries =>
           ("**Comparing "
              +:+ default indicator (Economics.indicator_names !! indicator)
              +:+ "**" +:+ nl) :: entries)
          <$> mapM (Economics.render_point indicator) k).
Proof.
  intros Hk. split.
  - apply sort_desc_sorted_id, sort_desc_sorted.
  - intros Hd. unfold Economics.compare_results. rewrite Hk.
    cbn [fmap result_fmap mbind result_bind].
    rewrite (sort_desc_sorted_id _ Hd).
    now destruct (mapM (Economics.render_point indicator) k).
Qed.

(** X15 at work: two countries of the same value stay in request order. *)
Lemma X15_sort_keeps_sorted_order_witness :
  Economics.compare_results (H := Example.builtins) "SP.POP.TOTL"
    [(JStr "A", JNum 5, JStr "2023"); (JStr "B", JNum 5, JStr "2023")]
  = (fun entries =>
       ("**Comparing "
          +:+ default "SP.POP.TOTL" (Economics.indicator_names !! "SP.POP.TOTL")
          +:+ "**" +:+ nl) :: entries)
      <$> mapM (Economics.render_point (H := Example.builtins) "SP.POP.TOTL")
            [(5%Q, (JStr "A", JNum 5, JStr "2023"));
             (5%Q, (JStr "B", JNum 5, JStr "2023"))].
Proof.
  apply (proj2 (X15_sort_keeps_sorted_order (H := Example.builtins) "SP.POP.TOTL"
                  [(JStr "A", JNum 5, JStr "2023"); (JStr "B", JNum 5, JStr "2023")]
                  [(5%Q, (JStr "A", JNum 5, JStr "2023"));
                   (5%Q, (JStr "B", JNum 5, JStr "2023"))] eq_refl)).
  repeat constructor; simpl; apply Qle_refl.
Defined.

(** X16: when the fetch fails for every country (and so also for an
    empty list of countries) [compare_countries] does not raise: after
    its one request per country it returns the header alone. *)
Theorem X16_compare_all_failed `{PyBuiltins} (e : env) (indicator : string)
    (countries : list string) (log : list request) :
  (forall h c, In c countries ->
               fetch_fails (http_client e h (compare_request indicator c)) = true) ->
  Economics.compare_countries countries indicator e log
  = (Ok ("**Comparing " +:+ default indicator (Economics.indicator_names !! indicator)
           +:+ "**" +:+ nl),
     log ++ (compare_request indicator <$> countries)).
Proof.
  intros Hfail.
  assert (mapM (Economics.fetch_point indicator) countries e log
          = (Ok ((fun _ => None) <$> countries),
             log ++ (compare_request indicator <$> countries))) as Hloop.
  { revert log. induction countries as [|c cs IH]; intros log.
    - simpl. unfold mret, M_ret. now rewrite app_nil_r.
    - destruct (fetch_json_fails (Economics.indicator_url c indicator)
                  (Some Economics.compare_params) e log) as [x Hx].
      { apply (Hfail log c). now left. }
      cbn [mapM]. erewrite bind_ok.
      2: { apply (fetch_point_swallows indicator c e log x).
           unfold raises. now rewrite Hx. }
      erewrite bind_ok; [|apply IH; intros; apply Hfail; now right].
      unfold mret, M_ret. cbn [fmap list_fmap]. now rewrite <- app_assoc. }
  unfold Economics.compare_countries, Economics.collect_points.
  erewrite bind_ok.
  2: { erewrite bind_ok; [|exact Hloop]. reflexivity. }
  assert (omap id ((fun _ : string => @None Economics.data_point) <$> countries) = [])
    as -> by (clear; induction countries as [|c cs IH]; [reflexivity | exact IH]).
  unfold mbind, M_bind, lift, Economics.compare_results. simpl.
  reflexivity.
Qed.

(** X16 at work: three countries and an upstream that times out. *)
Lemma X16_compare_all_failed_witness :
  Economics.compare_countries (H := Example.builtins) ["USA"; "CHN"; "IND"] "SP.POP.TOTL"
    (Example.answering Example.no_keys TimeoutException) []
  = (Ok ("**Comparing "
           +:+ default "SP.POP.TOTL" (Economics.indicator_names !! "SP.POP.TOTL")
           +:+ "**" +:+ nl),
     [] ++ (compare_request "SP.POP.TOTL" <$> ["USA"; "CHN"; "IND"])).
Proof.
  apply (X16_compare_all_failed (H := Example.builtins)
           (Example.answering Example.no_keys TimeoutException) "SP.POP.TOTL"
           ["USA"; "CHN"; "IND"] []).
  intros h c _. reflexivity.
Defined.

(** X17: what a World Bank answer must hold for a country to enter the
    comparison. A country is skipped, without an error, when its answer
    is a list of fewer than two elements (the shape of an error message),
    when the second element is null or empty, and when the value of the
    first record is null or missing, whatever else the record holds.
    With a value, the data point carries the name the record gives under
    country.value, and the country code that was asked for when the
    record names no country. *)
Theorem X17_fetch_point_skips `{PyBuiltins} (e : env) (log : list request)
    (indicator country : string) (data : json) :
  answers e log (compare_request indicator country) data ->
  let skipped :=
    Economics.fetch_point indicator country e log
    = (Ok None, log ++ [compare_request indicator country]) in
  (forall items, data = JArr items -> (length items <= 1)%nat -> skipped)
  /\ (forall meta second rest,
         data = JArr (meta :: second :: rest) -> truthy second = false -> skipped)
  /\ (forall meta record records rest,
         data = JArr (meta :: JArr (JObj record :: records) :: rest) ->
         (dict_lookup "value" record = None \/ dict_lookup "value" record = Some JNull
          -> skipped)
         /\ (forall value,
                dict_lookup "value" record = Some value -> value <> JNull ->
                dict_lookup "country" record = None ->
                Economics.fetch_point indicator country e log
                = (Ok (Some (JStr country, value,
                             default JNull (dict_lookup "date" record))),
                   log ++ [compare_request indicator country]))
         /\ (forall value names,
                dict_lookup "value" record = Some value -> value <> JNull ->
                dict_lookup "country" record = Some (JObj names) ->
                Economics.fetch_point indicator country e log
                = (Ok (Some (default (JStr country) (dict_lookup "value" names), value,
                             default JNull (dict_lookup "date" record))),
                   log ++ [compare_request indicator country]))).
Proof.
  intros Ha skipped. subst skipped.
  assert (Economics.fetch_point indicator country e log
          = (match Economics.extract_point country data with
             | Ok found => Ok found
             | Raise _ => Ok None
             end, log ++ [compare_request indicator country])) as Heq.
  { unfold Economics.fetch_point, try_except, compare_request in *.
    erewrite bind_ok; [|exact (fetch_json_answers _ _ _ _ _ Ha)].
    unfold lift. now destruct (Economics.extract_point country data). }
  rewrite Heq. split; [|split].
  - intros items -> Hlen. destruct items as [|a [|b items]]; try reflexivity.
    simpl in Hlen. lia.
  - intros meta second rest -> Hf. unfold Economics.extract_point. simpl.
    now rewrite Hf.
  - intros meta record records rest ->. split; [|split].
    + intros [Hv | Hv]; unfold Economics.extract_point; simpl; rewrite Hv;
        destruct (dict_lookup "country" record) as [[]|]; reflexivity.
    + intros value Hv Hne Hc. unfold Economics.extract_point. simpl.
      rewrite Hv, Hc. simpl. destruct value; try reflexivity. congruence.
    + intros value names Hv Hne Hc. unfold Economics.extract_point. simpl.
      rewrite Hv, Hc. simpl. destruct value; try reflexivity. congruence.
Qed.

(** X17 at work: the World Bank answers an unknown country with a list
    that holds one message, and a known one with a record whose value
    is null. *)
Lemma X17_fetch_point_skips_witness :
  Economics.fetch_point "SP.POP.TOTL" "XYZ"
    (Example.answering Example.no_keys
       (Response 200 "" (Some (JArr [JObj [("message", JStr "Invalid value")]])))) []
  = (Ok None, [] ++ [compare_request "SP.POP.TOTL" "XYZ"])
  /\ Economics.fetch_point "SP.POP.TOTL" "USA"
       (Example.answering Example.no_keys
          (Response 200 ""
             (Some (JArr [JObj [("page", JNum 1)];
                          JArr [JObj [("country", JStr "United States");
                                      ("value", JNull)]]])))) []
     = (Ok None, [] ++ [compare_request "SP.POP.TOTL" "USA"]).
Proof.
  split.
  - apply (proj1 (X17_fetch_point_skips (H := Example.builtins)
                    (Example.answering Example.no_keys
                       (Response 200 ""
                          (Some (JArr [JObj [("message", JStr "Invalid value")]])))) []
                    "SP.POP.TOTL" "XYZ"
                    (JArr [JObj [("message", JStr "Invalid value")]])
                    ltac:(exists 200, ""; split; reflexivity))
             [JObj [("message", JStr "Invalid value")]] eq_refl).
    simpl. lia.
  - apply (proj1 (proj2 (proj2 (X17_fetch_point_skips (H := Example.builtins)
                    (Example.answering Example.no_keys
                       (Response 200 ""
                          (Some (JArr [JObj [("page", JNum 1)];
                                       JArr [JObj [("country", JStr "United States");
                                                   ("value", JNull)]]])))) []
                    "SP.POP.TOTL" "USA"
                    (JArr [JObj [("page", JNum 1)];
                           JArr [JObj [("country", JStr "United States");
                                       ("value", JNull)]]])
                    ltac:(exists 200, ""; split; reflexivity)))
                  (JObj [("page", JNum 1)])
                  [("country", JStr "United States"); ("value", JNull)] [] []
                  eq_refl)).
    now right.
Defined.

(** ** The dataset catalogues *)

(** X18: corner cases of a multilingual field. An "en" entry that is
    present but empty is passed over for the first entry of the mapping,
    which is the empty "en" entry itself when that comes first. A field
    that is no mapping is rendered with [str]: a plain string is the
    title as it is and a null title is the text "None". A dataset
    without the field at all gets the placeholder. *)
Theorem X18_multilingual_corner_cases `{PyBuiltins} (m : list (string * string))
    (placeholder : string) :
  (text_of "en" m = Some "" ->
   exists lang text,
     m !! 0%nat = Some (lang, text)
     /\ EuData.multilingual (multilingual_obj m) placeholder = Ok (JStr text))
  /\ (forall s ds,
         EuData.extract_title (JObj (dict_set "title" (JStr s) ds)) = Ok (JStr s))
  /\ (forall ds,
         EuData.extract_title (JObj (dict_set "title" JNull ds)) = Ok (JStr "None"))
  /\ (forall ds,
         dict_lookup "title" ds = None ->
         EuData.extract_title (JObj ds) = Ok (JStr "Untitled")).
Proof.
  split; [|split; [|split]].
  - intros Hen. destruct m as [|[lang text] m']; [discriminate |].
    exists lang, text. split; [reflexivity |].
    unfold EuData.multilingual, multilingual_obj.
    rewrite dict_lookup_multilingual, Hen. reflexivity.
  - intros s ds. now rewrite extract_title_field.
  - intros ds. now rewrite extract_title_field.
  - intros ds Hd. unfold EuData.extract_title, get. now rewrite Hd.
Qed.

(** X18 at work: an empty English title before a French one, and after
    it. *)
Lemma X18_multilingual_corner_cases_witness :
  (exists lang text,
      [("en", ""); ("fr", "Bonjour")] !! 0%nat = Some (lang, text)
      /\ EuData.multilingual (H := Example.builtins)
           (multilingual_obj [("en", ""); ("fr", "Bonjour")]) "Untitled"
         = Ok (JStr text))
  /\ (exists lang text,
         [("fr", "Bonjour"); ("en", "")] !! 0%nat = Some (lang, text)
         /\ EuData.multilingual (H := Example.builtins)
              (multilingual_obj [("fr", "Bonjour"); ("en", "")]) "Untitled"
            = Ok (JStr text)).
Proof.
  split.
  - apply (proj1 (X18_multilingual_corner_cases (H := Example.builtins)
                    [("en", ""); ("fr", "Bonjour")] "Untitled")).
    reflexivity.
  - apply (proj1 (X18_multilingual_corner_cases (H := Example.builtins)
                    [("fr", "Bonjour"); ("en", "")] "Untitled")).
    reflexivity.
Defined.

(** X19: both dataset lookups list at most ten files. For a non-empty
    list of distributions (EU) or resources (Data.gov) the lines are the
    heading and the renderings of the first ten items, the items beyond
    the tenth not being looked at; for an empty list there is no line at
    all, the heading included. *)
Theorem X19_dataset_files_capped `{PyBuiltins} (item : json) (items : list json)
    (lines : list string) :
  (EuData.distribution_lines (JArr (item :: items)) = Ok lines ->
   exists entries,
     lines = "**Available Distributions:**" :: entries
     /\ mapM EuData.distribution_entry (take 10 (item :: items)) = Ok entries
     /\ length entries = Nat.min 10 (S (length items)))
  /\ (Datagov.resource_lines (JArr (item :: items)) = Ok lines ->
      exists entries,
        lines = "**Available Resources:**" :: entries
        /\ mapM Datagov.resource_entry (take 10 (item :: items)) = Ok entries
        /\ length entries = Nat.min 10 (S (length items)))
  /\ EuData.distribution_lines (JArr []) = Ok []
  /\ Datagov.resource_lines (JArr []) = Ok [].
Proof.
  split; [|split; [|split; reflexivity]].
  - intros Hr. unfold EuData.distribution_lines in Hr.
    change (truthy (JArr (item :: items))) with true in Hr. cbv iota in Hr.
    change (slice_to (JArr (item :: items)) 10 ≫= iter)
      with (Ok (take 10 (item :: items))) in Hr.
    unfold mbind at 1, result_bind at 1 in Hr.
    destruct (mapM EuData.distribution_entry (take 10 (item :: items)))
      as [entries|] eqn:E; [|discriminate].
    simpl in Hr. injection Hr as <-. exists entries.
    split; [reflexivity |]. split; [reflexivity |].
    rewrite (mapM_result_length _ _ _ E). apply (length_take (item :: items) 10).
  - intros Hr. unfold Datagov.resource_lines in Hr.
    change (truthy (JArr (item :: items))) with true in Hr. cbv iota in Hr.
    change (slice_to (JArr (item :: items)) 10 ≫= iter)
      with (Ok (take 10 (item :: items))) in Hr.
    unfold mbind at 1, result_bind at 1 in Hr.
    destruct (mapM Datagov.resource_entry (take 10 (item :: items)))
      as [entries|] eqn:E; [|discriminate].
    simpl in Hr. injection Hr as <-. exists entries.
    split; [reflexivity |]. split; [reflexivity |].
    rewrite (mapM_result_length _ _ _ E). apply (length_take (item :: items) 10).
Qed.

(** X19 at work: a dataset with 12 distributions. *)
Lemma X19_dataset_files_capped_witness :
  exists entries,
    EuData.distribution_lines (H := Example.builtins) (JArr Example.distributions_12)
    = Ok ("**Available Distributions:**" :: entries)
    /\ length entries = 10%nat.
Proof.
  destruct (EuData.distribution_lines (H := Example.builtins)
              (JArr Example.distributions_12)) as [lines|x] eqn:E;
    [|vm_compute in E; discriminate].
  destruct (proj1 (X19_dataset_files_capped (H := Example.builtins)
                     (JObj [("title", JObj [("en", JStr "CSV export")]);
                            ("format", JStr "CSV");
                            ("accessUrl", JStr "https://data.europa.eu/x.csv")])
                     (replicate 11
                        (JObj [("title", JObj [("en", JStr "CSV export")]);
                               ("format", JStr "CSV");
                               ("accessUrl", JStr "https://data.europa.eu/x.csv")]))
                     lines) E) as (entries & -> & _ & Hlen).
  exists entries. split; [reflexivity | exact Hlen].
Defined.

Lemma mapM_result_raise {A B} (f : A -> result B) (l : list A) :
  Exists (fun x => exists e, f x = Raise e) l -> exists e, mapM f l = Raise e.
Proof.
  induction 1 as [x l [e He] | x l _ [e He]]; cbn [mapM].
  - rewrite He. now exists e.
  - destruct (f x) as [y|e']; [|now exists e'].
    simpl. rewrite He. now exists e.
Qed.

Lemma suffix_cons (c : ascii) (s t : string) :
  (exists before, s = before +:+ t) -> exists before, String c s = before +:+ t.
Proof. intros [b ->]. now exists (String c b). Qed.

Lemma suffix_app (a s t : string) :
  (exists before, s = before +:+ t) -> exists before, a +:+ s = before +:+ t.
Proof. intros [b ->]. exists (a +:+ b). now rewrite string_app_assoc. Qed.

(** A dataset whose notes are null cannot be sliced. *)
Lemma search_entry_null_notes `{PyBuiltins} (fields : dict) :
  dict_lookup "notes" fields = Some JNull ->
  exists e, Datagov.search_entry (JObj fields) = Raise e.
Proof.
  intros Hn. unfold Datagov.search_entry, get. rewrite Hn. simpl.
  destruct (default (JObj []) (dict_lookup "organization" fields));
    simpl; eexists; reflexivity.
Qed.

(** X20: the Data.gov search does not survive a dataset without a
    description text. When the notes of any dataset in the answer are
    null, slicing them raises and [search_datasets] raises with it,
    after its one request, instead of returning the other datasets; only
    a dataset that has no "notes" key at all gets the text
    "No description". *)
Theorem X20_datagov_null_notes `{PyBuiltins} (e : env) (log : list request)
    (query : string) (rows : Z) (data : json) (items : list json) :
  let req := ("https://catalog.data.gov/api/3/action/package_search",
              Some (Datagov.search_params query rows)) in
  (answers e log req data ->
   (get data "result" (JObj []) ≫= fun r => get r "results" (JArr [])) = Ok (JArr items) ->
   Exists (fun ds => exists fields,
                       ds = JObj fields /\ dict_lookup "notes" fields = Some JNull)
          items ->
   exists x, Datagov.search_datasets query rows e log = (Raise x, log ++ [req]))
  /\ (forall fields entry,
         dict_lookup "notes" fields = None ->
         Datagov.search_entry (JObj fields) = Ok entry ->
         exists before, entry = before +:+ "No description" +:+ "...").
Proof.
  intros req. split.
  - intros Ha Hf Hnull.
    destruct (result_count_readable _ _ Hf) as [total Htotal].
    assert (exists x, Datagov.search_output query total (JArr items) = Raise x)
      as [x Hx].
    { unfold Datagov.search_output. simpl.
      destruct (mapM_result_raise Datagov.search_entry items) as [x Hx].
      - eapply Exists_impl; [exact Hnull |].
        intros ds (fields & -> & Hn). now apply search_entry_null_notes.
      - rewrite Hx. now exists x. }
    exists x. unfold Datagov.search_datasets.
    erewrite bind_ok; [|exact (fetch_json_answers _ _ _ _ _ Ha)].
    unfold mbind at 1, M_bind at 1, lift. rewrite Hf.
    unfold mbind at 1, M_bind at 1. rewrite Htotal.
    destruct items as [|item items]; [inversion Hnull |].
    change (truthy (JArr (item :: items))) with true.
    change (negb true) with false. cbv iota.
    unfold mbind at 1, M_bind at 1. now rewrite Hx.
  - intros fields entry Hn He. unfold Datagov.search_entry in He.
    unfold mbind, result_bind, mret, result_ret, get in He.
    rewrite Hn in He. cbv beta iota in He.
    destruct (default (JObj []) (dict_lookup "organization" fields))
      as [| | | | |org]; try discriminate He.
    change (default (JStr "No description") None) with (JStr "No description") in He.
    unfold slice_to at 1 in He. cbv beta iota in He.
    destruct (len (default (JArr []) (dict_lookup "resources" fields))) as [num|];
      try discriminate He.
    injection He as <-.
    repeat first [ now exists "" | apply suffix_cons | apply suffix_app ].
Qed.

(** X20 at work: the second of two datasets has null notes. *)
Lemma X20_datagov_null_notes_witness :
  exists x,
    Datagov.search_datasets (H := Example.builtins) "quality" 10
      (Example.answering Example.no_keys
         (Response 200 "" (Some Example.search_with_null_notes))) []
    = (Raise x,
       [] ++ [("https://catalog.data.gov/api/3/action/package_search",
               Some (Datagov.search_params "quality" 10))]).
Proof.
  apply (proj1 (X20_datagov_null_notes (H := Example.builtins)
                  (Example.answering Example.no_keys
                     (Response 200 "" (Some Example.search_with_null_notes))) []
                  "quality" 10 Example.search_with_null_notes
                  [JObj [("title", JStr "Air quality"); ("notes", JStr "Hourly.")];
                   JObj [("title", JStr "Water quality"); ("notes", JNull)]])).
  - exists 200, "". split; reflexivity.
  - reflexivity.
  - right. left. eexists. split; reflexivity.
Defined.

(** X21: both dataset searches ask for at most 50 results: the count
    sent is the smaller of the count given and 50, so a count up to 50,
    zero and negative counts included, is sent as it is, and a larger
    one is sent as 50. Each search makes exactly one request. *)
Theorem X21_search_count_clamped `{PyBuiltins} (e : env) (log : list request)
    (query : string) (count : Z) :
  let sent := Z.min count 50 in
  log_after (Datagov.search_datasets query count) e log
  = log ++ [("https://catalog.data.gov/api/3/action/package_search",
             Some [("q", JStr query); ("rows", JNum (inject_Z sent))])]
  /\ log_after (EuData.search_eu_datasets query count) e log
     = log ++ [("https://data.europa.eu/api/hub/search/datasets",
                Some [("q", JStr query); ("limit", JNum (inject_Z sent))])]
  /\ sent <= 50
  /\ (count <= 50 -> sent = count)
  /\ (50 < count -> sent = 50).
Proof.
  intros sent. split; [|split; [|subst sent; lia]].
  - unfold Datagov.search_datasets. after_fetch.
  - unfold EuData.search_eu_datasets. after_fetch.
Qed.

(** X21 at work: 200 results are asked for, and none. *)
Lemma X21_search_count_clamped_witness :
  Z.min 200 50 = 50 /\ Z.min 0 50 = 0.
Proof.
  split.
  - apply (proj2 (proj2 (proj2 (proj2
             (X21_search_count_clamped (H := Example.builtins)
                (Example.answering Example.no_keys TimeoutException) [] "water" 200))))).
    reflexivity.
  - apply (proj1 (proj2 (proj2 (proj2
             (X21_search_count_clamped (H := Example.builtins)
                (Example.answering Example.no_keys TimeoutException) [] "water" 0))))).
    lia.
Defined.
